(** * mstk: helpers for python-docx and python-pptx documents

    A shallow embedding of [mstk/pptxtk.py] and [mstk/docxtk.py], and the
    properties their specification states about them.

    Python values are modelled as follows.
    - [float] is IEEE 754 binary64, given by the executable specification
      [spec_float] of the core library at [prec = 53] and [emax = 1024];
      every operation rounds to nearest, ties to even, as CPython and numpy
      do.
    - [int] is [Z].
    - an exception is a value of [exn]; a call returns or raises.
    - a document (python-docx) and a slide (python-pptx) are explicit states
      that the functions thread through, so what a call has written by the
      time it raises stays visible. A table of a document is addressed by its
      position in it, because the code fills the table after adding it. *)

From Stdlib Require Import ZArith Lia Bool List Ascii String.
From Stdlib Require Import SpecFloat QArith Qcanon.
From stdpp Require Import base option list strings pretty gmap numbers.

Local Open Scope Z_scope.

(** ** Exceptions, results and stateful calls *)

Inductive exn : Type :=
| AssertionError (msg : string)
| ValueError
| TypeError
| IndexError
| OverflowError.

Inductive result (A : Type) : Type :=
| Ok (a : A)
| Raise (e : exn).
Arguments Ok {A} a.
Arguments Raise {A} e.

#[global] Instance result_ret : MRet result := fun A a => Ok a.
#[global] Instance result_bind : MBind result :=
  fun A B k r => match r with Ok a => k a | Raise e => Raise e end.
#[global] Instance result_throw : MThrow exn result := fun A e => Raise e.

Definition is_ok {A} (r : result A) : bool :=
  match r with Ok _ => true | Raise _ => false end.

(** A call that reads and writes a state of type [S]; the state it leaves is
    returned also when it raises. *)
Definition M (S A : Type) : Type := S -> result A * S.

#[global] Instance M_ret {S} : MRet (M S) := fun A a s => (Ok a, s).
#[global] Instance M_bind {S} : MBind (M S) :=
  fun A B k m s =>
    match m s with
    | (Ok a, s') => k a s'
    | (Raise e, s') => (Raise e, s')
    end.
#[global] Instance M_throw {S} : MThrow exn (M S) := fun A e s => (Raise e, s).

(** A computation without effect on the state, run inside a stateful call. *)
Definition lift {S A} (r : result A) : M S A := fun s => (r, s).

(** [assert cond, msg] *)
Definition assert {S} (cond : bool) (msg : string) : M S unit :=
  if cond then mret tt else mthrow (AssertionError msg).

(** [for x in xs: body(x)] *)
Fixpoint for_each {S A} (xs : list A) (body : A -> M S unit) : M S unit :=
  match xs with
  | [] => mret tt
  | x :: xs' => body x ;; for_each xs' body
  end.

(** [range(n)] and [enumerate(xs)] *)
Definition range (n : nat) : list nat := seq 0 n.
Definition enumerate {A} (xs : list A) : list (nat * A) := zip (seq 0 (length xs)) xs.

(** [xs[i]]: out of range raises [IndexError]. *)
Definition getitem {A} (xs : list A) (i : nat) : result A :=
  match xs !! i with Some a => Ok a | None => Raise IndexError end.

(** [str(x)] for the values put in table cells. *)
Class Str (V : Type) : Type := str : V -> string.
#[global] Instance str_string : Str string := fun s => s.

(** ** Python numbers and the builtins the code calls *)

Module Py.

(** *** binary64 *)

Definition prec : Z := 53.
Definition emax : Z := 1024.

Definition float : Type := spec_float.

Definition fadd : float -> float -> float := SFadd prec emax.
Definition fsub : float -> float -> float := SFsub prec emax.
Definition fmul : float -> float -> float := SFmul prec emax.
Definition fdiv : float -> float -> float := SFdiv prec emax.
Definition feqb : float -> float -> bool := SFeqb.
Definition fltb : float -> float -> bool := SFltb.

(** [float(z)]: the binary64 nearest to the integer [z]. *)
Definition float_of_Z (z : Z) : float := binary_normalize prec emax z 0 false.

(** The binary64 nearest to the fraction [n / d] of two positive integers,
    with sign [s]. The division works on integer mantissas of any size, so
    the quotient is rounded once. *)
Definition float_of_fraction (s : bool) (n d : positive) : float :=
  fdiv (S754_finite s n 0) (S754_finite false d 0).

(** A decimal literal [m / 10^k] of the source, e.g. [1.6] is
    [decimal 16 1]. *)
Definition decimal (m : positive) (k : Z) : float :=
  float_of_fraction false m (Z.to_pos (10 ^ k)).

(** [bool(x)] of a float is [x != 0]. *)
Definition ftruthy (x : float) : bool := negb (feqb x (S754_zero false)).

(** *** What a layout function needs of numbers

    The layout functions of [pptxtk] add, multiply and compare their
    arguments and do nothing else with them, and Python runs them on any
    numeric type; they are written once over this interface. [num_zero] is
    the [0] that [sum] starts from and [num_one] the literal [1.0]. *)
Class Num (R : Type) : Type := {
  num_zero : R;
  num_one : R;
  num_add : R -> R -> R;
  num_mul : R -> R -> R;
  num_eqb : R -> R -> bool;
}.

#[global] Instance float_Num : Num float := {|
  num_zero := S754_zero false;
  num_one := float_of_Z 1;
  num_add := fadd;
  num_mul := fmul;
  num_eqb := feqb;
|}.

(** Exact rationals: the arithmetic of [fractions.Fraction]. *)
#[global] Instance Qc_Num : Num Qc := {|
  num_zero := 0%Qc;
  num_one := 1%Qc;
  num_add := Qcplus;
  num_mul := Qcmult;
  num_eqb := fun x y => Qeq_bool x y;
|}.

(** *** The numbers that values stand for

    A value of a numeric type stands for a rational number, or for none: a
    float that is a finite binary64 number stands for its real value, both
    zeros for 0, and an infinity, a NaN or a mantissa that is not one of
    binary64 for none. An operation on floats is exact when its result
    stands for the sum or the product of what its arguments stand for. *)
Class Valued (R : Type) : Type := exact_value : R -> option Q.


#[global] Instance Qc_Valued : Valued Qc := fun q => Some (this q).

(** What the equality test and the constants of a numeric type have to do
    with the numbers: [0] stands for 0, [1.0] for 1, and two values that
    stand for numbers are equal when the numbers are. *)
Class ValuedLaws (R : Type) `{Num R} `{Valued R} : Prop := {
  value_zero : exact_value num_zero = Some 0%Q;
  value_one : exists a, exact_value num_one = Some a /\ Qeq a 1%Q;
  eqb_value :
    forall x y a b, exact_value x = Some a -> exact_value y = Some b ->
                    (num_eqb x y = true <-> Qeq a b);
}.

Section Exactness.
Context {R : Type} `{Num R} `{Valued R}.

(** [x + y] and [x * y] are computed without rounding. *)
Definition exact_add (x y : R) : bool :=
  match exact_value x, exact_value y, exact_value (num_add x y) with
  | Some a, Some b, Some c => Qeq_bool c (a + b)
  | _, _, _ => false
  end.

Definition exact_mul (x y : R) : bool :=
  match exact_value x, exact_value y, exact_value (num_mul x y) with
  | Some a, Some b, Some c => Qeq_bool c (a * b)
  | _, _, _ => false
  end.

(** Every addition of the sum of [xs] from [acc], left to right, is
    exact. *)
Fixpoint exact_sum_from (acc : R) (xs : list R) : bool :=
  match xs with
  | [] => true
  | x :: xs' => exact_add acc x && exact_sum_from (num_add acc x) xs'
  end.

(** [x] stands for the number [a]. *)
Definition stands (x : R) (a : Q) : Prop :=
  exists a', exact_value x = Some a' /\ Qeq a' a.

End Exactness.

(** The sum of a list of rationals. *)
Definition qsum (l : list Q) : Q := foldr Qplus 0%Q l.

(** [sum(xs)]: the sum from left to right, starting from [0]. *)
Definition sum {R} `{Num R} (xs : list R) : R := fold_left num_add xs num_zero.

(** [np.cumsum(xs)]: the running sums; the first one is [xs[0]]. *)
Fixpoint cumsum_from {R} `{Num R} (acc : R) (xs : list R) : list R :=
  match xs with
  | [] => []
  | x :: xs' => num_add acc x :: cumsum_from (num_add acc x) xs'
  end.

Definition cumsum {R} `{Num R} (xs : list R) : list R :=
  match xs with
  | [] => []
  | x :: xs' => x :: cumsum_from x xs'
  end.

(** *** Integers in decimal *)

Definition digit_char (d : Z) : ascii := ascii_of_nat (48 + Z.to_nat d).

(** The decimal digits of [n >= 0] in front of [acc], most significant
    first. One unit of fuel is spent per digit after the last one. *)
Fixpoint digits_from (fuel : nat) (n : Z) (acc : list ascii) : list ascii :=
  match fuel with
  | O => digit_char (n mod 10) :: acc
  | S fuel' =>
      if n <? 10 then digit_char n :: acc
      else digits_from fuel' (n / 10) (digit_char (n mod 10) :: acc)
  end.

(** A number below [2 * 2^k] has at most [k + 1] decimal digits. *)
Definition digits (n : Z) : list ascii :=
  digits_from (Z.to_nat (Z.log2 n)) n [].

(** [str(z)] of an [int]. *)
Definition str_int (z : Z) : string :=
  string_of_list_ascii
    (if z <? 0 then "-"%char :: digits (- z) else digits z).

(** [len(s)] *)
Definition len (s : string) : Z := Z.of_nat (String.length s).

(** Digits in groups of three, counted from the right: [acc] holds the
    groups to the right, [k] how many digits the group in front has. *)
Fixpoint group3 (rev_digits : list ascii) (k : nat) (acc : list ascii) : list ascii :=
  match rev_digits with
  | [] => acc
  | d :: ds =>
      match k with
      | 3%nat => group3 ds 1 (d :: ","%char :: acc)
      | _ => group3 ds (S k) (d :: acc)
      end
  end.

(** [f'{z:,}'] of an [int]: the sign, then the digits with a comma between
    groups of three. *)
Definition format_comma (z : Z) : string :=
  let grouped n := group3 (rev (digits n)) 0 [] in
  string_of_list_ascii
    (if z <? 0 then "-"%char :: grouped (- z) else grouped z).

(** *** Numbers: an [int] or a [float] *)

Inductive number : Type :=
| Int (z : Z)
| Float (f : float).

(** A float against an integer, compared exactly as Python does; a NaN
    compares with nothing. *)
Definition compare_float_int (f : float) (z : Z) : option comparison :=
  match f with
  | S754_nan => None
  | S754_infinity s => Some (if s then Lt else Gt)
  | S754_zero _ => Some (0 ?= z)
  | S754_finite s m e =>
      let v := if s then Zneg m else Zpos m in
      Some (if 0 <=? e then v * 2 ^ e ?= z else v ?= z * 2 ^ (- e))
  end.

(** [x > z] and [x < z] for an integer literal [z]. *)
Definition gt (x : number) (z : Z) : bool :=
  match x with
  | Int n => z <? n
  | Float f => match compare_float_int f z with Some Gt => true | _ => false end
  end.

Definition lt (x : number) (z : Z) : bool :=
  match x with
  | Int n => n <? z
  | Float f => match compare_float_int f z with Some Lt => true | _ => false end
  end.

(** [abs(x)] *)
Definition abs (x : number) : number :=
  match x with
  | Int n => Int (Z.abs n)
  | Float f => Float (SFabs f)
  end.

(** [int(x)]: a float is truncated towards zero. *)
Definition int (x : number) : result Z :=
  match x with
  | Int n => Ok n
  | Float S754_nan => Raise ValueError
  | Float (S754_infinity _) => Raise OverflowError
  | Float (S754_zero _) => Ok 0
  | Float (S754_finite s m e) =>
      let a := if 0 <=? e then Zpos m * 2 ^ e else Zpos m / 2 ^ (- e) in
      Ok (if s then - a else a)
  end.

(** The integer nearest to [n / d] for [d > 0], a tie going to the even
    one. *)
Definition round_half_even (n d : Z) : Z :=
  let q := n / d in
  match 2 * (n mod d) ?= d with
  | Lt => q
  | Gt => q + 1
  | Eq => if Z.even q then q else q + 1
  end.

(** [round(z, ndigits)] of an [int]: unchanged for [ndigits >= 0], else the
    nearest multiple of [10^-ndigits], a tie going to the even multiple. *)
Definition round_int (z ndigits : Z) : Z :=
  if 0 <=? ndigits then z
  else round_half_even z (10 ^ (- ndigits)) * 10 ^ (- ndigits).

(** [round(x, ndigits)] of a [float], as CPython computes it: the exact value
    of [x] is rounded to [ndigits] decimals, a tie going to the even digit,
    and the decimal number obtained is read back as the nearest float. A
    result too large for a float raises; zeros, infinities and NaN are
    returned as they are. *)
Definition NDIGITS_MAX : Z := 323.
Definition NDIGITS_MIN : Z := -308.

Definition round_float (x : float) (ndigits : Z) : result float :=
  match x with
  | S754_finite s m e =>
      if NDIGITS_MAX <? ndigits then Ok x
      else if ndigits <? NDIGITS_MIN then Ok (S754_zero s)
      else
        let num := Zpos m * 2 ^ Z.max e 0 * 10 ^ Z.max ndigits 0 in
        let den := 2 ^ Z.max (- e) 0 * 10 ^ Z.max (- ndigits) 0 in
        match round_half_even num den with
        | Zpos k =>
            let r := float_of_fraction s
                       (k * Z.to_pos (10 ^ Z.max (- ndigits) 0))
                       (Z.to_pos (10 ^ Z.max ndigits 0)) in
            match r with
            | S754_infinity _ => Raise OverflowError
            | _ => Ok r
            end
        | _ => Ok (S754_zero s)
        end
  | _ => Ok x
  end.

Definition round_ndigits (x : number) (ndigits : Z) : result number :=
  match x with
  | Int n => Ok (Int (round_int n ndigits))
  | Float f => r ← round_float f ndigits; Ok (Float r)
  end.

(** [round(x)]: the nearest integer, a tie going to the even one. *)
Definition round (x : number) : result Z :=
  match x with
  | Int n => Ok n
  | Float S754_nan => Raise ValueError
  | Float (S754_infinity _) => Raise OverflowError
  | Float (S754_zero _) => Ok 0
  | Float (S754_finite s m e) =>
      let k := round_half_even (Zpos m * 2 ^ Z.max e 0) (2 ^ Z.max (- e) 0) in
      Ok (if s then - k else k)
  end.

(** *** Sequences and strings *)

(** [xs[i]] for an index of either sign: a negative one counts from the
    end. *)
Definition index {A} (xs : list A) (i : Z) : result A :=
  let k := if i <? 0 then i + Z.of_nat (length xs) else i in
  if k <? 0 then Raise IndexError else getitem xs (Z.to_nat k).

(** [xs[:stop]]: a negative [stop] counts from the end, and a [stop] out
    of range is clipped. *)
Definition slice_to {A} (stop : Z) (xs : list A) : list A :=
  if 0 <=? stop then take (Z.to_nat stop) xs
  else take (length xs - Z.to_nat (- stop)) xs.

(** [sep.join(xs)] *)
Fixpoint join (sep : string) (xs : list string) : string :=
  match xs with
  | [] => EmptyString
  | x :: xs' =>
      match xs' with
      | [] => x
      | _ :: _ => x +:+ sep +:+ join sep xs'
      end
  end.

End Py.

(** ** python-docx: the part of a document the code writes *)

Module docx.

Inductive WD_ALIGN_PARAGRAPH : Type := LEFT | CENTER | RIGHT | JUSTIFY.

(** A table cell: its text and the alignment of its first paragraph. *)
Record Cell : Type := {
  text : string;
  alignment : option WD_ALIGN_PARAGRAPH;
}.

(** A table keeps its cells in one list, row after row. *)
Record Table : Type := {
  style : string;
  column_count : nat;
  cells : list Cell;
}.

Inductive Block : Type :=
| Paragraph (content style_name : string)
| Tbl (t : Table).

(** The body of a document, in order. *)
Definition Document : Type := list Block.

(** [doc.add_paragraph(text=..., style=...)] *)
Definition add_paragraph (content style_name : string) : M Document unit :=
  fun doc => (Ok tt, doc ++ [Paragraph content style_name]).

(** [doc.add_table(rows, cols, style)]: a table of empty cells at the end of
    the document; the table is known by its position. *)
Definition add_table (nrows ncols : nat) (style_name : string) : M Document nat :=
  fun doc =>
    (Ok (length doc),
     doc ++ [Tbl {| style := style_name;
                    column_count := ncols;
                    cells := replicate (nrows * ncols)
                               {| text := EmptyString; alignment := None |} |}]).

(** A call on the table object, which is part of the document. *)
Definition on_table {A} (table : nat) (m : M Table A) : M Document A :=
  fun doc =>
    match doc !! table with
    | Some (Tbl t) => let '(r, t') := m t in (r, <[table := Tbl t']> doc)
    | _ => (Raise TypeError, doc)
    end.

(** [table.cell(row_idx, col_idx)] indexes the list of cells at
    [col_idx + row_idx * column_count]. *)
Definition update_cell (row_idx col_idx : nat) (f : Cell -> Cell) : M Table unit :=
  fun t =>
    let cell_idx := (col_idx + row_idx * column_count t)%nat in
    match cells t !! cell_idx with
    | Some c =>
        (Ok tt, {| style := style t;
                   column_count := column_count t;
                   cells := <[cell_idx := f c]> (cells t) |})
    | None => (Raise IndexError, t)
    end.

(** [table.cell(row_idx, col_idx)], read. *)
Definition cell (t : Table) (row_idx col_idx : nat) : option Cell :=
  cells t !! (col_idx + row_idx * column_count t)%nat.

(** [table.cell(i, j).text = s]: the cell gets one new paragraph. *)
Definition set_text (row_idx col_idx : nat) (s : string) : M Table unit :=
  update_cell row_idx col_idx (fun _ => {| text := s; alignment := None |}).

(** [table.cell(i, j).paragraphs[0].alignment = a] *)
Definition set_alignment (row_idx col_idx : nat) (a : WD_ALIGN_PARAGRAPH) : M Table unit :=
  update_cell row_idx col_idx (fun c => {| text := text c; alignment := Some a |}).

End docx.

(** ** pandas: a DataFrame as the code reads it *)

Module pd.

Record DataFrame (V : Type) : Type := {
  index : list V;
  columns : list V;
  values : list (list V);
}.
Arguments index {V} _.
Arguments columns {V} _.
Arguments values {V} _.

End pd.

(** ** docxtk *)

Module docxtk.

Module DocStyles.
Definition normal : string := "Normal".
Definition footer : string := "Footer".
Definition table : string := "Normal Table".
End DocStyles.

Section Tables.
Context {V : Type} `{Str V}.

(** [add_table_from_list(doc, title, columns, rows, data, footnote)]; the
    document is the state, and the document returned is the state left. *)
Definition add_table_from_list (title : string) (columns rows : list string)
    (data : list (list V)) (footnote : option string) : M docx.Document unit :=
  docx.add_paragraph title DocStyles.footer ;;
  let no_rows := length data in
  let no_cols := length columns in
  row0 ← lift (getitem data 0);
  assert (no_cols =? length row0)%nat
    "The number of headers and columns of data are not equal" ;;
  assert (no_rows =? length data)%nat
    "The number of row headers and rows of data are not equal" ;;
  table ← docx.add_table (no_rows + 1) (no_cols + 1) DocStyles.table;
  for_each (range no_cols) (fun j =>
    c ← lift (getitem columns j);
    docx.on_table table (docx.set_text 0 (j + 1) c) ;;
    docx.on_table table (docx.set_alignment 0 (j + 1) docx.CENTER)) ;;
  for_each (range no_rows) (fun i =>
    r ← lift (getitem rows i);
    docx.on_table table (docx.set_text (i + 1) 0 r) ;;
    docx.on_table table (docx.set_alignment (i + 1) 0 docx.LEFT)) ;;
  for_each (range no_rows) (fun i =>
    for_each (range no_cols) (fun j =>
      row ← lift (getitem data i);
      v ← lift (getitem row j);
      docx.on_table table (docx.set_text (i + 1) (j + 1) (str v)) ;;
      docx.on_table table (docx.set_alignment (i + 1) (j + 1) docx.RIGHT))) ;;
  match footnote with
  | Some s => if bool_decide (s = EmptyString) then mret tt
              else docx.add_paragraph s DocStyles.normal
  | None => mret tt
  end.

End Tables.

(** [num_round(x)] *)
Definition num_round (x : Py.number) : result string :=
  x ← (if Py.gt x 100 then
         n ← Py.int x; Py.round_ndigits x (2 - Py.len (Py.str_int n))
       else if Py.lt x 100 then
         n ← Py.int x; Py.round_ndigits x (3 - Py.len (Py.str_int n))
       else if Py.gt (Py.abs x) 10 then
         Py.round_ndigits x (-1)
       else Ok x);
  r ← Py.round x;
  n ← Py.int (Py.Int r);
  Ok (Py.format_comma n).

(** [add_table_from_df(doc, title, df, footnote)], for a frame whose labels
    and cells are strings: python-docx takes nothing else as the text of a
    header cell. *)
Definition add_table_from_df (title : string) (df : pd.DataFrame string)
    (footnote : option string) : M docx.Document unit :=
  let rows := pd.index df in
  let columns := pd.columns df in
  let values := pd.values df in
  add_table_from_list title columns rows values footnote.

(** [fmt_written_list_with_values_in_bracket(names, values, length)]; the
    default of [length] is 3. *)
Definition fmt_written_list_with_values_in_bracket (names values : list string)
    (length : Z) : string :=
  let combined :=
    map (fun '(name, val) => name +:+ " (" +:+ val +:+ ")") (zip names values) in
  Py.join ", " (Py.slice_to length combined) +:+ ".".

(** The value that [fmt_written_comma_sep_list] returns for the list it has
    after the preprocessing. *)
Definition written_comma_sep {V} `{Str V} (lst : list V) : result string :=
  let front := Py.join ", " (map str (Py.slice_to (-1) lst)) in
  last_one ← Py.index lst (-1);
  Ok (front +:+ " and " +:+ str last_one).

(** [fmt_written_comma_sep_list(lst, preprocessing)]; a preprocessing may
    raise, and [None] is no preprocessing. *)
Definition fmt_written_comma_sep_list {A B} `{Str A} `{Str B} (lst : list A)
    (preprocessing : option (A -> result B)) : result string :=
  match preprocessing with
  | Some f => lst' ← mapM f lst; written_comma_sep lst'
  | None => written_comma_sep lst
  end.

End docxtk.

(** ** python-pptx: the part of a slide the code writes *)

Module pptx.

(** Lengths are integers, in English Metric Units. *)
Definition Length : Type := Z.

Record Run : Type := {
  text : string;
  size : option Length;
}.

Definition Paragraph : Type := list Run.

(** A cell is the list of paragraphs of its text frame. *)
Definition Cell : Type := list Paragraph.

Record Table : Type := {
  columns : list Length;
  rows : list (list Cell);
}.

Record GraphicFrame : Type := {
  left : Length;
  top : Length;
  width : Length;
  height : Length;
  table : Table;
}.

(** The shapes of a slide; only table frames are modelled. *)
Definition Slide : Type := list GraphicFrame.

(** [shapes.add_table(rows, cols, left, top, width, height)]: the width is
    shared evenly between the columns, the last one taking the remainder,
    and every cell starts with one empty paragraph. The library computes
    with [width] and [height], so [None] is a [TypeError]. *)
Definition add_table (nrows ncols : nat) (l t : Length) (w h : option Length)
  : M Slide nat :=
  fun slide =>
    match w, h with
    | Some w, Some h =>
        let colwidth := w / Z.of_nat ncols in
        let widths := replicate (ncols - 1) colwidth
                      ++ replicate (Nat.min ncols 1) (w - Z.of_nat (ncols - 1) * colwidth) in
        (Ok (length slide),
         slide ++ [{| left := l; top := t; width := w; height := h;
                      table := {| columns := widths;
                                  rows := replicate nrows (replicate ncols [[]]) |} |}])
    | _, _ => (Raise TypeError, slide)
    end.

(** A call on the table object, which is part of the slide. *)
Definition on_table {A} (frame : nat) (m : M Table A) : M Slide A :=
  fun slide =>
    match slide !! frame with
    | Some g =>
        let '(r, t') := m (table g) in
        (r, <[frame := {| left := left g; top := top g; width := width g;
                          height := height g; table := t' |}]> slide)
    | None => (Raise TypeError, slide)
    end.

(** [table.columns[i].width = w], for the table of the frame at [frame]:
    the column takes the width and the table tells its frame, whose width
    becomes the sum of the widths of the columns. *)
Definition set_column_width (frame i : nat) (w : Length) : M Slide unit :=
  fun slide =>
    match slide !! frame with
    | Some g =>
        match columns (table g) !! i with
        | Some _ =>
            let widths := <[i := w]> (columns (table g)) in
            (Ok tt,
             <[frame := {| left := left g; top := top g;
                           width := foldr Z.add 0 widths; height := height g;
                           table := {| columns := widths; rows := rows (table g) |} |}]>
               slide)
        | None => (Raise IndexError, slide)
        end
    | None => (Raise TypeError, slide)
    end.

(** A write to [table.cell(row_idx, col_idx)]. *)
Definition update_cell (row_idx col_idx : nat) (f : Cell -> Cell) : M Table unit :=
  fun t =>
    match rows t !! row_idx with
    | Some row =>
        match row !! col_idx with
        | Some c =>
            (Ok tt, {| columns := columns t;
                       rows := <[row_idx := <[col_idx := f c]> row]> (rows t) |})
        | None => (Raise IndexError, t)
        end
    | None => (Raise IndexError, t)
    end.

(** [table.cell(row_idx, col_idx)], read. *)
Definition cell (t : Table) (row_idx col_idx : nat) : option Cell :=
  row ← rows t !! row_idx; row !! col_idx.

(** The cell [table.cell(row_idx, col_idx)] as it is now. *)
Definition get_cell (row_idx col_idx : nat) : M Table Cell :=
  fun t =>
    match cell t row_idx col_idx with
    | Some c => (Ok c, t)
    | None => (Raise IndexError, t)
    end.

(** [run.font.size = pt] *)
Definition set_size (pt : Length) (r : Run) : Run :=
  {| text := text r; size := Some pt |}.

(** [Cm(x)] and [Pt(x)] as the library computes them: [int(x * 360000)]
    and [int(x * 12700)], the length in English Metric Units, truncated.
    [int] raises [ValueError] on a NaN and [OverflowError] on an infinity,
    which the product also is when it is too large for a float. *)
Definition emu (per_unit : Z) (x : Py.float) : result Length :=
  Py.int (Py.Float (Py.fmul x (Py.float_of_Z per_unit))).
Definition Cm : Py.float -> result Length := emu 360000.
Definition Pt : Py.float -> result Length := emu 12700.

(** The text frame of a text of one line: one paragraph of one run, which
    has no size of its own. *)
Definition one_line (s : string) : list Paragraph :=
  [[{| text := s; size := None |}]].

End pptx.

(** ** pptxtk *)

Module pptxtk.

Definition SLIDE_WIDTH : Py.float := Py.float_of_Z 26.
Definition SLIDE_HEIGHT : Py.float := Py.float_of_Z 15.
Definition TOP : Py.float := Py.decimal 16 1.
Definition LEFT : Py.float := Py.decimal 1 1.
Definition HEIGHT : Py.float := Py.fsub SLIDE_HEIGHT TOP.
Definition WIDTH : Py.float := Py.fsub SLIDE_WIDTH (Py.fmul (Py.float_of_Z 2) LEFT).

Section SubDims.
Context {R : Type} `{Py.Num R}.

(** [_make_sub_dims(start, length, proportions)]: the pair of the starts and
    the lengths. *)
Definition _make_sub_dims (start length : R) (proportions : list R)
  : result (list R * list R) :=
  if negb (Py.num_eqb (Py.sum proportions) Py.num_one) then Raise ValueError
  else
    let proportions_cum := Py.cumsum proportions in
    let starts :=
      [start] ++ removelast (map (fun c => Py.num_add (Py.num_mul c length) start)
                                 proportions_cum) in
    let lengths := map (fun p => Py.num_mul p length) proportions in
    Ok (starts, lengths).

(** [dims[key] = v] *)
Definition setitem (key : string) (v : R) : M (gmap string R) unit :=
  fun dims => (Ok tt, <[key := v]> dims).

(** The dictionary a loop has filled, when it returns. *)
Definition filled (loop : M (gmap string R) unit) : result (gmap string R) :=
  match loop ∅ with
  | (Ok _, dims) => Ok dims
  | (Raise e, _) => Raise e
  end.

(** [make_col_dims(left, width, proportions, top, height)]; the defaults of
    [top] and [height] are [TOP] and [HEIGHT]. *)
Definition make_col_dims (left width : R) (proportions : list R) (top height : R)
  : result (gmap string R) :=
  let ncols := length proportions in
  '(lefts, widths) ← _make_sub_dims left width proportions;
  filled (for_each (range ncols) (fun i =>
    l ← lift (getitem lefts i);
    setitem ("left" +:+ pretty i) l ;;
    w ← lift (getitem widths i);
    setitem ("width" +:+ pretty i) w ;;
    setitem ("top" +:+ pretty i) top ;;
    setitem ("height" +:+ pretty i) height)).

(** [make_row_dims(top, height, proportions, left, width)]; the defaults of
    [left] and [width] are [LEFT] and [WIDTH]. *)
Definition make_row_dims (top height : R) (proportions : list R) (left width : R)
  : result (gmap string R) :=
  let nrows := length proportions in
  '(tops, heights) ← _make_sub_dims top height proportions;
  filled (for_each (range nrows) (fun i =>
    setitem ("left" +:+ pretty i) left ;;
    setitem ("width" +:+ pretty i) width ;;
    t ← lift (getitem tops i);
    setitem ("top" +:+ pretty i) t ;;
    h ← lift (getitem heights i);
    setitem ("height" +:+ pretty i) h)).

End SubDims.

Section Tables.
(** python-pptx's conversions of centimetres and points to a [Length], which
    may raise, and the paragraphs and runs it makes of a text assigned to a
    cell. *)
Variable Cm : Py.float -> result pptx.Length.
Variable Pt : Py.float -> result pptx.Length.
Variable text_frame : string -> list pptx.Paragraph.
Context {V : Type} `{Str V}.

(** [_get_cm(left, top, width, height)]: the four conversions in turn; a
    width or a height that is [None] or zero is not converted. *)
Definition _get_cm (left top : Py.float) (width height : option Py.float)
  : result (pptx.Length * pptx.Length * option pptx.Length * option pptx.Length) :=
  let cm_or_none (x : option Py.float) : result (option pptx.Length) :=
    match x with
    | Some x => if Py.ftruthy x then (c ← Cm x; Ok (Some c)) else Ok None
    | None => Ok None
    end in
  left ← Cm left;
  top ← Cm top;
  width ← cm_or_none width;
  height ← cm_or_none height;
  Ok (left, top, width, height).

(** [table.cell(i, j).text = s] *)
Definition set_text (row_idx col_idx : nat) (s : string) : M pptx.Table unit :=
  pptx.update_cell row_idx col_idx (fun _ => text_frame s).

(** [_populate_table(table, cols, rows, values, first_cell)] *)
Definition _populate_table (cols rows : list V) (values : list (list V))
    (first_cell : string) : M pptx.Table unit :=
  set_text 0 0 (str first_cell) ;;
  for_each (enumerate cols) (fun '(j, col) => set_text 0 (j + 1) (str col)) ;;
  for_each (enumerate rows) (fun '(i, row) => set_text (i + 1) 0 (str row)) ;;
  for_each (range (length cols)) (fun j =>
    for_each (range (length rows)) (fun i =>
      row ← lift (getitem values i);
      v ← lift (getitem row j);
      set_text (i + 1) (j + 1) (str v))).

(** [_iter_cells(table)]: the cells row by row, each known by its place. *)
Definition _iter_cells (t : pptx.Table) : list (nat * nat) :=
  '(i, row) ← enumerate (pptx.rows t);
  '(j, _) ← enumerate row;
  [(i, j)].

(** [_set_table_font_size(table, pt)]: in every cell, the loops over the
    paragraphs and over the runs of each paragraph, where [Pt(pt)] is
    evaluated at every run. It is the same at every run, so it raises at the
    first run of a cell or at none, and the cell is written in one piece. *)
Definition _set_table_font_size (pt : Py.float) : M pptx.Table unit :=
  fun t =>
    for_each (_iter_cells t) (fun '(i, j) =>
      cell ← pptx.get_cell i j;
      cell' ← lift (mapM (fun paragraph =>
                      mapM (fun run => size ← Pt pt; Ok (pptx.set_size size run))
                           paragraph) cell);
      pptx.update_cell i j (fun _ => cell')) t.

(** [_add_table_from_lst(slide, cols, rows, values, left, top, width, height,
    first_cell, font_size, col_proportions)]; the slide is the state. In
    [table.columns[i].width = Cm(width * proportion)] the conversion is
    evaluated before the column is looked up. *)
Definition _add_table_from_lst (cols rows : list V) (values : list (list V))
    (left top width height : Py.float) (first_cell : string) (font_size : Py.float)
    (col_proportions : option (list Py.float)) : M pptx.Slide unit :=
  let nrows := (length rows + 1)%nat in
  let ncols := (length cols + 1)%nat in
  '(left_cm, top_cm, width_cm, height_cm) ←
    lift (_get_cm left top (Some width) (Some height));
  table ← pptx.add_table nrows ncols left_cm top_cm width_cm height_cm;
  (match col_proportions with
   | None => mthrow TypeError
   | Some ps =>
       assert (Py.feqb (Py.sum ps) (Py.float_of_Z 1)) EmptyString ;;
       match ps with
       | [] => mret tt
       | _ =>
           for_each (enumerate ps) (fun '(i, proportion) =>
             w ← lift (Cm (Py.fmul width proportion));
             pptx.set_column_width table i w)
       end
   end) ;;
  pptx.on_table table (_populate_table cols rows values first_cell) ;;
  (if Py.ftruthy font_size
   then pptx.on_table table (_set_table_font_size font_size)
   else mret tt).

(** [add_table_from_df(slide, df, left, top, width, height, col_proportions,
    first_cell, font_size)] *)
Definition add_table_from_df (df : pd.DataFrame V) (left top width height : Py.float)
    (col_proportions : option (list Py.float)) (first_cell : string)
    (font_size : Py.float) : M pptx.Slide unit :=
  let rows := pd.index df in
  let columns := pd.columns df in
  let values := pd.values df in
  _add_table_from_lst columns rows values left top width height first_cell
    (Py.float_of_Z 12) col_proportions.

End Tables.

End pptxtk.

(** ** What the specification says, as predicates on the results *)

Module Spec.

Section Segments.
Context {R : Type} `{Py.Num R}.

(** The lengths sum to the total length. *)
Definition lengths_sum_to (length : R) (lengths : list R) : Prop :=
  Py.num_eqb (Py.sum lengths) length = true.

(** Each segment starts where the one before it ends. *)
Definition contiguous (starts lengths : list R) : Prop :=
  forall (i : nat) (s l s' : R),
    starts !! i = Some s -> lengths !! i = Some l -> starts !! S i = Some s' ->
    Py.num_eqb s' (Py.num_add s l) = true.

(** The segments follow the proportions, in their order: the first one
    starts at [start], and segment [i] takes the share [proportions[i]] of
    [length]. *)
Definition in_input_order (start length : R) (proportions starts lengths : list R) : Prop :=
  List.length starts = List.length proportions /\
  starts !! 0%nat = Some start /\
  lengths = map (fun p => Py.num_mul p length) proportions.

(** The split the specification promises for proportions that sum to 1. *)
Definition splits (start length : R) (proportions : list R) : Prop :=
  exists starts lengths,
    pptxtk._make_sub_dims start length proportions = Ok (starts, lengths) /\
    lengths_sum_to length lengths /\
    contiguous starts lengths /\
    in_input_order start length proportions starts lengths.

End Segments.

Section Exact.
Context {R : Type} `{Py.Num R} `{Py.Valued R}.

(** No operation that [_make_sub_dims] performs rounds: the additions of
    [sum(proportions)] and of [np.cumsum(proportions)], the products
    [proportions_cum * length] and the sums of these with [start], and the
    products [proportions * length]. *)
Definition exact_run (start length : R) (proportions : list R) : bool :=
  let proportions_cum := Py.cumsum proportions in
  Py.exact_sum_from Py.num_zero proportions &&
  match proportions with
  | [] => true
  | p :: ps => Py.exact_sum_from p ps
  end &&
  forallb (fun c => Py.exact_mul c length) proportions_cum &&
  forallb (fun c => Py.exact_add (Py.num_mul c length) start) proportions_cum &&
  forallb (fun p => Py.exact_mul p length) proportions.

(** No operation rounds that the reader of the result performs to check
    it: the additions of the sum of the lengths, and the addition of the
    length of a segment to its start. *)
Definition exact_check (start length : R) (proportions : list R) : bool :=
  match pptxtk._make_sub_dims start length proportions with
  | Ok (starts, lengths) =>
      Py.exact_sum_from Py.num_zero lengths &&
      forallb (fun '(s, l) => Py.exact_add s l) (zip starts lengths)
  | Raise _ => true
  end.

End Exact.

(** Every decimal digit of [z] after its first two is a zero. *)
Definition two_significant_digits (z : Z) : bool :=
  forallb (Ascii.eqb "0"%char) (drop 2 (Py.digits (Z.abs z))).

(** [z] is [m * 10^e] for an [m] of at most two digits. *)
Definition at_most_two_digits (z : Z) : Prop :=
  exists m e, 0 <= e /\ Z.abs m < 100 /\ z = m * 10 ^ e.

(** [r] is [z] rounded to two digits, half to even: [z] itself when it has
    no more than two, else a multiple of the unit [10^(d-2)], where [d] is
    the number of digits of [z], that is at most half a unit away from [z],
    and the even multiple when [z] is half a unit away from two of them. *)
Definition rounds_to_two_digits (z r : Z) : Prop :=
  let unit := 10 ^ (Z.of_nat (length (Py.digits (Z.abs z))) - 2) in
  if Z.abs z <? 100 then r = z
  else (unit | r) /\ 2 * Z.abs (z - r) <= unit /\
       (2 * Z.abs (z - r) = unit -> Z.even (r / unit) = true).

(** The integer a comma-grouped decimal string denotes. *)
Definition digit_value (c : ascii) : option Z :=
  let n := Z.of_nat (nat_of_ascii c) in
  if (48 <=? n) && (n <=? 57) then Some (n - 48) else None.

Fixpoint digits_value (acc : Z) (s : list ascii) : option Z :=
  match s with
  | [] => Some acc
  | c :: s' =>
      if Ascii.eqb c ","%char then digits_value acc s'
      else d ← digit_value c; digits_value (10 * acc + d) s'
  end.

Definition numeric_value (s : string) : option Z :=
  match list_ascii_of_string s with
  | [] => None
  | c :: s' =>
      if Ascii.eqb c "-"%char then Z.opp <$> digits_value 0 s'
      else digits_value 0 (c :: s')
  end.

End Spec.

(** ** Invariants of stateful calls *)

(** An invariant that the call keeps, whether it returns or raises. *)
Definition keeps {S A} (I : S -> Prop) (m : M S A) : Prop :=
  forall s, I s -> I (snd (m s)).

(** From every state the invariant [I] allows, the call returns a value
    that satisfies [Q] and leaves a state that [I] allows. *)
Definition succeeds {S A} (I : S -> Prop) (Q : A -> Prop) (m : M S A) : Prop :=
  forall s, I s -> exists a s', m s = (Ok a, s') /\ Q a /\ I s'.

(** The places of the cells of the rows [todo] of a pptx table, numbered
    from [k]: [_iter_cells] is [places_from 0] of all the rows. *)
Definition places_from (k : nat) (todo : list (list pptx.Cell)) : list (nat * nat) :=
  '(i, row) ← zip (seq k (length todo)) todo;
  '(j, _) ← zip (seq 0 (length row)) row;
  [(i, j)].

(** The docx table under construction is the last block of the document,
    after the blocks [before], and it has the size it was created with. *)
Definition table_in_place (before : docx.Document) (nrows ncols : nat)
    (doc : docx.Document) : Prop :=
  exists t, doc = before ++ [docx.Tbl t] /\
            docx.column_count t = ncols /\
            length (docx.cells t) = (nrows * ncols)%nat.

(** The entries that [make_col_dims] and [make_row_dims] write for index
    [i]: a position and an extent along each axis. *)
Definition entries {R} (lefts widths tops heights : nat -> option R)
    (dims : gmap string R) (i : nat) : Prop :=
  dims !! ("left" +:+ pretty i) = lefts i /\
  dims !! ("width" +:+ pretty i) = widths i /\
  dims !! ("top" +:+ pretty i) = tops i /\
  dims !! ("height" +:+ pretty i) = heights i.

(** [key] is one of the four keys that [make_col_dims] and [make_row_dims]
    write for index [i]. *)
Definition key_of_index (key : string) (i : nat) : Prop :=
  key = "left" +:+ pretty i \/ key = "width" +:+ pretty i \/
  key = "top" +:+ pretty i \/ key = "height" +:+ pretty i.

(** What [add_table_from_list] has written in the table [t] once it has
    filled the first [nc] column headers, the first [nr] row headers, the
    first [nd] rows of data and the first [ne] cells of the row after
    them. *)
Definition written_so_far {V} `{Str V} (columns rows : list string) (data : list (list V))
    (nc nr nd ne : nat) (t : docx.Table) : Prop :=
  docx.cell t 0 0 = Some {| docx.text := EmptyString; docx.alignment := None |} /\
  (forall j c, (j < nc)%nat -> columns !! j = Some c ->
     docx.cell t 0 (j + 1)
     = Some {| docx.text := c; docx.alignment := Some docx.CENTER |}) /\
  (forall i r, (i < nr)%nat -> rows !! i = Some r ->
     docx.cell t (i + 1) 0
     = Some {| docx.text := r; docx.alignment := Some docx.LEFT |}) /\
  (forall i j row v, (i < nd \/ i = nd /\ j < ne)%nat -> (j < length columns)%nat ->
     data !! i = Some row -> row !! j = Some v ->
     docx.cell t (i + 1) (j + 1)
     = Some {| docx.text := str v; docx.alignment := Some docx.RIGHT |}).

(** The table under construction is the last block of the document, after
    the blocks [before]; it has the style and the size it was created with,
    and [P] holds of it. *)
Definition building (before : docx.Document) (nrows ncols : nat)
    (P : docx.Table -> Prop) (doc : docx.Document) : Prop :=
  exists t, doc = before ++ [docx.Tbl t] /\
            docx.style t = docxtk.DocStyles.table /\
            docx.column_count t = ncols /\
            length (docx.cells t) = (nrows * ncols)%nat /\
            P t.

(** What [_populate_table] has written in the table [t], which was [t0]
    when it was called, once it has filled the first cell, the first [nc]
    column headers, the first [nr] row headers, the first [nd] columns of
    values and the first [ne] cells of the column after them. *)
Definition populated_so_far {V} `{Str V} (text_frame : string -> list pptx.Paragraph)
    (cols rows : list V) (values : list (list V)) (first_cell : string)
    (nc nr nd ne : nat) (t0 t : pptx.Table) : Prop :=
  pptx.columns t = pptx.columns t0 /\
  map length (pptx.rows t) = map length (pptx.rows t0) /\
  pptx.cell t 0 0 = Some (text_frame first_cell) /\
  (forall j col, (j < nc)%nat -> cols !! j = Some col ->
     pptx.cell t 0 (j + 1) = Some (text_frame (str col))) /\
  (forall i row, (i < nr)%nat -> rows !! i = Some row ->
     pptx.cell t (i + 1) 0 = Some (text_frame (str row))) /\
  (forall i j vs v, (j < nd \/ j = nd /\ i < ne)%nat -> (i < length rows)%nat ->
     values !! i = Some vs -> vs !! j = Some v ->
     pptx.cell t (i + 1) (j + 1) = Some (text_frame (str v))).

(** The cells of a pptx table filled from the labels [cols] and [rows] and
    from [values]: the cell of a label or a value holds [frame s], for the
    text [s] that [str] gives of it. *)
Definition filled_from {V} `{Str V} (frame : string -> pptx.Cell)
    (cols rows : list V) (values : list (list V)) (first_cell : string)
    (t : pptx.Table) : Prop :=
  pptx.cell t 0 0 = Some (frame first_cell) /\
  (forall j col, cols !! j = Some col -> pptx.cell t 0 (j + 1) = Some (frame (str col))) /\
  (forall i row, rows !! i = Some row -> pptx.cell t (i + 1) 0 = Some (frame (str row))) /\
  (forall i j vs v, (i < length rows)%nat -> (j < length cols)%nat ->
     values !! i = Some vs -> vs !! j = Some v ->
     pptx.cell t (i + 1) (j + 1) = Some (frame (str v))).

(** A pptx table of [nrows] rows of [ncols] cells, with [ncols] columns. *)
Definition sized_table (nrows ncols : nat) (t : pptx.Table) : Prop :=
  length (pptx.columns t) = ncols /\
  map length (pptx.rows t) = replicate nrows ncols.

(** The table under construction is the last shape of the slide, after the
    shapes [before], and [P] holds of it. *)
Definition last_table (before : pptx.Slide) (P : pptx.Table -> Prop)
    (slide : pptx.Slide) : Prop :=
  exists g, slide = before ++ [g] /\ P (pptx.table g).

(** A cell has a run: [_set_table_font_size] evaluates [Pt(pt)] in it. *)
Definition has_run (cell : pptx.Cell) : bool :=
  existsb (fun paragraph => match paragraph with [] => false | _ :: _ => true end) cell.

(** The table under construction is the last shape of the slide, after the
    shapes [before]: a frame at [l], [t] of the height [h], as wide as its
    columns together, with the rows that [add_table] made, and [P] holds of
    the widths of its columns. *)
Definition widths_in_place (before : pptx.Slide) (l t h : pptx.Length)
    (nrows ncols : nat) (P : list pptx.Length -> Prop) (slide : pptx.Slide) : Prop :=
  exists widths,
    slide = before ++ [{| pptx.left := l; pptx.top := t;
                          pptx.width := foldr Z.add 0 widths; pptx.height := h;
                          pptx.table :=
                            {| pptx.columns := widths;
                               pptx.rows := replicate nrows (replicate ncols [[]]) |} |}] /\
    length widths = ncols /\ P widths.

(** ** Properties *)

(** *** [_make_sub_dims] on concrete inputs *)

(** C4: splitting a length of 24 that starts at 1 with the proportions
    (0.5, 0.5) gives the starts 1 and 13 and the lengths 12 and 12, that is
    the segments (1, 12) and (13, 12). *)
Theorem make_sub_dims_example :
  pptxtk._make_sub_dims (Py.float_of_Z 1) (Py.float_of_Z 24)
    [Py.decimal 5 1; Py.decimal 5 1]
  = Ok ([Py.float_of_Z 1; Py.float_of_Z 13], [Py.float_of_Z 12; Py.float_of_Z 12]).
Proof. vm_compute. reflexivity. Qed.


(** *** [num_round] on concrete inputs *)

(** C6: [num_round(12345)] is "12,000" and [num_round(7)] is "7". *)
Theorem num_round_examples :
  docxtk.num_round (Py.Int 12345) = Ok "12,000" /\
  docxtk.num_round (Py.Int 7) = Ok "7".
Proof. split; vm_compute; reflexivity. Qed.

(** C5 at the float 1e23: the value is above 100, it has 23 digits before
    the point, and [round(x, -21)] gives back the float nearest to 10^23,
    which is 99999999999999991611392. The string returned has twenty
    non-zero digits. *)
Theorem num_round_large_float :
  docxtk.num_round (Py.Float (Py.float_of_Z (10 ^ 23)))
    = Ok "99,999,999,999,999,991,611,392" /\
  Spec.numeric_value "99,999,999,999,999,991,611,392" = Some 99999999999999991611392 /\
  Spec.two_significant_digits 99999999999999991611392 = false.
Proof. repeat split; vm_compute; reflexivity. Qed.

(** C7 at the float 1e23: the string returned denotes the integer
    99999999999999991611392, and rounding that integer gives another
    string. *)
Theorem num_round_large_float_again :
  exists s r s',
    docxtk.num_round (Py.Float (Py.float_of_Z (10 ^ 23))) = Ok s /\
    Spec.numeric_value s = Some r /\
    docxtk.num_round (Py.Int r) = Ok s' /\
    s' = "100,000,000,000,000,000,000,000" /\
    s <> s'.
Proof.
  exists "99,999,999,999,999,991,611,392", 99999999999999991611392,
         "100,000,000,000,000,000,000,000".
  repeat split; try (vm_compute; reflexivity). discriminate.
Qed.

(** *** [add_table_from_list] *)

(** C10: on the empty data list the call raises [IndexError], from
    [data[0]], whatever the other arguments are; by then it has only added
    the title paragraph, and neither assertion has been evaluated. *)
Theorem add_table_from_list_empty_data :
  forall (V : Type) (StrV : Str V) (title : string) (columns rows : list string)
         (footnote : option string) (doc : docx.Document),
    docxtk.add_table_from_list (V := V) title columns rows [] footnote doc
    = (Raise IndexError, (doc ++ [docx.Paragraph title docxtk.DocStyles.footer])).
Proof. intros. reflexivity. Qed.

(** C1 at one column header, two row headers and one row of data: the call
    returns, with a table of two rows in which the second row header does
    not appear. With no row header for that row of data the call raises
    [IndexError] and not an assertion error. *)
Theorem add_table_from_list_row_headers :
  fst (docxtk.add_table_from_list "t" ["a"] ["r1"; "r2"] [["1"]] None []) = Ok tt /\
  snd (docxtk.add_table_from_list "t" ["a"] ["r1"; "r2"] [["1"]] None [])
  = [docx.Paragraph "t" "Footer";
     docx.Tbl {| docx.style := "Normal Table"; docx.column_count := 2;
                 docx.cells :=
                   [ {| docx.text := EmptyString; docx.alignment := None |};
                     {| docx.text := "a"; docx.alignment := Some docx.CENTER |};
                     {| docx.text := "r1"; docx.alignment := Some docx.LEFT |};
                     {| docx.text := "1"; docx.alignment := Some docx.RIGHT |} ] |}] /\
  fst (docxtk.add_table_from_list "t" ["a"] [] [["1"]] None []) = Raise IndexError.
Proof. repeat split; vm_compute; reflexivity. Qed.

(** *** Stateful calls: how a loop runs *)

Section Calls.
Context {S : Type}.

Lemma bind_ok {A B} (m : M S A) (k : A -> M S B) (s s' : S) (a : A) :
  m s = (Ok a, s') -> (m ≫= k) s = k a s'.
Proof. intros Hm. unfold mbind, M_bind. rewrite Hm. reflexivity. Qed.

Lemma bind_raise {A B} (m : M S A) (k : A -> M S B) (s s' : S) (e : exn) :
  m s = (Raise e, s') -> (m ≫= k) s = (Raise e, s').
Proof. intros Hm. unfold mbind, M_bind. rewrite Hm. reflexivity. Qed.

(** A sequence that returns has run both of its parts. *)
Lemma bind_inv {A B} (m : M S A) (k : A -> M S B) (s s'' : S) (b : B) :
  (m ≫= k) s = (Ok b, s'') ->
  exists a s', m s = (Ok a, s') /\ k a s' = (Ok b, s'').
Proof.
  unfold mbind, M_bind. destruct (m s) as [[a | e] s'] eqn:Hm; intros Hk.
  - eauto.
  - discriminate.
Qed.

(** A loop whose body returns on every element, from every state that an
    invariant allows, returns, and the invariant holds of the state left. *)
Lemma for_each_returns {A} (I : S -> Prop) (xs : list A) (body : A -> M S unit) :
  (forall x s, x ∈ xs -> I s -> exists s', body x s = (Ok tt, s') /\ I s') ->
  forall s, I s -> exists s', for_each xs body s = (Ok tt, s') /\ I s'.
Proof.
  induction xs as [| x xs IH]; intros Hbody s Hs; simpl.
  - exists s. split; [reflexivity | assumption].
  - destruct (Hbody x s) as (s1 & Hx & Hs1); [left | assumption |].
    destruct IH with (s := s1) as (s2 & Hrest & Hs2); [| assumption |].
    + intros y t Hy. apply Hbody. right. assumption.
    + exists s2. split; [| assumption].
      rewrite (bind_ok _ _ _ _ _ Hx). assumption.
Qed.

Lemma keeps_run {A} (I : S -> Prop) (m : M S A) (s s' : S) (r : result A) :
  keeps I m -> I s -> m s = (r, s') -> I s'.
Proof. intros Hm Hs Hrun. specialize (Hm s Hs). rewrite Hrun in Hm. exact Hm. Qed.

Lemma keeps_bind {A B} (I : S -> Prop) (m : M S A) (k : A -> M S B) :
  keeps I m -> (forall a, keeps I (k a)) -> keeps I (m ≫= k).
Proof.
  intros Hm Hk s Hs. unfold mbind, M_bind.
  specialize (Hm s Hs). destruct (m s) as [[a | e] s']; simpl in *.
  - apply Hk. assumption.
  - assumption.
Qed.

Lemma keeps_ret {A} (I : S -> Prop) (a : A) : keeps I (mret a).
Proof. intros s Hs. assumption. Qed.

Lemma keeps_throw {A} (I : S -> Prop) (e : exn) : keeps I (mthrow e : M S A).
Proof. intros s Hs. assumption. Qed.

Lemma keeps_lift {A} (I : S -> Prop) (r : result A) : keeps I (lift r).
Proof. intros s Hs. assumption. Qed.

Lemma keeps_assert (I : S -> Prop) (cond : bool) (msg : string) :
  keeps I (assert cond msg).
Proof. destruct cond; [apply keeps_ret | apply keeps_throw]. Qed.

Lemma keeps_for_each {A} (I : S -> Prop) (xs : list A) (body : A -> M S unit) :
  (forall x, keeps I (body x)) -> keeps I (for_each xs body).
Proof.
  intros Hbody. induction xs as [| x xs IH]; simpl.
  - apply keeps_ret.
  - apply keeps_bind; [apply Hbody | intros _; exact IH].
Qed.

End Calls.

(** *** [_make_sub_dims], [make_col_dims] and [make_row_dims]: when they raise *)

Section SubDimsRaises.
Context {R : Type} `{Py.Num R}.

Lemma length_cumsum_from (acc : R) (xs : list R) :
  length (Py.cumsum_from acc xs) = length xs.
Proof.
  revert acc. induction xs as [| x xs IH]; intros acc; simpl; [| rewrite IH]; reflexivity.
Qed.

Lemma length_cumsum (xs : list R) : length (Py.cumsum xs) = length xs.
Proof. destruct xs; simpl; [| rewrite length_cumsum_from]; reflexivity. Qed.

Lemma length_removelast {A} (l : list A) : length (removelast l) = pred (length l).
Proof.
  rewrite removelast_firstn_len, length_firstn. lia.
Qed.

(** What [_make_sub_dims] returns when the proportions sum to 1. *)
Lemma make_sub_dims_sum_one (start length : R) (proportions : list R) :
  Py.num_eqb (Py.sum proportions) Py.num_one = true ->
  pptxtk._make_sub_dims start length proportions
  = Ok (start :: removelast (map (fun c => Py.num_add (Py.num_mul c length) start)
                                 (Py.cumsum proportions)),
        map (fun p => Py.num_mul p length) proportions).
Proof. intros Hsum. unfold pptxtk._make_sub_dims. rewrite Hsum. reflexivity. Qed.

Lemma make_sub_dims_sum_other (start length : R) (proportions : list R) :
  Py.num_eqb (Py.sum proportions) Py.num_one = false ->
  pptxtk._make_sub_dims start length proportions = Raise ValueError.
Proof. intros Hsum. unfold pptxtk._make_sub_dims. rewrite Hsum. reflexivity. Qed.

(** Every index below the number of proportions is an index of the starts
    and of the lengths. *)
Lemma make_sub_dims_indices (start length : R) (proportions starts lengths : list R) (i : nat) :
  pptxtk._make_sub_dims start length proportions = Ok (starts, lengths) ->
  (i < List.length proportions)%nat ->
  (exists s, getitem starts i = Ok s) /\ (exists l, getitem lengths i = Ok l).
Proof.
  unfold pptxtk._make_sub_dims.
  destruct (negb _); [discriminate |]. intros [= Hs Hl] Hi.
  unfold getitem. split.
  - destruct (starts !! i) eqn:Hget; [eauto |].
    apply lookup_ge_None_1 in Hget. rewrite <- Hs in Hget.
    simpl in Hget. rewrite length_removelast, length_map, length_cumsum in Hget. lia.
  - destruct (lengths !! i) eqn:Hget; [eauto |].
    apply lookup_ge_None_1 in Hget. rewrite <- Hl, length_map in Hget. lia.
Qed.

(** The loop that fills the dictionary returns. *)
Lemma filled_returns (n : nat) (body : nat -> M (gmap string R) unit) :
  (forall i dims, (i < n)%nat -> exists dims', body i dims = (Ok tt, dims')) ->
  exists dims, pptxtk.filled (for_each (range n) body) = Ok dims.
Proof.
  intros Hbody.
  destruct (for_each_returns (fun _ => True) (range n) body) with (s := (∅ : gmap string R))
    as (dims & Hrun & _); [| exact I |].
  - intros i dims Hi _. apply list_elem_of_In, in_seq in Hi.
    destruct (Hbody i dims) as (dims' & Hi'); [lia |]. eauto.
  - exists dims. unfold pptxtk.filled. rewrite Hrun. reflexivity.
Qed.

Lemma make_col_dims_returns (left width : R) (proportions : list R) (top height : R) :
  Py.num_eqb (Py.sum proportions) Py.num_one = true ->
  exists dims, pptxtk.make_col_dims left width proportions top height = Ok dims.
Proof.
  intros Hsum. unfold pptxtk.make_col_dims.
  pose proof (make_sub_dims_sum_one left width proportions Hsum) as Hsub.
  rewrite Hsub. simpl. apply filled_returns. intros i dims Hi.
  destruct (make_sub_dims_indices _ _ _ _ _ i Hsub Hi) as [[l Hl] [w Hw]].
  unfold mbind, M_bind, lift, pptxtk.setitem.
  rewrite Hl, Hw. eauto.
Qed.

Lemma make_row_dims_returns (top height : R) (proportions : list R) (left width : R) :
  Py.num_eqb (Py.sum proportions) Py.num_one = true ->
  exists dims, pptxtk.make_row_dims top height proportions left width = Ok dims.
Proof.
  intros Hsum. unfold pptxtk.make_row_dims.
  pose proof (make_sub_dims_sum_one top height proportions Hsum) as Hsub.
  rewrite Hsub. simpl. apply filled_returns. intros i dims Hi.
  destruct (make_sub_dims_indices _ _ _ _ _ i Hsub Hi) as [[t Ht] [h Hh]].
  unfold mbind, M_bind, lift, pptxtk.setitem.
  rewrite Ht, Hh. eauto.
Qed.

End SubDimsRaises.

(** C2: [_make_sub_dims] raises [ValueError] exactly when the sum of the
    proportions, as [sum] computes it, is not equal to 1.0, and returns
    otherwise; so do [make_col_dims] and [make_row_dims]. *)
Theorem make_sub_dims_raises_iff :
  forall (R : Type) (NumR : Py.Num R) (start length : R) (proportions : list R)
         (other_start other_length : R),
    (pptxtk._make_sub_dims start length proportions = Raise ValueError
       <-> Py.num_eqb (Py.sum proportions) Py.num_one = false) /\
    ((exists r, pptxtk._make_sub_dims start length proportions = Ok r)
       <-> Py.num_eqb (Py.sum proportions) Py.num_one = true) /\
    (pptxtk.make_col_dims start length proportions other_start other_length = Raise ValueError
       <-> Py.num_eqb (Py.sum proportions) Py.num_one = false) /\
    ((exists dims, pptxtk.make_col_dims start length proportions other_start other_length = Ok dims)
       <-> Py.num_eqb (Py.sum proportions) Py.num_one = true) /\
    (pptxtk.make_row_dims start length proportions other_start other_length = Raise ValueError
       <-> Py.num_eqb (Py.sum proportions) Py.num_one = false) /\
    ((exists dims, pptxtk.make_row_dims start length proportions other_start other_length = Ok dims)
       <-> Py.num_eqb (Py.sum proportions) Py.num_one = true).
Proof.
  intros.
  destruct (Py.num_eqb (Py.sum proportions) Py.num_one) eqn:Hsum.
  - pose proof (make_sub_dims_sum_one start length proportions Hsum) as Hsub.
    destruct (make_col_dims_returns start length proportions other_start other_length Hsum)
      as [cdims Hc].
    destruct (make_row_dims_returns start length proportions other_start other_length Hsum)
      as [rdims Hr].
    rewrite Hsub, Hc, Hr.
    repeat split; intros; try discriminate; eauto.
  - pose proof (make_sub_dims_sum_other start length proportions Hsum) as Hsub.
    unfold pptxtk.make_col_dims, pptxtk.make_row_dims. rewrite Hsub. simpl.
    repeat split; intros; try discriminate; try reflexivity;
      match goal with Hex : exists _, _ |- _ => destruct Hex; discriminate end.
Qed.

(** *** The font size of a pptx table *)

Section FontSize.
Variable f : pptx.Cell -> pptx.Cell.

(** Writing the cells of one row from left to right rewrites the row. *)
Lemma update_row (i : nat) (cols : list pptx.Length) (todo done : list pptx.Cell)
    (rs : list (list pptx.Cell)) :
  rs !! i = Some (map f done ++ todo) ->
  for_each (map (fun j => (i, j)) (seq (length done) (length todo)))
           (fun '(i, j) => pptx.update_cell i j f)
           {| pptx.columns := cols; pptx.rows := rs |}
  = (Ok tt, {| pptx.columns := cols;
               pptx.rows := <[i := map f done ++ map f todo]> rs |}).
Proof.
  revert done rs. induction todo as [| c todo IH]; intros done rs Hrow; simpl.
  - rewrite list_insert_id; [reflexivity | assumption].
  - assert (Hcell : (map f done ++ c :: todo) !! length done = Some c).
    { rewrite lookup_app_r; rewrite length_map; [| lia].
      rewrite Nat.sub_diag. reflexivity. }
    erewrite bind_ok; cycle 1.
    { unfold pptx.update_cell. simpl. rewrite Hrow, Hcell. reflexivity. }
    assert (Hnext : <[length done := f c]> (map f done ++ c :: todo)
                    = map f (done ++ [c]) ++ todo).
    { rewrite insert_app_r_alt; rewrite length_map; [| lia].
      rewrite Nat.sub_diag, map_app. simpl. rewrite <- app_assoc. reflexivity. }
    rewrite Hnext.
    specialize (IH (done ++ [c]) (<[i := map f (done ++ [c]) ++ todo]> rs)).
    rewrite length_app, Nat.add_1_r in IH.
    rewrite IH.
    + rewrite list_insert_insert_eq, map_app. simpl. rewrite <- app_assoc. reflexivity.
    + apply list_lookup_insert_eq. eapply lookup_lt_Some. eassumption.
Qed.

Lemma places_of_row (i : nat) (row : list pptx.Cell) :
  ('(j, _) ← zip (seq 0 (length row)) row; [(i, j)])
  = map (fun j => (i, j)) (seq 0 (length row)).
Proof.
  generalize 0%nat as k. induction row as [| c row IH]; intros k; simpl.
  - reflexivity.
  - f_equal. apply IH.
Qed.

Lemma for_each_app {S A} (xs ys : list A) (body : A -> M S unit) (s s' : S) :
  for_each xs body s = (Ok tt, s') ->
  for_each (xs ++ ys) body s = for_each ys body s'.
Proof.
  revert s. induction xs as [| x xs IH]; intros s; simpl.
  - intros [= <-]. reflexivity.
  - intros Hrun. apply bind_inv in Hrun as ([] & s1 & Hx & Hrest).
    rewrite (bind_ok _ _ _ _ _ Hx). apply IH. assumption.
Qed.

(** Writing every cell, row by row, rewrites the table. *)
Lemma update_rows (cols : list pptx.Length) (todo done : list (list pptx.Cell)) :
  for_each (places_from (length done) todo)
           (fun '(i, j) => pptx.update_cell i j f)
           {| pptx.columns := cols; pptx.rows := map (map f) done ++ todo |}
  = (Ok tt, {| pptx.columns := cols;
               pptx.rows := map (map f) done ++ map (map f) todo |}).
Proof.
  revert done. induction todo as [| row todo IH]; intros done.
  - reflexivity.
  - unfold places_from. simpl. fold (places_from (S (length done)) todo).
    rewrite places_of_row.
    erewrite for_each_app; cycle 1.
    { apply (update_row (length done) cols row []).
      rewrite lookup_app_r; rewrite length_map; [| lia].
      rewrite Nat.sub_diag. reflexivity. }
    simpl.
    rewrite insert_app_r_alt; rewrite length_map; [| lia].
    rewrite Nat.sub_diag. simpl.
    specialize (IH (done ++ [row])).
    rewrite length_app, Nat.add_1_r, map_app in IH. simpl in IH.
    rewrite <- !app_assoc in IH. simpl in IH. exact IH.
Qed.

End FontSize.

(** *** Decimal digits *)

Lemma digit_char_value (d : Z) :
  0 <= d <= 9 ->
  Spec.digit_value (Py.digit_char d) = Some d /\
  Ascii.eqb (Py.digit_char d) ","%char = false /\
  Ascii.eqb (Py.digit_char d) "-"%char = false.
Proof.
  intros Hd.
  assert (Hcases : d = 0 \/ d = 1 \/ d = 2 \/ d = 3 \/ d = 4 \/ d = 5 \/ d = 6
                   \/ d = 7 \/ d = 8 \/ d = 9) by lia.
  repeat (destruct Hcases as [-> | Hcases]; [vm_compute; auto |]).
  subst d. vm_compute. auto.
Qed.

Lemma digits_from_app (fuel : nat) (n : Z) (acc : list ascii) :
  Py.digits_from fuel n acc = Py.digits_from fuel n [] ++ acc.
Proof.
  revert n acc. induction fuel as [| fuel IH]; intros n acc; simpl.
  - reflexivity.
  - destruct (n <? 10); [reflexivity |].
    rewrite IH, (IH _ [_]), <- app_assoc. reflexivity.
Qed.

(** Fuel beyond what the number needs changes nothing. *)
Lemma digits_from_fuel (f1 f2 : nat) (n : Z) (acc : list ascii) :
  0 <= n < 10 ^ (Z.of_nat f1 + 1) -> n < 10 ^ (Z.of_nat f2 + 1) ->
  Py.digits_from f1 n acc = Py.digits_from f2 n acc.
Proof.
  revert f2 n acc. induction f1 as [| f1 IH]; intros f2 n acc H1 H2.
  - change (10 ^ (Z.of_nat 0 + 1)) with 10 in H1.
    assert (Hmod : n mod 10 = n) by (apply Z.mod_small; lia).
    destruct f2 as [| f2]; simpl; rewrite ?Hmod; [reflexivity |].
    destruct (Z.ltb_spec n 10); [reflexivity | lia].
  - simpl. destruct (Z.ltb_spec n 10) as [Hlt | Hge].
    + destruct f2 as [| f2]; simpl.
      * rewrite Z.mod_small by lia. reflexivity.
      * destruct (Z.ltb_spec n 10); [reflexivity | lia].
    + destruct f2 as [| f2].
      * change (10 ^ (Z.of_nat 0 + 1)) with 10 in H2. lia.
      * simpl. destruct (Z.ltb_spec n 10); [lia |].
        rewrite Nat2Z.inj_succ, <- Z.add_1_r, Z.pow_add_r in H1, H2 by lia.
        apply IH; [split |].
        -- apply Z.div_pos; lia.
        -- apply Z.div_lt_upper_bound; lia.
        -- apply Z.div_lt_upper_bound; lia.
Qed.

Lemma digits_fuel_enough (n : Z) :
  0 <= n -> n < 10 ^ (Z.of_nat (Z.to_nat (Z.log2 n)) + 1).
Proof.
  intros Hn. rewrite Z2Nat.id by apply Z.log2_nonneg.
  destruct (Z.eq_dec n 0) as [-> | Hpos]; [reflexivity |].
  assert (Hlog : n < 2 ^ (Z.log2 n + 1)).
  { pose proof (Z.log2_spec n ltac:(lia)) as Hspec.
    rewrite <- Z.add_1_r in Hspec. lia. }
  assert (Hpow : 2 ^ (Z.log2 n + 1) <= 10 ^ (Z.log2 n + 1)).
  { apply Z.pow_le_mono_l. lia. }
  lia.
Qed.

(** The digits of [n] can be computed with any fuel that [n] fits. *)
Lemma digits_with_fuel (fuel : nat) (n : Z) :
  0 <= n < 10 ^ (Z.of_nat fuel + 1) -> Py.digits n = Py.digits_from fuel n [].
Proof.
  intros Hn. unfold Py.digits. apply digits_from_fuel; [| lia].
  split; [lia | apply digits_fuel_enough; lia].
Qed.

(** How many digits a number has, and the number they denote. *)
Lemma digits_from_length (fuel : nat) (n : Z) :
  0 <= n < 10 ^ (Z.of_nat fuel + 1) ->
  let d := Z.of_nat (length (Py.digits_from fuel n [])) in
  1 <= d /\ n < 10 ^ d /\ (1 <= n -> 10 ^ (d - 1) <= n).
Proof.
  revert n. induction fuel as [| fuel IH]; intros n Hn; simpl.
  - change (10 ^ (Z.of_nat 0 + 1)) with 10 in Hn.
    change (10 ^ (1 - 1)) with 1. change (10 ^ 1) with 10. lia.
  - destruct (Z.ltb_spec n 10) as [Hlt | Hge]; simpl.
    + change (10 ^ (1 - 1)) with 1. change (10 ^ 1) with 10. lia.
    + rewrite digits_from_app, length_app. simpl.
      rewrite Nat2Z.inj_succ, <- Z.add_1_r, Z.pow_add_r in Hn by lia.
      specialize (IH (n / 10)). cbv zeta in IH.
      destruct IH as (Hd & Hupper & Hlower).
      { split; [apply Z.div_pos; lia | apply Z.div_lt_upper_bound; lia]. }
      rewrite Nat2Z.inj_add. change (Z.of_nat 1) with 1.
      set (d := Z.of_nat (length (Py.digits_from fuel (n / 10) []))) in *.
      clearbody d.
      replace (d + 1 - 1) with ((d - 1) + 1) by lia.
      rewrite !Z.pow_add_r by lia. change (10 ^ 1) with 10.
      pose proof (Z.div_mod n 10 ltac:(lia)) as Hdiv.
      pose proof (Z.mod_pos_bound n 10 ltac:(lia)) as Hmod.
      assert (1 <= n / 10) by (apply Z.div_le_lower_bound; lia).
      specialize (Hlower ltac:(lia)).
      repeat split; lia.
Qed.

Lemma digits_value_digit (a d : Z) (acc : list ascii) :
  0 <= d <= 9 ->
  Spec.digits_value a (Py.digit_char d :: acc) = Spec.digits_value (10 * a + d) acc.
Proof.
  intros Hd. destruct (digit_char_value d Hd) as (Hvalue & Hcomma & _).
  cbn [Spec.digits_value]. rewrite Hcomma, Hvalue. reflexivity.
Qed.

Lemma digits_from_value (fuel : nat) (n : Z) (acc : list ascii) (a : Z) :
  0 <= n < 10 ^ (Z.of_nat fuel + 1) ->
  Spec.digits_value a (Py.digits_from fuel n acc)
  = Spec.digits_value (a * 10 ^ Z.of_nat (length (Py.digits_from fuel n [])) + n) acc.
Proof.
  revert n acc a. induction fuel as [| fuel IH]; intros n acc a Hn;
    cbn [Py.digits_from].
  - change (10 ^ (Z.of_nat 0 + 1)) with 10 in Hn.
    rewrite Z.mod_small by lia.
    rewrite digits_value_digit by lia. cbn [length].
    change (10 ^ Z.of_nat 1) with 10. f_equal. lia.
  - destruct (Z.ltb_spec n 10) as [Hlt | Hge].
    + rewrite digits_value_digit by lia. cbn [length].
      change (10 ^ Z.of_nat 1) with 10. f_equal. lia.
    + rewrite Nat2Z.inj_succ, <- Z.add_1_r, Z.pow_add_r in Hn by lia.
      pose proof (Z.div_mod n 10 ltac:(lia)) as Hdiv.
      pose proof (Z.mod_pos_bound n 10 ltac:(lia)) as Hmod.
      rewrite IH; cycle 1.
      { split; [apply Z.div_pos; lia | apply Z.div_lt_upper_bound; lia]. }
      rewrite digits_value_digit by lia. f_equal.
      rewrite (digits_from_app fuel (n / 10) [_]), length_app, Nat2Z.inj_add.
      cbn [length]. change (Z.of_nat 1) with 1.
      rewrite Z.pow_add_r by lia. change (10 ^ 1) with 10. lia.
Qed.

Lemma digits_length_bounds (n : Z) :
  0 <= n ->
  let d := Z.of_nat (length (Py.digits n)) in
  1 <= d /\ n < 10 ^ d /\ (1 <= n -> 10 ^ (d - 1) <= n).
Proof.
  intros Hn. apply digits_from_length.
  split; [lia | apply digits_fuel_enough; lia].
Qed.

(** The digits of an integer denote it. *)
Lemma digits_denote (n : Z) : 0 <= n -> Spec.digits_value 0 (Py.digits n) = Some n.
Proof.
  intros Hn. unfold Py.digits. rewrite digits_from_value.
  - reflexivity.
  - split; [lia | apply digits_fuel_enough; lia].
Qed.

Lemma digits_value_app (a : Z) (s1 s2 : list ascii) :
  Spec.digits_value a (s1 ++ s2)
  = (v ← Spec.digits_value a s1; Spec.digits_value v s2).
Proof.
  revert a. induction s1 as [| c s1 IH]; intros a; cbn [app Spec.digits_value].
  - reflexivity.
  - destruct (Ascii.eqb c ","%char); [apply IH |].
    destruct (Spec.digit_value c); [apply IH | reflexivity].
Qed.

Lemma digits_value_skip_comma (a : Z) (c : ascii) (s : list ascii) :
  Spec.digits_value a (c :: ","%char :: s) = Spec.digits_value a (c :: s).
Proof.
  cbn [Spec.digits_value]. change (Ascii.eqb ","%char ","%char) with true. cbv iota.
  destruct (Ascii.eqb c ","%char); [reflexivity |].
  destruct (Spec.digit_value c); reflexivity.
Qed.

(** The commas do not change what the digits denote. *)
Lemma group3_value (rev_digits : list ascii) (k : nat) (acc : list ascii) (a : Z) :
  Spec.digits_value a (Py.group3 rev_digits k acc)
  = Spec.digits_value a (rev rev_digits ++ acc).
Proof.
  revert k acc. induction rev_digits as [| d ds IH]; intros k acc.
  - reflexivity.
  - cbn [Py.group3 rev]. rewrite <- app_assoc. cbn [app].
    destruct k as [| [| [| [| k]]]]; rewrite IH; try reflexivity.
    rewrite !digits_value_app.
    destruct (Spec.digits_value a (rev ds)) as [v |]; [| reflexivity].
    apply digits_value_skip_comma.
Qed.

Lemma group3_length (rev_digits : list ascii) (k : nat) (acc : list ascii) :
  (length rev_digits + length acc <= length (Py.group3 rev_digits k acc))%nat.
Proof.
  revert k acc. induction rev_digits as [| d ds IH]; intros k acc; cbn [Py.group3 length].
  - lia.
  - destruct k as [| [| [| [| k]]]];
      match goal with |- context [Py.group3 ds ?j ?l] => specialize (IH j l) end;
      cbn [length] in IH; lia.
Qed.

Lemma grouped_denote (n : Z) :
  0 <= n ->
  exists c s, Py.group3 (rev (Py.digits n)) 0 [] = c :: s /\
              Ascii.eqb c "-"%char = false /\
              Spec.digits_value 0 (c :: s) = Some n.
Proof.
  intros Hn.
  pose proof (group3_value (rev (Py.digits n)) 0 [] 0) as Hvalue.
  rewrite rev_involutive, app_nil_r, digits_denote in Hvalue by assumption.
  pose proof (group3_length (rev (Py.digits n)) 0 []) as Hlen.
  rewrite length_rev in Hlen.
  pose proof (digits_length_bounds n Hn) as (Hd & _). cbv zeta in Hd.
  destruct (Py.group3 (rev (Py.digits n)) 0 []) as [| c s]; [simpl in Hlen; lia |].
  exists c, s. split; [reflexivity |]. split; [| assumption].
  destruct (Ascii.eqb_spec c "-"%char) as [-> | Hc]; [| reflexivity].
  discriminate Hvalue.
Qed.

(** The string that [format_comma] makes of an integer denotes that
    integer. *)
Lemma numeric_value_format_comma (z : Z) :
  Spec.numeric_value (Py.format_comma z) = Some z.
Proof.
  unfold Spec.numeric_value, Py.format_comma.
  rewrite list_ascii_of_string_of_list_ascii.
  destruct (Z.ltb_spec z 0) as [Hneg | Hpos].
  - change (Ascii.eqb "-"%char "-"%char) with true. cbv iota.
    destruct (grouped_denote (- z) ltac:(lia)) as (c & s & -> & _ & ->).
    simpl. f_equal. lia.
  - destruct (grouped_denote z Hpos) as (c & s & -> & -> & ->). reflexivity.
Qed.

(** *** Rounding to the nearest multiple *)

Lemma round_half_even_near (n u : Z) :
  0 < u -> 2 * Z.abs (n - Py.round_half_even n u * u) <= u.
Proof.
  intros Hu. unfold Py.round_half_even.
  pose proof (Z.div_mod n u ltac:(lia)) as Hdiv.
  pose proof (Z.mod_pos_bound n u Hu) as Hmod.
  destruct (Z.compare_spec (2 * (n mod u)) u); [destruct (Z.even (n / u)) | |]; nia.
Qed.

Lemma round_half_even_tie (n u : Z) :
  0 < u -> 2 * Z.abs (n - Py.round_half_even n u * u) = u ->
  Z.even (Py.round_half_even n u) = true.
Proof.
  intros Hu. unfold Py.round_half_even.
  pose proof (Z.div_mod n u ltac:(lia)) as Hdiv.
  pose proof (Z.mod_pos_bound n u Hu) as Hmod.
  destruct (Z.compare_spec (2 * (n mod u)) u) as [Heq | Hlt | Hgt]; [| nia | nia].
  destruct (Z.even (n / u)) eqn:Heven; intros _; [exact Heven |].
  rewrite Z.add_1_r, Z.even_succ, <- Z.negb_even, Heven. reflexivity.
Qed.

Lemma round_half_even_range (n u lo hi : Z) :
  0 < u -> lo * u <= n < hi * u -> lo <= Py.round_half_even n u <= hi.
Proof.
  intros Hu [Hlo Hhi]. unfold Py.round_half_even.
  assert (lo <= n / u) by (apply Z.div_le_lower_bound; lia).
  assert (n / u < hi) by (apply Z.div_lt_upper_bound; lia).
  destruct (2 * (n mod u) ?= u); [destruct (Z.even (n / u)) | |]; lia.
Qed.

Lemma round_half_even_multiple (m u : Z) : 0 < u -> Py.round_half_even (m * u) u = m.
Proof.
  intros Hu. unfold Py.round_half_even.
  rewrite Z.div_mul, Z.mod_mul by lia.
  change (2 * 0) with 0. destruct (Z.compare_spec 0 u); [lia | reflexivity | lia].
Qed.

Lemma pow10_pos (e : Z) : 0 <= e -> 0 < 10 ^ e.
Proof. intros He. apply Z.pow_pos_nonneg; lia. Qed.

Lemma pow10_split (d : Z) :
  3 <= d -> 10 ^ (d - 1) = 10 * 10 ^ (d - 2) /\ 10 ^ d = 100 * 10 ^ (d - 2).
Proof.
  intros Hd.
  replace (d - 1) with ((d - 2) + 1) by lia.
  replace d with ((d - 2) + 2) at 3 by lia.
  rewrite !Z.pow_add_r by lia. change (10 ^ 1) with 10. change (10 ^ 2) with 100. lia.
Qed.

(** *** [num_round] on integers *)

Lemma length_string_of_list_ascii (l : list ascii) :
  String.length (string_of_list_ascii l) = length l.
Proof. induction l as [| c l IH]; simpl; [| rewrite IH]; reflexivity. Qed.

Lemma len_str_int (z : Z) :
  Py.len (Py.str_int z)
  = (if z <? 0 then 1 else 0) + Z.of_nat (length (Py.digits (Z.abs z))).
Proof.
  unfold Py.len, Py.str_int. rewrite length_string_of_list_ascii.
  destruct (Z.ltb_spec z 0).
  - rewrite <- Z.abs_neq by lia. cbn [length]. lia.
  - rewrite Z.abs_eq by lia. lia.
Qed.

(** Numbers below 100 have at most two digits, the others at least three. *)
Lemma digits_count_100 (n : Z) :
  0 <= n ->
  let d := Z.of_nat (length (Py.digits n)) in
  (n < 100 -> d <= 2) /\ (100 <= n -> 3 <= d).
Proof.
  intros Hn d. pose proof (digits_length_bounds n Hn) as (Hd & Hupper & Hlower).
  fold d in Hd, Hupper, Hlower. split; intros Hcmp.
  - destruct (Z.eq_dec n 0) as [-> | Hpos]; [vm_compute; discriminate |].
    specialize (Hlower ltac:(lia)).
    destruct (Z.le_gt_cases d 2) as [| Hbig]; [assumption |].
    assert (10 ^ 2 <= 10 ^ (d - 1)) by (apply Z.pow_le_mono_r; lia).
    change (10 ^ 2) with 100 in *. lia.
  - destruct (Z.le_gt_cases 3 d) as [| Hsmall]; [assumption |].
    assert (10 ^ d <= 10 ^ 2) by (apply Z.pow_le_mono_r; lia).
    change (10 ^ 2) with 100 in *. lia.
Qed.

(** What [num_round] does to an integer before it formats it. *)
Lemma num_round_int (z : Z) :
  exists r,
    docxtk.num_round (Py.Int z) = Ok (Py.format_comma r) /\
    let unit := 10 ^ (Z.of_nat (length (Py.digits (Z.abs z))) - 2) in
    (Z.abs z < 100 -> r = z) /\
    (100 <= Z.abs z -> r = Py.round_half_even z unit * unit).
Proof.
  destruct (Z.eq_dec z 100) as [-> | Hne].
  { (* x == 100 *)
    exists 100. split; [vm_compute; reflexivity |]. cbv zeta.
    split; [reflexivity |]. intros _. vm_compute. reflexivity. }
  pose proof (len_str_int z) as Hlen.
  pose proof (digits_count_100 (Z.abs z) ltac:(lia)) as [Hsmall Hbig].
  cbv zeta in Hsmall, Hbig.
  set (d := Z.of_nat (length (Py.digits (Z.abs z)))) in *. clearbody d.
  unfold docxtk.num_round. cbn [Py.gt Py.lt Py.abs Py.int mbind result_bind].
  destruct (Z.ltb_spec 100 z) as [Hgt | Hle].
  - (* x > 100 *)
    destruct (Z.ltb_spec z 0); [lia |]. rewrite Hlen.
    specialize (Hbig ltac:(lia)).
    cbn [Py.round_ndigits Py.round Py.int mbind result_bind]. unfold Py.round_int.
    destruct (Z.leb_spec 0 (2 - (0 + d))); [lia |].
    replace (- (2 - (0 + d))) with (d - 2) by lia.
    eexists. split; [reflexivity |]. cbv zeta. split; [lia | reflexivity].
  - destruct (Z.ltb_spec z 100) as [Hlt | Hge].
    + (* x < 100 *)
      rewrite Hlen.
      cbn [Py.round_ndigits Py.round Py.int mbind result_bind]. unfold Py.round_int.
      destruct (Z.ltb_spec z 0) as [Hneg | Hpos].
      * destruct (Z.leb_spec 0 (3 - (1 + d))) as [Hnd | Hnd].
        -- eexists. split; [reflexivity |]. cbv zeta. split; [reflexivity |].
           intros Habs. specialize (Hbig Habs). lia.
        -- replace (- (3 - (1 + d))) with (d - 2) by lia.
           eexists. split; [reflexivity |]. cbv zeta. split; [| reflexivity].
           intros Habs. specialize (Hsmall Habs). lia.
      * specialize (Hsmall ltac:(lia)).
        destruct (Z.leb_spec 0 (3 - (0 + d))); [| lia].
        eexists. split; [reflexivity |]. cbv zeta. split; [reflexivity | lia].
    + lia.
Qed.

(** The unit of a number of three digits or more divides every short
    multiple of a power of ten of the same size. *)
Lemma unit_divides (r : Z) :
  Spec.at_most_two_digits r -> 100 <= Z.abs r ->
  (10 ^ (Z.of_nat (length (Py.digits (Z.abs r))) - 2) | r).
Proof.
  intros (m & e & He & Hm & ->) Hbig.
  pose proof (digits_length_bounds (Z.abs (m * 10 ^ e)) ltac:(lia)) as (_ & _ & Hlower).
  pose proof (digits_count_100 (Z.abs (m * 10 ^ e)) ltac:(lia)) as [_ Hthree].
  cbv zeta in Hlower, Hthree. specialize (Hlower ltac:(lia)). specialize (Hthree Hbig).
  set (d := Z.of_nat (length (Py.digits (Z.abs (m * 10 ^ e))))) in *. clearbody d.
  pose proof (pow10_pos e He) as Hpow.
  assert (Hlt : 10 ^ (d - 1) < 10 ^ (e + 2)).
  { rewrite Z.pow_add_r by lia. change (10 ^ 2) with 100.
    rewrite Z.abs_mul, (Z.abs_eq (10 ^ e)) in Hlower by lia.
    assert (Z.abs m * 10 ^ e <= 99 * 10 ^ e) by (apply Z.mul_le_mono_nonneg_r; lia).
    lia. }
  apply Z.pow_lt_mono_r_iff in Hlt; [| lia | lia].
  exists (m * 10 ^ (e - (d - 2))).
  rewrite <- Z.mul_assoc, <- Z.pow_add_r by lia. do 2 f_equal. lia.
Qed.

(** A number of at most two digits, times a power of ten, is left as it
    is. *)
Lemma num_round_fixed (r : Z) :
  Spec.at_most_two_digits r -> docxtk.num_round (Py.Int r) = Ok (Py.format_comma r).
Proof.
  intros Hshort.
  destruct (num_round_int r) as (r' & -> & Hsmall & Hbig). cbv zeta in Hbig.
  do 2 f_equal.
  destruct (Z.lt_ge_cases (Z.abs r) 100) as [Hlt | Hge]; [auto |].
  rewrite (Hbig Hge).
  destruct (unit_divides r Hshort Hge) as [k Hk].
  rewrite Hk at 1. rewrite round_half_even_multiple; [lia |].
  apply pow10_pos.
  pose proof (digits_count_100 (Z.abs r) ltac:(lia)) as [_ Hthree].
  cbv zeta in Hthree. specialize (Hthree Hge). lia.
Qed.

(** On an integer, [num_round] rounds to two digits and formats the
    result. *)
Lemma num_round_int_rounds (z : Z) :
  exists r,
    docxtk.num_round (Py.Int z) = Ok (Py.format_comma r) /\
    Spec.rounds_to_two_digits z r /\
    Spec.at_most_two_digits r.
Proof.
  destruct (num_round_int z) as (r & Hrun & Hsmall & Hbig). cbv zeta in Hbig.
  exists r. split; [assumption |]. unfold Spec.rounds_to_two_digits.
  destruct (Z.ltb_spec (Z.abs z) 100) as [Hlt | Hge].
  - rewrite (Hsmall Hlt). split; [reflexivity |].
    exists z, 0. change (10 ^ 0) with 1. lia.
  - pose proof (digits_count_100 (Z.abs z) ltac:(lia)) as [_ Hthree].
    pose proof (digits_length_bounds (Z.abs z) ltac:(lia)) as (_ & Hupper & Hlower).
    cbv zeta in Hthree, Hupper, Hlower.
    specialize (Hthree Hge). specialize (Hlower ltac:(lia)). specialize (Hbig Hge).
    set (d := Z.of_nat (length (Py.digits (Z.abs z)))) in *. clearbody d.
    destruct (pow10_split d Hthree) as [Hlow Hhigh]. rewrite Hlow in Hlower.
    rewrite Hhigh in Hupper.
    pose proof (pow10_pos (d - 2) ltac:(lia)) as Hunit.
    remember (10 ^ (d - 2)) as u eqn:Hu.
    pose proof (round_half_even_near z u Hunit) as Hnear.
    pose proof (round_half_even_range z u (-100) 100 Hunit ltac:(lia)) as Hrange.
    pose proof (round_half_even_tie z u Hunit) as Htie.
    set (m := Py.round_half_even z u) in *. clearbody m. subst r.
    split; [split; [apply Z.divide_factor_r | split; [assumption |]] |].
    { intros Hhalf. rewrite Z.div_mul by lia. exact (Htie Hhalf). }
    destruct (Z.eq_dec (Z.abs m) 100) as [Hm | Hm].
    + exists (m / 10), (d - 1).
      replace (d - 1) with ((d - 2) + 1) by lia.
      rewrite Z.pow_add_r by lia. change (10 ^ 1) with 10. rewrite <- Hu.
      assert (m = 100 \/ m = -100) as [-> | ->] by lia.
      * change (100 / 10) with 10. lia.
      * change (-100 / 10) with (-10). lia.
    + exists m, (d - 2). rewrite <- Hu. lia.
Qed.

(** *** The digits of a multiple of a power of ten *)

Lemma digits_times_10 (n : Z) :
  0 < n -> Py.digits (10 * n) = Py.digits n ++ ["0"%char].
Proof.
  intros Hn.
  pose proof (digits_fuel_enough n ltac:(lia)) as Hfuel.
  rewrite (digits_with_fuel (S (Z.to_nat (Z.log2 n))) (10 * n)); cycle 1.
  { rewrite Nat2Z.inj_succ, <- Z.add_1_r, Z.pow_add_r by lia.
    change (10 ^ 1) with 10. lia. }
  cbn [Py.digits_from].
  destruct (Z.ltb_spec (10 * n) 10); [lia |].
  rewrite (Z.mul_comm 10 n), Z.div_mul, Z.mod_mul by lia.
  rewrite digits_from_app. reflexivity.
Qed.

Lemma digits_times_pow10 (e : nat) (n : Z) :
  0 < n -> Py.digits (n * 10 ^ Z.of_nat e) = Py.digits n ++ replicate e "0"%char.
Proof.
  intros Hn. induction e as [| e IH].
  - change (10 ^ Z.of_nat 0) with 1. rewrite Z.mul_1_r, app_nil_r. reflexivity.
  - rewrite Nat2Z.inj_succ, Z.pow_succ_r by lia.
    replace (n * (10 * 10 ^ Z.of_nat e)) with (10 * (n * 10 ^ Z.of_nat e)) by lia.
    pose proof (pow10_pos (Z.of_nat e) ltac:(lia)).
    rewrite digits_times_10 by nia.
    rewrite IH, <- app_assoc, replicate_S_end. reflexivity.
Qed.

(** A number of at most two digits, times a power of ten, has zeros after
    its first two digits. *)
Lemma short_digits (r : Z) :
  Spec.at_most_two_digits r -> Spec.two_significant_digits r = true.
Proof.
  intros (m & e & He & Hm & ->). unfold Spec.two_significant_digits.
  pose proof (pow10_pos e He) as Hpow.
  rewrite Z.abs_mul, (Z.abs_eq (10 ^ e)) by lia.
  destruct (Z.eq_dec m 0) as [-> | Hm0]; [reflexivity |].
  rewrite <- (Z2Nat.id e He), digits_times_pow10 by lia.
  pose proof (digits_count_100 (Z.abs m) ltac:(lia)) as [Hcount _].
  cbv zeta in Hcount. specialize (Hcount Hm).
  rewrite drop_app_ge by lia. rewrite drop_replicate.
  apply forallb_forall. intros c Hc. apply list_elem_of_In, elem_of_replicate in Hc.
  destruct Hc as [-> _]. reflexivity.
Qed.

(** On every integer, [num_round] returns the integer rounded to two
    digits, comma-grouped: the digits after the first two are zeros. *)
Theorem num_round_int_two_digits :
  forall z : Z,
    exists r,
      docxtk.num_round (Py.Int z) = Ok (Py.format_comma r) /\
      Spec.rounds_to_two_digits z r /\
      Spec.two_significant_digits r = true.
Proof.
  intros z. destruct (num_round_int_rounds z) as (r & Hrun & Hrounds & Hshort).
  exists r. repeat split; [assumption | assumption | apply short_digits; assumption].
Qed.

(** On every integer, rounding the integer that the string returned
    denotes returns the same string. *)
Theorem num_round_int_idempotent :
  forall z : Z,
    exists s r,
      docxtk.num_round (Py.Int z) = Ok s /\
      Spec.numeric_value s = Some r /\
      docxtk.num_round (Py.Int r) = Ok s.
Proof.
  intros z. destruct (num_round_int_rounds z) as (r & Hrun & _ & Hshort).
  exists (Py.format_comma r), r.
  repeat split; [assumption | apply numeric_value_format_comma | apply num_round_fixed; assumption].
Qed.

(** *** [add_table_from_list]: when it returns *)

Section Succeeds.
Context {S : Type}.

Lemma succeeds_bind {A B} (I : S -> Prop) (P : A -> Prop) (Q : B -> Prop)
    (m : M S A) (k : A -> M S B) :
  succeeds I P m -> (forall a, P a -> succeeds I Q (k a)) -> succeeds I Q (m ≫= k).
Proof.
  intros Hm Hk s Hs. destruct (Hm s Hs) as (a & s1 & Hrun & Ha & Hs1).
  destruct (Hk a Ha s1 Hs1) as (b & s2 & Hrun' & Hb & Hs2).
  exists b, s2. split; [| split; assumption].
  rewrite (bind_ok _ _ _ _ _ Hrun). assumption.
Qed.

Lemma succeeds_getitem {A} (I : S -> Prop) (xs : list A) (i : nat) :
  (i < length xs)%nat -> succeeds I (fun a => xs !! i = Some a) (lift (getitem xs i)).
Proof.
  intros Hi s Hs. destruct (lookup_lt_is_Some_2 xs i Hi) as [a Ha].
  exists a, s. split; [| split; assumption]. unfold lift, getitem. rewrite Ha. reflexivity.
Qed.

Lemma succeeds_getitem_bind {A B} (I : S -> Prop) (Q : B -> Prop) (xs : list A)
    (i : nat) (k : A -> M S B) :
  (i < length xs)%nat ->
  (forall a, xs !! i = Some a -> succeeds I Q (k a)) ->
  succeeds I Q (lift (getitem xs i) ≫= k).
Proof.
  intros Hi Hk. eapply succeeds_bind; [apply succeeds_getitem; assumption | exact Hk].
Qed.

Lemma succeeds_for_each {A} (I : S -> Prop) (xs : list A) (body : A -> M S unit) :
  (forall x, x ∈ xs -> succeeds I (fun _ => True) (body x)) ->
  succeeds I (fun _ => True) (for_each xs body).
Proof.
  intros Hbody s Hs.
  destruct (for_each_returns I xs body) with (s := s) as (s' & Hrun & Hs'); [| assumption |].
  - intros x t Hx Ht. destruct (Hbody x Hx t Ht) as ([] & t' & Hrun & _ & Ht'). eauto.
  - exists tt, s'. repeat split; assumption.
Qed.

(** To run a sequence whose first part succeeds, run the rest from the
    state that the first part leaves. *)
Lemma run_succeeds {A B} (I : S -> Prop) (Q : A -> Prop) (P : result B * S -> Prop)
    (m : M S A) (k : A -> M S B) (s : S) :
  succeeds I Q m -> I s ->
  (forall a s', Q a -> I s' -> P (k a s')) ->
  P ((m ≫= k) s).
Proof.
  intros Hm Hs Hk. destruct (Hm s Hs) as (a & s' & Hrun & Ha & Hs').
  rewrite (bind_ok _ _ _ _ _ Hrun). apply Hk; assumption.
Qed.

End Succeeds.

Section DocxTable.
Context {V : Type} `{Str V}.
Variables (before : docx.Document) (nrows ncols : nat).

Lemma write_cell_succeeds (i j : nat) (f : docx.Cell -> docx.Cell) :
  (i < nrows)%nat -> (j < ncols)%nat ->
  succeeds (table_in_place before nrows ncols) (fun _ => True)
    (docx.on_table (length before) (docx.update_cell i j f)).
Proof.
  intros Hi Hj doc (t & -> & Hcols & Hcells).
  unfold docx.on_table, docx.Document in *.
  rewrite lookup_app_r, Nat.sub_diag by lia. cbn [lookup list_lookup].
  unfold docx.update_cell. rewrite Hcols.
  destruct (lookup_lt_is_Some_2 (docx.cells t) (j + i * ncols)) as [c Hc]; [nia |].
  rewrite Hc. exists tt. eexists. split; [reflexivity |]. split; [exact I |].
  rewrite insert_app_r_alt, Nat.sub_diag by lia.
  eexists. split; [reflexivity |]. cbn. rewrite length_insert. split; [reflexivity | assumption].
Qed.

(** Writing a text and an alignment in a cell of the table. *)
Lemma write_text_succeeds (i j : nat) (s : string) (a : docx.WD_ALIGN_PARAGRAPH) :
  (i < nrows)%nat -> (j < ncols)%nat ->
  succeeds (table_in_place before nrows ncols) (fun _ => True)
    (docx.on_table (length before) (docx.set_text i j s) ;;
     docx.on_table (length before) (docx.set_alignment i j a)).
Proof.
  intros Hi Hj.
  eapply succeeds_bind; [apply write_cell_succeeds; assumption |].
  intros _ _. apply write_cell_succeeds; assumption.
Qed.

End DocxTable.

(** [add_table_from_list] returns when the data has a first row as wide as
    the column headers, no row is shorter than that, and there is a row
    header for every row: the row headers may be more than the rows. *)
Theorem add_table_from_list_returns :
  forall (V : Type) (StrV : Str V) (title : string) (columns rows : list string)
         (row0 : list V) (data : list (list V)) (footnote : option string)
         (doc : docx.Document),
    length row0 = length columns ->
    Forall (fun row => (length columns <= length row)%nat) data ->
    (length (row0 :: data) <= length rows)%nat ->
    fst (docxtk.add_table_from_list title columns rows (row0 :: data) footnote doc) = Ok tt.
Proof.
  intros V StrV title columns rows row0 data footnote doc Hwidth Hrows Hheaders.
  unfold docxtk.add_table_from_list.
  erewrite bind_ok by reflexivity.
  erewrite bind_ok by reflexivity.
  rewrite Hwidth, !Nat.eqb_refl.
  erewrite bind_ok by reflexivity.
  erewrite bind_ok by reflexivity.
  erewrite bind_ok by reflexivity.
  set (before := doc ++ [docx.Paragraph title docxtk.DocStyles.footer]).
  set (no_rows := length (row0 :: data)) in *.
  set (no_cols := length columns) in *.
  assert (Hplace : table_in_place before (no_rows + 1) (no_cols + 1)
            (before ++ [docx.Tbl {| docx.style := docxtk.DocStyles.table;
                          docx.column_count := no_cols + 1;
                          docx.cells := replicate ((no_rows + 1) * (no_cols + 1))
                            {| docx.text := EmptyString; docx.alignment := None |} |}])).
  { eexists. split; [reflexivity |]. cbn. rewrite length_replicate. split; reflexivity. }
  (* the column headers *)
  apply (run_succeeds (table_in_place before (no_rows + 1) (no_cols + 1))
           (fun _ => True) (fun out => fst out = Ok tt)); [| exact Hplace |].
  { apply succeeds_for_each. intros j Hj. apply list_elem_of_In, in_seq in Hj.
    apply succeeds_getitem_bind; [unfold no_cols in *; lia |].
    intros c _. apply write_text_succeeds; lia. }
  clear Hplace. intros [] doc1 _ Hplace.
  (* the row headers *)
  apply (run_succeeds (table_in_place before (no_rows + 1) (no_cols + 1))
           (fun _ => True) (fun out => fst out = Ok tt)); [| exact Hplace |].
  { apply succeeds_for_each. intros i Hi. apply list_elem_of_In, in_seq in Hi.
    apply succeeds_getitem_bind; [unfold no_rows in *; cbn [length] in *; lia |].
    intros r _. apply write_text_succeeds; lia. }
  clear Hplace. intros [] doc2 _ Hplace.
  (* the data cells *)
  apply (run_succeeds (table_in_place before (no_rows + 1) (no_cols + 1))
           (fun _ => True) (fun out => fst out = Ok tt)); [| exact Hplace |].
  { apply succeeds_for_each. intros i Hi. apply list_elem_of_In, in_seq in Hi.
    apply succeeds_for_each. intros j Hj. apply list_elem_of_In, in_seq in Hj.
    apply succeeds_getitem_bind; [unfold no_rows in *; cbn [length] in *; lia |].
    intros row Hrow.
    apply succeeds_getitem_bind.
    - assert (Hin : row ∈ row0 :: data) by (eapply list_elem_of_lookup_2; eassumption).
      apply elem_of_cons in Hin as [-> | Hin]; [unfold no_cols in *; lia |].
      apply list_elem_of_In in Hin. rewrite Forall_forall in Hrows.
      specialize (Hrows row Hin).
      unfold no_cols in *. lia.
    - intros v _. apply write_text_succeeds; lia. }
  clear Hplace. intros [] doc3 _ Hplace.
  destruct footnote as [s |]; [destruct (bool_decide (s = EmptyString)) |]; reflexivity.
Qed.

Lemma add_table_from_list_returns_witness :
  fst (docxtk.add_table_from_list "t" ["a"; "b"] ["r1"; "r2"; "r3"]
         [["1"; "2"]; ["3"; "4"; "5"]] (Some "note") []) = Ok tt.
Proof.
  apply (add_table_from_list_returns string str_string "t" ["a"; "b"] ["r1"; "r2"; "r3"]
           ["1"; "2"] [["3"; "4"; "5"]] (Some "note") []).
  - reflexivity.
  - repeat constructor.
  - simpl. lia.
Defined.

(** [add_table_from_list] raises an assertion error, with the message of
    its first assertion, when the column headers are not as many as the
    cells of the first row of data; it has added the title by then. *)
Theorem add_table_from_list_column_mismatch :
  forall (V : Type) (StrV : Str V) (title : string) (columns rows : list string)
         (row0 : list V) (data : list (list V)) (footnote : option string)
         (doc : docx.Document),
    length columns <> length row0 ->
    docxtk.add_table_from_list title columns rows (row0 :: data) footnote doc
    = (Raise (AssertionError "The number of headers and columns of data are not equal"),
       doc ++ [docx.Paragraph title docxtk.DocStyles.footer]).
Proof.
  intros V StrV title columns rows row0 data footnote doc Hwidth.
  unfold docxtk.add_table_from_list.
  erewrite bind_ok by reflexivity.
  erewrite bind_ok by reflexivity.
  destruct (Nat.eqb_spec (length columns) (length row0)) as [Heq | _]; [contradiction |].
  reflexivity.
Qed.

Lemma add_table_from_list_column_mismatch_witness :
  docxtk.add_table_from_list "t" ["a"; "b"] ["r1"] [["1"]] None []
  = (Raise (AssertionError "The number of headers and columns of data are not equal"),
     [] ++ [docx.Paragraph "t" docxtk.DocStyles.footer]).
Proof.
  apply (add_table_from_list_column_mismatch string str_string "t" ["a"; "b"] ["r1"]
           ["1"] [] None []).
  simpl. lia.
Defined.

(** *** What [_make_sub_dims] returns on every numeric type *)

Lemma lookup_removelast_lt {A} (l : list A) (i : nat) :
  (S i < length l)%nat -> removelast l !! i = l !! i.
Proof.
  intros Hi. rewrite removelast_firstn_len. apply lookup_take_lt. lia.
Qed.

(** When the proportions sum to 1, on floats as on any numbers:
    [_make_sub_dims] returns as many starts and lengths as there are
    proportions; the length of a segment is its proportion times the
    length; the first start is [start] and each later one is the running
    sum of the proportions before it, times the length, plus [start]. *)
Theorem make_sub_dims_shape :
  forall (R : Type) (NumR : Py.Num R) (start length : R) (proportions : list R),
    Py.num_eqb (Py.sum proportions) Py.num_one = true ->
    exists starts lengths,
      pptxtk._make_sub_dims start length proportions = Ok (starts, lengths) /\
      lengths = map (fun p => Py.num_mul p length) proportions /\
      (proportions <> [] -> List.length starts = List.length proportions) /\
      starts !! 0%nat = Some start /\
      (forall i c, Py.cumsum proportions !! i = Some c ->
                   (S i < List.length proportions)%nat ->
                   starts !! S i = Some (Py.num_add (Py.num_mul c length) start)).
Proof.
  intros R NumR start length proportions Hsum.
  eexists _, _. split; [apply make_sub_dims_sum_one; assumption |].
  split; [reflexivity |]. split; [| split; [reflexivity |]].
  - intros Hne. cbn [List.length]. rewrite length_removelast, length_map, length_cumsum.
    destruct proportions; [contradiction | reflexivity].
  - intros i c Hc Hi.
    change ((?x :: ?l) !! S i) with (l !! i).
    rewrite lookup_removelast_lt by (rewrite length_map, length_cumsum; assumption).
    rewrite list_lookup_fmap, Hc. reflexivity.
Qed.

Lemma make_sub_dims_shape_witness :
  exists starts lengths,
    pptxtk._make_sub_dims pptxtk.LEFT pptxtk.WIDTH
      [Py.decimal 1 1; Py.decimal 2 1; Py.decimal 7 1] = Ok (starts, lengths) /\
    lengths = map (fun p => Py.fmul p pptxtk.WIDTH)
                  [Py.decimal 1 1; Py.decimal 2 1; Py.decimal 7 1] /\
    ([Py.decimal 1 1; Py.decimal 2 1; Py.decimal 7 1] <> [] ->
     List.length starts = 3%nat) /\
    starts !! 0%nat = Some pptxtk.LEFT /\
    (forall i c,
       Py.cumsum [Py.decimal 1 1; Py.decimal 2 1; Py.decimal 7 1] !! i = Some c ->
       (S i < 3)%nat ->
       starts !! S i = Some (Py.fadd (Py.fmul c pptxtk.WIDTH) pptxtk.LEFT)).
Proof.
  apply (make_sub_dims_shape Py.float Py.float_Num pptxtk.LEFT pptxtk.WIDTH
           [Py.decimal 1 1; Py.decimal 2 1; Py.decimal 7 1]).
  vm_compute. reflexivity.
Defined.

(** *** The dictionaries of [make_col_dims] and [make_row_dims] *)

(** A loop over [range(n)] that returns has run its body on 0, 1, ... in
    turn. *)
Lemma for_each_range_ind {St} (P : nat -> St -> Prop) (body : nat -> M St unit)
    (n : nat) (s s' : St) :
  for_each (range n) body s = (Ok tt, s') ->
  P 0%nat s ->
  (forall i t t', (i < n)%nat -> P i t -> body i t = (Ok tt, t') -> P (S i) t') ->
  P n s'.
Proof.
  unfold range. intros Hrun Hstart Hstep.
  enough (Hgen : forall m k t, (k + m = n)%nat -> P k t ->
                               for_each (seq k m) body t = (Ok tt, s') -> P n s')
    by (eapply (Hgen n 0%nat); eauto).
  clear s Hrun Hstart. induction m as [| m IH]; intros k t Hk Ht Hrun.
  - injection Hrun as <-. replace n with k by lia. assumption.
  - cbn [seq for_each] in Hrun.
    apply bind_inv in Hrun as ([] & t1 & Hbody & Hrest).
    apply (IH (S k) t1); [lia | | assumption].
    apply (Hstep k t); [lia | assumption | assumption].
Qed.

Ltac distinct_keys :=
  let Heq := fresh "Heq" in
  intros Heq; cbn [String.append] in Heq;
  first [ discriminate Heq
        | repeat (injection Heq as Heq); apply (pretty_nat_inj _ _) in Heq; lia ].

Section Dictionaries.
Context {R : Type} `{Py.Num R}.
Variables lefts widths tops heights : nat -> option R.

(** A body that writes the four entries of its index leaves the entries of
    every index below [n] in the dictionary. *)
Lemma filled_entries (n : nat) (body : nat -> M (gmap string R) unit)
    (dims : gmap string R) :
  (forall i t t', (i < n)%nat -> body i t = (Ok tt, t') ->
     exists l w p h,
       lefts i = Some l /\ widths i = Some w /\ tops i = Some p /\ heights i = Some h /\
       t' = <["height" +:+ pretty i := h]>
              (<["top" +:+ pretty i := p]>
                 (<["width" +:+ pretty i := w]>
                    (<["left" +:+ pretty i := l]> t)))) ->
  pptxtk.filled (for_each (range n) body) = Ok dims ->
  forall i, (i < n)%nat -> entries lefts widths tops heights dims i.
Proof.
  intros Hbody Hfilled. unfold pptxtk.filled in Hfilled.
  destruct (for_each (range n) body ∅) as [[[] | e] dims'] eqn:Hrun; [| discriminate].
  injection Hfilled as ->.
  apply (for_each_range_ind
           (fun k d => forall i, (i < k)%nat -> entries lefts widths tops heights d i)
           body n ∅ dims Hrun); [intros i Hi; lia |].
  intros k t t' Hk IH Hstep i Hi.
  destruct (Hbody k t t' Hk Hstep) as (l & w & p & h & Hl & Hw & Hp & Hh & ->).
  destruct (decide (i = k)) as [-> | Hne].
  - unfold entries. rewrite Hl, Hw, Hp, Hh.
    repeat split.
    + rewrite !lookup_insert_ne by distinct_keys. apply lookup_insert_eq.
    + rewrite !lookup_insert_ne by distinct_keys. apply lookup_insert_eq.
    + rewrite !lookup_insert_ne by distinct_keys. apply lookup_insert_eq.
    + apply lookup_insert_eq.
  - destruct (IH i ltac:(lia)) as (Hl' & Hw' & Hp' & Hh').
    unfold entries. repeat split; rewrite !lookup_insert_ne by distinct_keys; assumption.
Qed.

End Dictionaries.

(** The dictionary of [make_col_dims] holds, for each column [i], the start
    and the length that [_make_sub_dims] returns for it under [left{i}] and
    [width{i}], and the [top] and the [height] passed; the dictionary of
    [make_row_dims] holds the [left] and the [width] passed, and the start
    and the length under [top{i}] and [height{i}]. *)
Theorem make_dims_entries :
  forall (R : Type) (NumR : Py.Num R) (start length : R) (proportions : list R)
         (starts lengths : list R) (fixed_start fixed_length : R)
         (dims : gmap string R) (i : nat),
    pptxtk._make_sub_dims start length proportions = Ok (starts, lengths) ->
    (i < List.length proportions)%nat ->
    (pptxtk.make_col_dims start length proportions fixed_start fixed_length = Ok dims ->
     entries (fun i => starts !! i) (fun i => lengths !! i)
             (fun _ => Some fixed_start) (fun _ => Some fixed_length) dims i) /\
    (pptxtk.make_row_dims start length proportions fixed_start fixed_length = Ok dims ->
     entries (fun _ => Some fixed_start) (fun _ => Some fixed_length)
             (fun i => starts !! i) (fun i => lengths !! i) dims i).
Proof.
  intros R NumR start length proportions starts lengths fixed_start fixed_length
    dims i Hsub Hi.
  unfold pptxtk.make_col_dims, pptxtk.make_row_dims. rewrite Hsub.
  cbn [mbind result_bind]. split; intros Hfilled.
  - eapply filled_entries; [| exact Hfilled | exact Hi].
    intros k t t' Hk Hstep.
    unfold mbind, M_bind, lift, getitem, pptxtk.setitem in Hstep.
    destruct (starts !! k) as [l |]; [| discriminate].
    destruct (lengths !! k) as [w |]; [| discriminate].
    injection Hstep as <-. eauto 10.
  - eapply filled_entries; [| exact Hfilled | exact Hi].
    intros k t t' Hk Hstep.
    unfold mbind, M_bind, lift, getitem, pptxtk.setitem in Hstep.
    destruct (starts !! k) as [p |]; [| discriminate].
    destruct (lengths !! k) as [h |]; [| discriminate].
    injection Hstep as <-. eauto 10.
Qed.

Lemma make_dims_entries_witness :
  let halves := [Py.decimal 5 1; Py.decimal 5 1] in
  let dims : gmap string Py.float :=
    <["height1" := pptxtk.HEIGHT]> (<["top1" := pptxtk.TOP]>
      (<["width1" := Py.float_of_Z 12]> (<["left1" := Py.float_of_Z 13]>
        (<["height0" := pptxtk.HEIGHT]> (<["top0" := pptxtk.TOP]>
          (<["width0" := Py.float_of_Z 12]> (<["left0" := Py.float_of_Z 1]> ∅))))))) in
  pptxtk.make_col_dims (Py.float_of_Z 1) (Py.float_of_Z 24) halves pptxtk.TOP pptxtk.HEIGHT
    = Ok dims /\
  entries (fun i => [Py.float_of_Z 1; Py.float_of_Z 13] !! i)
          (fun i => [Py.float_of_Z 12; Py.float_of_Z 12] !! i)
          (fun _ => Some pptxtk.TOP) (fun _ => Some pptxtk.HEIGHT) dims 1.
Proof.
  cbv zeta.
  assert (Hrun : pptxtk.make_col_dims (Py.float_of_Z 1) (Py.float_of_Z 24)
                   [Py.decimal 5 1; Py.decimal 5 1] pptxtk.TOP pptxtk.HEIGHT
                 = Ok (<["height1" := pptxtk.HEIGHT]> (<["top1" := pptxtk.TOP]>
                        (<["width1" := Py.float_of_Z 12]> (<["left1" := Py.float_of_Z 13]>
                          (<["height0" := pptxtk.HEIGHT]> (<["top0" := pptxtk.TOP]>
                            (<["width0" := Py.float_of_Z 12]>
                              (<["left0" := Py.float_of_Z 1]> ∅)))))))))
    by (vm_compute; reflexivity).
  split; [exact Hrun |].
  apply (make_dims_entries Py.float Py.float_Num (Py.float_of_Z 1) (Py.float_of_Z 24)
           [Py.decimal 5 1; Py.decimal 5 1]
           [Py.float_of_Z 1; Py.float_of_Z 13] [Py.float_of_Z 12; Py.float_of_Z 12]
           pptxtk.TOP pptxtk.HEIGHT _ 1%nat).
  - vm_compute. reflexivity.
  - simpl. lia.
  - exact Hrun.
Defined.

(** *** The written lists of [docxtk] *)

Lemma zip_take_shortest {A B} (xs : list A) (ys : list B) (k : nat) :
  (Nat.min (length xs) (length ys) <= k)%nat ->
  zip (take k xs) (take k ys) = zip xs ys.
Proof.
  revert ys k. induction xs as [| x xs IH]; intros ys k Hk.
  - rewrite take_nil. reflexivity.
  - destruct ys as [| y ys]; [rewrite take_nil; destruct (take k (x :: xs)); reflexivity |].
    destruct k as [| k]; [simpl in Hk; lia |].
    simpl. f_equal. apply IH. simpl in Hk. lia.
Qed.

Lemma take_zip {A B} (xs : list A) (ys : list B) (k : nat) :
  take k (zip xs ys) = zip (take k xs) (take k ys).
Proof.
  revert xs ys. induction k as [| k IH]; intros [| x xs] [| y ys]; simpl; try reflexivity.
  f_equal. apply IH.
Qed.

(** With a [length] that is not negative, the string lists the pairs of the
    first [k] names and values, for [k] the least of [length] and the two
    lengths: the names and the values after them do not show in it. With no
    pair to list it is the full stop alone. *)
Theorem fmt_written_list_first_pairs :
  forall (names values : list string) (length : Z),
    0 <= length ->
    let k := Nat.min (Z.to_nat length) (Nat.min (List.length names) (List.length values)) in
    docxtk.fmt_written_list_with_values_in_bracket names values length
    = docxtk.fmt_written_list_with_values_in_bracket (take k names) (take k values) length /\
    (k = 0%nat -> docxtk.fmt_written_list_with_values_in_bracket names values length = ".").
Proof.
  intros names values n Hn k.
  unfold docxtk.fmt_written_list_with_values_in_bracket, Py.slice_to.
  destruct (Z.leb_spec 0 n) as [_ | Hneg]; [| lia].
  rewrite !firstn_map, !take_zip.
  assert (Hsame : zip (take (Z.to_nat n) (take k names)) (take (Z.to_nat n) (take k values))
                  = zip (take (Z.to_nat n) names) (take (Z.to_nat n) values)).
  { rewrite !take_take.
    replace (Nat.min (Z.to_nat n) k) with (Nat.min k (Z.to_nat n)) by lia.
    rewrite <- !take_take.
    apply zip_take_shortest. rewrite !length_take. lia. }
  split.
  - rewrite Hsame. reflexivity.
  - intros Hk. rewrite <- Hsame, Hk, !take_0, !take_nil. reflexivity.
Qed.

Lemma fmt_written_list_first_pairs_witness :
  docxtk.fmt_written_list_with_values_in_bracket
    ["Derby"; "Matlock"; "Winster"; "Bakewell"] ["40%"; "30%"; "20%"] 2
  = "Derby (40%), Matlock (30%)." /\
  docxtk.fmt_written_list_with_values_in_bracket
    ["Derby"; "Matlock"; "Winster"; "Bakewell"] ["40%"; "30%"; "20%"] 2
  = docxtk.fmt_written_list_with_values_in_bracket ["Derby"; "Matlock"] ["40%"; "30%"] 2.
Proof.
  split; [reflexivity |].
  apply (fmt_written_list_first_pairs
           ["Derby"; "Matlock"; "Winster"; "Bakewell"] ["40%"; "30%"; "20%"] 2).
  lia.
Defined.

Lemma mapM_total {A B} (f : A -> B) (l : list A) :
  mapM (fun a => Ok (f a)) l = Ok (map f l).
Proof.
  induction l as [| a l IH]; [reflexivity |].
  cbn [mapM]. rewrite IH. reflexivity.
Qed.

Lemma written_comma_sep_snoc {V} `{Str V} (front : list V) (x : V) :
  docxtk.written_comma_sep (front ++ [x])
  = Ok (Py.join ", " (map str front) +:+ " and " +:+ str x).
Proof.
  unfold docxtk.written_comma_sep, Py.slice_to, Py.index.
  change (0 <=? -1) with false. change (-1 <? 0) with true. cbv iota.
  rewrite length_app. cbn [length].
  destruct (Z.ltb_spec (-1 + Z.of_nat (length front + 1)) 0) as [Hneg | _]; [lia |].
  replace (Z.to_nat (-1 + Z.of_nat (length front + 1))) with (length front) by lia.
  replace (length front + 1 - Z.to_nat (- -1))%nat with (length front) by lia.
  rewrite take_app_length. unfold getitem.
  rewrite lookup_app_r, Nat.sub_diag by lia. reflexivity.
Qed.

(** [fmt_written_comma_sep_list] raises [IndexError] on the empty list,
    with or without a preprocessing. On a list that ends with [x] it returns
    the elements before [x] joined by commas, then " and ", then [x]: for a
    list of one element the string starts with " and ". A preprocessing that
    does not raise is applied to every element first. *)
Theorem fmt_written_comma_sep_list_cases :
  forall (A B : Type) (StrA : Str A) (StrB : Str B),
    (forall preprocessing : option (A -> result B),
       docxtk.fmt_written_comma_sep_list [] preprocessing = Raise IndexError) /\
    (forall (front : list A) (x : A),
       docxtk.fmt_written_comma_sep_list (B := B) (front ++ [x]) None
       = Ok (Py.join ", " (map str front) +:+ " and " +:+ str x)) /\
    (forall x : A,
       docxtk.fmt_written_comma_sep_list (B := B) [x] None = Ok (" and " +:+ str x)) /\
    (forall (f : A -> B) (lst : list A),
       docxtk.fmt_written_comma_sep_list lst (Some (fun a => Ok (f a)))
       = docxtk.fmt_written_comma_sep_list (B := B) (map f lst) None).
Proof.
  intros A B StrA StrB. split; [| split; [| split]].
  - intros [f |]; reflexivity.
  - intros front x. apply written_comma_sep_snoc.
  - intros x. exact (written_comma_sep_snoc (@nil A) x).
  - intros f lst. unfold docxtk.fmt_written_comma_sep_list.
    rewrite mapM_total. reflexivity.
Qed.

(** *** [num_round] on floats it cannot round *)

(** [num_round] raises [ValueError] on a NaN and [OverflowError] on an
    infinity of either sign. It also raises [OverflowError] on the largest
    finite float, of either sign: its rounding to two digits, 1.8e308, is
    too large for a float. *)
Theorem num_round_raises :
  docxtk.num_round (Py.Float S754_nan) = Raise ValueError /\
  (forall s : bool, docxtk.num_round (Py.Float (S754_infinity s)) = Raise OverflowError) /\
  (forall s : bool,
     docxtk.num_round (Py.Float (S754_finite s (2 ^ 53 - 1) 971)) = Raise OverflowError).
Proof.
  split; [reflexivity |]. split; intros []; vm_compute; reflexivity.
Qed.

(** *** The keys of the dictionaries of [make_col_dims] and [make_row_dims] *)

Section DictionaryKeys.
Context {R : Type}.

(** A loop whose body writes the four entries of its index leaves a
    dictionary with the keys of the indices below [n] and no other key. *)
Lemma filled_keys (n : nat) (body : nat -> M (gmap string R) unit) (dims : gmap string R) :
  (forall i t t', (i < n)%nat -> body i t = (Ok tt, t') ->
     exists l w p h,
       t' = <["height" +:+ pretty i := h]>
              (<["top" +:+ pretty i := p]>
                 (<["width" +:+ pretty i := w]>
                    (<["left" +:+ pretty i := l]> t)))) ->
  pptxtk.filled (for_each (range n) body) = Ok dims ->
  forall key, is_Some (dims !! key) <-> exists i, (i < n)%nat /\ key_of_index key i.
Proof.
  intros Hbody Hfilled. unfold pptxtk.filled in Hfilled.
  destruct (for_each (range n) body ∅) as [[[] | e] dims'] eqn:Hrun; [| discriminate].
  injection Hfilled as ->.
  apply (for_each_range_ind
           (fun k d => forall key, is_Some (d !! key)
                                   <-> exists i, (i < k)%nat /\ key_of_index key i)
           body n ∅ dims Hrun).
  - intros key. rewrite lookup_empty. split.
    + intros [x Hx]. discriminate.
    + intros (i & Hi & _). lia.
  - intros k t t' Hk IH Hstep key.
    destruct (Hbody k t t' Hk Hstep) as (l & w & p & h & ->).
    rewrite !lookup_insert_is_Some', IH. unfold key_of_index. split.
    + intros [<- | [<- | [<- | [<- | (i & Hi & Hkey)]]]].
      * exists k. split; [lia | tauto].
      * exists k. split; [lia | tauto].
      * exists k. split; [lia | tauto].
      * exists k. split; [lia | tauto].
      * exists i. split; [lia | assumption].
    + intros (i & Hi & Hkey).
      destruct (decide (i = k)) as [-> | Hne].
      * destruct Hkey as [-> | [-> | [-> | ->]]]; tauto.
      * do 4 right. exists i. split; [lia | assumption].
Qed.

End DictionaryKeys.

(** The dictionary that [make_col_dims] or [make_row_dims] returns has the
    keys [left{i}], [width{i}], [top{i}] and [height{i}] for every index [i]
    of the proportions, and no other key: the dictionary of one proportion
    has no [left1], which [add_slide_text_and_image] reads. *)
Theorem make_dims_keys :
  forall (R : Type) (NumR : Py.Num R) (start length : R) (proportions : list R)
         (fixed_start fixed_length : R) (dims : gmap string R) (key : string),
    pptxtk.make_col_dims start length proportions fixed_start fixed_length = Ok dims \/
    pptxtk.make_row_dims start length proportions fixed_start fixed_length = Ok dims ->
    (is_Some (dims !! key)
     <-> exists i, (i < List.length proportions)%nat /\ key_of_index key i).
Proof.
  intros R NumR start length proportions fixed_start fixed_length dims key.
  unfold pptxtk.make_col_dims, pptxtk.make_row_dims.
  destruct (pptxtk._make_sub_dims start length proportions) as [[starts lengths] | e];
    cbn [mbind result_bind]; [| intros [|]; discriminate].
  intros [Hfilled | Hfilled]; (eapply filled_keys; [| exact Hfilled]);
    intros k t t' Hk Hstep;
    unfold mbind, M_bind, lift, getitem, pptxtk.setitem in Hstep;
    (destruct (starts !! k) as [l |]; [| discriminate]);
    (destruct (lengths !! k) as [w |]; [| discriminate]);
    injection Hstep as <-; eauto 10.
Qed.

Lemma make_dims_keys_witness :
  exists dims : gmap string Py.float,
    pptxtk.make_col_dims pptxtk.LEFT pptxtk.WIDTH [Py.float_of_Z 1] pptxtk.TOP pptxtk.HEIGHT
    = Ok dims /\
    is_Some (dims !! "left0") /\
    dims !! "left1" = None.
Proof.
  assert (Hrun : pptxtk.make_col_dims pptxtk.LEFT pptxtk.WIDTH [Py.float_of_Z 1]
                   pptxtk.TOP pptxtk.HEIGHT
                 = Ok (<["height0" := pptxtk.HEIGHT]> (<["top0" := pptxtk.TOP]>
                        (<["width0" := Py.fmul (Py.float_of_Z 1) pptxtk.WIDTH]>
                           (<["left0" := pptxtk.LEFT]> ∅)))))
    by (vm_compute; reflexivity).
  eexists. split; [exact Hrun |].
  pose proof (fun key =>
    make_dims_keys Py.float Py.float_Num pptxtk.LEFT pptxtk.WIDTH [Py.float_of_Z 1]
      pptxtk.TOP pptxtk.HEIGHT _ key (or_introl Hrun)) as Hkeys.
  split.
  - apply Hkeys. exists 0%nat. split; [simpl; lia | left; reflexivity].
  - apply eq_None_not_Some. intros Hsome. apply Hkeys in Hsome as (i & Hi & Hkey).
    simpl in Hi. assert (i = 0%nat) as -> by lia.
    destruct Hkey as [Hkey | [Hkey | [Hkey | Hkey]]]; discriminate Hkey.
Defined.

(** *** [add_table_from_list]: what it leaves in the document *)

Lemma docx_on_table_at_end {A} (before : docx.Document) (t : docx.Table) (m : M docx.Table A) :
  docx.on_table (length before) m (before ++ [docx.Tbl t])
  = (fst (m t), before ++ [docx.Tbl (snd (m t))]).
Proof.
  unfold docx.on_table, docx.Document in *.
  rewrite lookup_app_r, Nat.sub_diag by lia. cbn [lookup list_lookup].
  destruct (m t) as [r t']. cbn [fst snd].
  rewrite insert_app_r_alt, Nat.sub_diag by lia. reflexivity.
Qed.

(** Two cells of a row-major table are at the same index only if they are
    the same cell. *)
Lemma cell_index_inj (ncols r c r0 c0 : nat) :
  (c < ncols)%nat -> (c0 < ncols)%nat ->
  (c + r * ncols = c0 + r0 * ncols)%nat -> r = r0 /\ c = c0.
Proof.
  intros Hc Hc0 Heq.
  assert (Hr : r = r0).
  { assert (Hdiv : ((c + r * ncols) / ncols = (c0 + r0 * ncols) / ncols)%nat)
      by (rewrite Heq; reflexivity).
    rewrite !Nat.div_add in Hdiv by lia.
    rewrite !Nat.div_small in Hdiv by assumption. exact Hdiv. }
  subst r0. split; [reflexivity | lia].
Qed.

(** A write in a cell changes that cell and no other. *)
Lemma docx_update_cell (t t' : docx.Table) (r0 c0 : nat) (f : docx.Cell -> docx.Cell) :
  docx.update_cell r0 c0 f t = (Ok tt, t') ->
  (c0 < docx.column_count t)%nat ->
  docx.style t' = docx.style t /\
  docx.column_count t' = docx.column_count t /\
  length (docx.cells t') = length (docx.cells t) /\
  (exists old, docx.cell t r0 c0 = Some old /\ docx.cell t' r0 c0 = Some (f old)) /\
  (forall r c, (c < docx.column_count t)%nat -> ~ (r = r0 /\ c = c0) ->
               docx.cell t' r c = docx.cell t r c).
Proof.
  unfold docx.update_cell, docx.cell.
  destruct (docx.cells t !! (c0 + r0 * docx.column_count t)%nat) as [old |] eqn:Hold;
    [| discriminate].
  intros [= <-] Hc0. cbn.
  split; [reflexivity |]. split; [reflexivity |].
  split; [apply length_insert |]. split.
  - exists old. split; [reflexivity |].
    apply list_lookup_insert_eq. eapply lookup_lt_Some. eassumption.
  - intros r c Hc Hne. apply list_lookup_insert_ne.
    intros Heq. apply Hne. symmetry in Heq.
    apply (cell_index_inj _ _ _ _ _ Hc Hc0 Heq).
Qed.

(** Setting the text and then the alignment of a cell of the table at the
    end of the document is one write in that cell. *)
Lemma docx_write_text (before : docx.Document) (t : docx.Table) (i j : nat) (s : string)
    (a : docx.WD_ALIGN_PARAGRAPH) (doc' : docx.Document) :
  (docx.on_table (length before) (docx.set_text i j s) ;;
   docx.on_table (length before) (docx.set_alignment i j a)) (before ++ [docx.Tbl t])
  = (Ok tt, doc') ->
  exists t', doc' = before ++ [docx.Tbl t'] /\
             docx.update_cell i j
               (fun _ => {| docx.text := s; docx.alignment := Some a |}) t = (Ok tt, t').
Proof.
  intros Hrun. apply bind_inv in Hrun as ([] & doc1 & Htext & Halign).
  rewrite docx_on_table_at_end in Htext.
  unfold docx.set_text, docx.update_cell in Htext |- *.
  destruct (docx.cells t !! (j + i * docx.column_count t)%nat) as [old |] eqn:Hold;
    [| discriminate].
  cbn [fst snd] in Htext. injection Htext as <-.
  rewrite docx_on_table_at_end in Halign.
  unfold docx.set_alignment, docx.update_cell in Halign. cbn in Halign.
  rewrite list_lookup_insert_eq in Halign by (eapply lookup_lt_Some; eassumption).
  cbn in Halign. injection Halign as <-.
  rewrite list_insert_insert_eq. eauto.
Qed.

(** One write of the code, in the cell [(i, j)] of the table at the end of
    the document: the cell holds the text and the alignment, and what
    [P] said of the other cells carries over to [Q]. *)
Lemma building_write (before : docx.Document) (nrows ncols : nat)
    (P Q : docx.Table -> Prop) (i j : nat) (s : string)
    (a : docx.WD_ALIGN_PARAGRAPH) (doc doc' : docx.Document) :
  (j < ncols)%nat ->
  building before nrows ncols P doc ->
  (docx.on_table (length before) (docx.set_text i j s) ;;
   docx.on_table (length before) (docx.set_alignment i j a)) doc = (Ok tt, doc') ->
  (forall t t',
     P t -> docx.column_count t = ncols ->
     docx.cell t' i j = Some {| docx.text := s; docx.alignment := Some a |} ->
     (forall r c, (c < ncols)%nat -> ~ (r = i /\ c = j) -> docx.cell t' r c = docx.cell t r c) ->
     Q t') ->
  building before nrows ncols Q doc'.
Proof.
  intros Hj (t & -> & Hstyle & Hcols & Hcells & HP) Hrun Hnext.
  apply docx_write_text in Hrun as (t' & -> & Hupdate).
  apply docx_update_cell in Hupdate as (Hstyle' & Hcols' & Hcells' & (old & _ & Hnew) & Hother);
    [| lia].
  exists t'. split; [reflexivity |].
  split; [congruence |]. split; [congruence |]. split; [congruence |].
  apply (Hnext t t' HP Hcols Hnew). intros r c Hc Hne. apply Hother; [lia | assumption].
Qed.

Lemma building_weaken (before : docx.Document) (nrows ncols : nat)
    (P Q : docx.Table -> Prop) (doc : docx.Document) :
  building before nrows ncols P doc -> (forall t, P t -> Q t) ->
  building before nrows ncols Q doc.
Proof.
  intros (t & Hdoc & Hstyle & Hcols & Hcells & HP) HPQ. exists t. auto 6.
Qed.

Lemma getitem_inv {St A B} (xs : list A) (i : nat) (k : A -> M St B) (s s' : St) (b : B) :
  (lift (getitem xs i) ≫= k) s = (Ok b, s') ->
  exists a, xs !! i = Some a /\ k a s = (Ok b, s').
Proof.
  unfold mbind, M_bind, lift, getitem.
  destruct (xs !! i) as [a |]; [eauto | discriminate].
Qed.

Ltac other_cell Hsame := rewrite Hsame by lia.

(** When [add_table_from_list] returns, it has added to the document the
    title, in the style [Footer], then one table, then the footnote if there
    is one and it is not empty, in the style [Normal]. The table has the
    style [Normal Table], one row more than the data and one column more
    than the column headers; its first cell is empty, the rest of its first
    row holds the column headers, centred, the rest of its first column the
    row headers, aligned left, and every other cell what [str] gives of the
    value of the data at its place, aligned right. *)
Theorem add_table_from_list_cells :
  forall (V : Type) (StrV : Str V) (title : string) (columns rows : list string)
         (data : list (list V)) (footnote : option string) (doc doc' : docx.Document),
    docxtk.add_table_from_list title columns rows data footnote doc = (Ok tt, doc') ->
    exists t,
      doc' = doc ++ [docx.Paragraph title docxtk.DocStyles.footer; docx.Tbl t]
                 ++ match footnote with
                    | Some s => if bool_decide (s = EmptyString) then []
                                else [docx.Paragraph s docxtk.DocStyles.normal]
                    | None => []
                    end /\
      docx.style t = docxtk.DocStyles.table /\
      docx.column_count t = (length columns + 1)%nat /\
      length (docx.cells t) = ((length data + 1) * (length columns + 1))%nat /\
      docx.cell t 0 0 = Some {| docx.text := EmptyString; docx.alignment := None |} /\
      (forall j c, columns !! j = Some c ->
         docx.cell t 0 (j + 1)
         = Some {| docx.text := c; docx.alignment := Some docx.CENTER |}) /\
      (forall i r, (i < length data)%nat -> rows !! i = Some r ->
         docx.cell t (i + 1) 0
         = Some {| docx.text := r; docx.alignment := Some docx.LEFT |}) /\
      (forall i j row v, data !! i = Some row -> (j < length columns)%nat ->
         row !! j = Some v ->
         docx.cell t (i + 1) (j + 1)
         = Some {| docx.text := str v; docx.alignment := Some docx.RIGHT |}).
Proof.
  intros V StrV title columns rows data footnote doc doc' Hrun.
  unfold docxtk.add_table_from_list in Hrun.
  erewrite bind_ok in Hrun by reflexivity.
  destruct data as [| row0 data']; [discriminate Hrun |].
  erewrite bind_ok in Hrun by reflexivity.
  destruct (Nat.eqb_spec (length columns) (length row0)) as [Hwidth | _];
    [| discriminate Hrun].
  rewrite Nat.eqb_refl in Hrun.
  erewrite bind_ok in Hrun by reflexivity.
  erewrite bind_ok in Hrun by reflexivity.
  erewrite bind_ok in Hrun by reflexivity.
  set (data := row0 :: data') in *.
  set (before := doc ++ [docx.Paragraph title docxtk.DocStyles.footer]) in *.
  set (no_rows := length data) in *.
  set (no_cols := length columns) in *.
  set (so_far := written_so_far columns rows data).
  apply bind_inv in Hrun as ([] & doc1 & Hcolumns & Hrun).
  apply bind_inv in Hrun as ([] & doc2 & Hrows & Hrun).
  apply bind_inv in Hrun as ([] & doc3 & Hdata & Hrun).
  assert (H0 : building before (no_rows + 1) (no_cols + 1) (so_far 0 0 0 0)%nat
                 (before ++ [docx.Tbl {| docx.style := docxtk.DocStyles.table;
                               docx.column_count := no_cols + 1;
                               docx.cells := replicate ((no_rows + 1) * (no_cols + 1))
                                 {| docx.text := EmptyString; docx.alignment := None |} |}])).
  { eexists. split; [reflexivity |]. split; [reflexivity |]. split; [reflexivity |].
    split; [apply length_replicate |].
    split; [| split; [| split]]; try (intros; lia).
    apply lookup_replicate_2. lia. }
  (* the column headers *)
  assert (H1 : building before (no_rows + 1) (no_cols + 1) (so_far no_cols 0 0 0)%nat doc1).
  { refine (for_each_range_ind
              (fun k => building before (no_rows + 1) (no_cols + 1) (so_far k 0 0 0)%nat)
              _ _ _ _ Hcolumns H0 _).
    intros k t t' Hk Ht Hbody.
    apply getitem_inv in Hbody as (c & Hc & Hwrite).
    refine (building_write before _ _ _ _ _ _ _ _ _ _ _ Ht Hwrite _); [lia |].
    intros t0 t1 (H00 & Hhdr & Hrow & Hdat) Hnc Hnew Hsame.
    split; [| split; [| split]].
    - other_cell Hsame. exact H00.
    - intros j c' Hj Hc'. destruct (decide (j = k)) as [-> | Hne].
      + rewrite Hnew. congruence.
      + other_cell Hsame. apply Hhdr; [lia | assumption].
    - intros i r Hi Hr. lia.
    - intros i j row v Hij. lia. }
  (* the row headers *)
  assert (H2 : building before (no_rows + 1) (no_cols + 1)
                 (so_far no_cols no_rows 0 0)%nat doc2).
  { refine (for_each_range_ind
              (fun k => building before (no_rows + 1) (no_cols + 1) (so_far no_cols k 0 0)%nat)
              _ _ _ _ Hrows H1 _).
    intros k t t' Hk Ht Hbody.
    apply getitem_inv in Hbody as (r & Hr & Hwrite).
    refine (building_write before _ _ _ _ _ _ _ _ _ _ _ Ht Hwrite _); [lia |].
    intros t0 t1 (H00 & Hhdr & Hrowh & Hdat) Hnc Hnew Hsame.
    split; [| split; [| split]].
    - other_cell Hsame. exact H00.
    - intros j c Hj Hc. other_cell Hsame. apply Hhdr; assumption.
    - intros i r' Hi Hr'. destruct (decide (i = k)) as [-> | Hne].
      + rewrite Hnew. congruence.
      + other_cell Hsame. apply Hrowh; [lia | assumption].
    - intros i j row v Hij. lia. }
  (* the data cells *)
  assert (H3 : building before (no_rows + 1) (no_cols + 1)
                 (so_far no_cols no_rows no_rows 0)%nat doc3).
  { refine (for_each_range_ind
              (fun k => building before (no_rows + 1) (no_cols + 1)
                          (so_far no_cols no_rows k 0)%nat)
              _ _ _ _ Hdata H2 _).
    intros k t t' Hk Ht Hinner.
    apply building_weaken with (P := so_far no_cols no_rows k no_cols).
    2:{ intros t0 (H00 & Hhdr & Hrowh & Hdat). split; [| split; [| split]]; try assumption.
        intros i j row v Hij Hj Hrow Hv. fold no_cols in Hj.
        apply (Hdat i j row v); [lia | assumption ..]. }
    refine (for_each_range_ind
              (fun l => building before (no_rows + 1) (no_cols + 1)
                          (so_far no_cols no_rows k l)%nat)
              _ _ _ _ Hinner Ht _).
    intros l u u' Hl Hu Hbody.
    apply getitem_inv in Hbody as (row & Hrow & Hbody).
    apply getitem_inv in Hbody as (v & Hv & Hwrite).
    refine (building_write before _ _ _ _ _ _ _ _ _ _ _ Hu Hwrite _); [lia |].
    intros t0 t1 (H00 & Hhdr & Hrowh & Hdat) Hnc Hnew Hsame.
    split; [| split; [| split]].
    - other_cell Hsame. exact H00.
    - intros j c Hj Hc. other_cell Hsame. apply Hhdr; assumption.
    - intros i r Hi Hr. other_cell Hsame. apply Hrowh; assumption.
    - intros i j row' v' Hij Hj Hrow' Hv'. fold no_cols in Hj.
      destruct (decide (i = k /\ j = l)) as [[-> ->] | Hne].
      + rewrite Hnew. congruence.
      + other_cell Hsame. apply (Hdat i j row' v'); [lia | assumption ..]. }
  destruct H3 as (t & -> & Hstyle & Hcols & Hcells & H00 & Hhdr & Hrowh & Hdat).
  exists t. split; [| split; [assumption |]; split; [assumption |]; split; [assumption |];
                      split; [assumption |]; split; [| split]].
  - unfold docx.add_paragraph, mret, M_ret in Hrun.
    destruct footnote as [s |]; [destruct (bool_decide (s = EmptyString)) |];
      injection Hrun as <-; unfold before; rewrite <- ?app_assoc; cbn [app];
      rewrite ?app_nil_r; reflexivity.
  - intros j c Hc. apply Hhdr; [| assumption].
    apply lookup_lt_Some in Hc. assumption.
  - intros i r Hi Hr. apply Hrowh; assumption.
  - intros i j row v Hrow Hj Hv. apply (Hdat i j row v); [| assumption ..].
    left. apply lookup_lt_Some in Hrow. assumption.
Qed.

Lemma add_table_from_list_cells_witness :
  exists t,
    docxtk.add_table_from_list "t" ["a"; "b"] ["r1"] [["1"; "2"]] (Some "note") []
    = (Ok tt, [docx.Paragraph "t" "Footer"; docx.Tbl t; docx.Paragraph "note" "Normal"]) /\
    docx.cell t 0 0 = Some {| docx.text := EmptyString; docx.alignment := None |} /\
    docx.cell t 0 2 = Some {| docx.text := "b"; docx.alignment := Some docx.CENTER |} /\
    docx.cell t 1 0 = Some {| docx.text := "r1"; docx.alignment := Some docx.LEFT |} /\
    docx.cell t 1 2 = Some {| docx.text := "2"; docx.alignment := Some docx.RIGHT |}.
Proof.
  assert (Hrun : docxtk.add_table_from_list "t" ["a"; "b"] ["r1"] [["1"; "2"]] (Some "note") []
                 = (Ok tt, snd (docxtk.add_table_from_list "t" ["a"; "b"] ["r1"] [["1"; "2"]]
                                  (Some "note") [])))
    by (vm_compute; reflexivity).
  destruct (add_table_from_list_cells string str_string "t" ["a"; "b"] ["r1"] [["1"; "2"]]
              (Some "note") [] _ Hrun)
    as (t & Hdoc & _ & _ & _ & H00 & Hhdr & Hrowh & Hdat).
  exists t. split; [rewrite Hrun, Hdoc; reflexivity |].
  split; [exact H00 |].
  split; [exact (Hhdr 1%nat "b" eq_refl) |].
  split; [apply (Hrowh 0%nat "r1"); [simpl; lia | reflexivity] |].
  apply (Hdat 0%nat 1%nat ["1"; "2"] "2"); [reflexivity | simpl; lia | reflexivity].
Defined.

(** *** [add_table_from_list]: what it leaves alone *)

Lemma docx_on_table_keeps {A} (before : docx.Document) (m : M docx.Table A) :
  keeps (fun doc => exists added, doc = before ++ added)
        (docx.on_table (length before) m).
Proof.
  intros doc [added ->]. unfold docx.on_table, docx.Document in *.
  rewrite lookup_app_r, Nat.sub_diag by lia.
  destruct added as [| [content style_name | t] added]; cbn [lookup list_lookup snd]; eauto.
  destruct (m t) as [r t']. cbn [snd].
  rewrite insert_app_r_alt, Nat.sub_diag by lia. eauto.
Qed.

Lemma docx_add_paragraph_keeps (before : docx.Document) (content style_name : string) :
  keeps (fun doc => exists added, doc = before ++ added)
        (docx.add_paragraph content style_name).
Proof.
  intros doc [added ->]. cbn. rewrite <- app_assoc. eauto.
Qed.

(** Whether [add_table_from_list] returns or raises, the blocks that the
    document had are still there, unchanged and in front, and the title
    follows them: the call writes only in what it has added. *)
Theorem add_table_from_list_keeps_document :
  forall (V : Type) (StrV : Str V) (title : string) (columns rows : list string)
         (data : list (list V)) (footnote : option string) (doc : docx.Document),
    exists added,
      snd (docxtk.add_table_from_list title columns rows data footnote doc)
      = doc ++ docx.Paragraph title docxtk.DocStyles.footer :: added.
Proof.
  intros V StrV title columns rows data footnote doc.
  unfold docxtk.add_table_from_list.
  erewrite bind_ok by reflexivity.
  destruct data as [| row0 data']; [exists []; reflexivity |].
  erewrite bind_ok by reflexivity.
  destruct (length columns =? length row0)%nat; [| exists []; reflexivity].
  rewrite Nat.eqb_refl.
  erewrite bind_ok by reflexivity.
  erewrite bind_ok by reflexivity.
  erewrite bind_ok by reflexivity.
  set (before := doc ++ [docx.Paragraph title docxtk.DocStyles.footer]).
  set (kept := fun d : docx.Document => exists added, d = before ++ added).
  match goal with
  | |- exists added, snd (?m ?s) = _ =>
      assert (Hkeeps : keeps kept m); [| destruct (Hkeeps s) as [added Hadded]]
  end.
  - repeat first
      [ apply keeps_bind; [| intros ?]
      | apply keeps_for_each; intros ?
      | apply keeps_lift
      | apply docx_on_table_keeps
      | apply keeps_ret
      | apply docx_add_paragraph_keeps
      | destruct footnote as [s |]; [destruct (bool_decide (s = EmptyString)) |] ].
  - eexists. reflexivity.
  - exists added. rewrite Hadded. unfold before. rewrite <- app_assoc. reflexivity.
Qed.

(** *** [add_table_from_df] of [docxtk] *)

(** The three loops of [add_table_from_list] return on a table of the size
    that the call creates, when the headers and the data reach as far as
    the loops read. *)
Lemma fill_table_succeeds {V} `{Str V} (before : docx.Document) (columns rows : list string)
    (data : list (list V)) (no_rows no_cols : nat) (rest : M docx.Document unit)
    (doc : docx.Document) :
  (no_cols <= length columns)%nat -> (no_rows <= length rows)%nat ->
  (no_rows <= length data)%nat ->
  Forall (fun row => (no_cols <= length row)%nat) data ->
  table_in_place before (no_rows + 1) (no_cols + 1) doc ->
  (forall doc', fst (rest doc') = Ok tt) ->
  fst ((for_each (range no_cols) (fun j =>
          c ← lift (getitem columns j);
          docx.on_table (length before) (docx.set_text 0 (j + 1) c) ;;
          docx.on_table (length before) (docx.set_alignment 0 (j + 1) docx.CENTER)) ;;
        for_each (range no_rows) (fun i =>
          r ← lift (getitem rows i);
          docx.on_table (length before) (docx.set_text (i + 1) 0 r) ;;
          docx.on_table (length before) (docx.set_alignment (i + 1) 0 docx.LEFT)) ;;
        for_each (range no_rows) (fun i =>
          for_each (range no_cols) (fun j =>
            row ← lift (getitem data i);
            v ← lift (getitem row j);
            docx.on_table (length before) (docx.set_text (i + 1) (j + 1) (str v)) ;;
            docx.on_table (length before)
              (docx.set_alignment (i + 1) (j + 1) docx.RIGHT))) ;;
        rest) doc) = Ok tt.
Proof.
  intros Hcolumns Hrows Hdata Hwide Hplace Hrest.
  apply (run_succeeds (table_in_place before (no_rows + 1) (no_cols + 1))
           (fun _ => True) (fun out => fst out = Ok tt)); [| exact Hplace |].
  { apply succeeds_for_each. intros j Hj. apply list_elem_of_In, in_seq in Hj.
    apply succeeds_getitem_bind; [lia |].
    intros c _. apply write_text_succeeds; lia. }
  clear Hplace. intros [] doc1 _ Hplace.
  apply (run_succeeds (table_in_place before (no_rows + 1) (no_cols + 1))
           (fun _ => True) (fun out => fst out = Ok tt)); [| exact Hplace |].
  { apply succeeds_for_each. intros i Hi. apply list_elem_of_In, in_seq in Hi.
    apply succeeds_getitem_bind; [lia |].
    intros r _. apply write_text_succeeds; lia. }
  clear Hplace. intros [] doc2 _ Hplace.
  apply (run_succeeds (table_in_place before (no_rows + 1) (no_cols + 1))
           (fun _ => True) (fun out => fst out = Ok tt)); [| exact Hplace |].
  { apply succeeds_for_each. intros i Hi. apply list_elem_of_In, in_seq in Hi.
    apply succeeds_for_each. intros j Hj. apply list_elem_of_In, in_seq in Hj.
    apply succeeds_getitem_bind; [lia |].
    intros row Hrow.
    apply succeeds_getitem_bind.
    - apply list_elem_of_lookup_2, list_elem_of_In in Hrow.
      rewrite Forall_forall in Hwide. specialize (Hwide row Hrow). lia.
    - intros v _. apply write_text_succeeds; lia. }
  intros [] doc3 _ _. apply Hrest.
Qed.

(** On a frame of strings with no rows, [add_table_from_df] raises
    [IndexError], having added the title and nothing else. On a frame with
    rows, where there is a label for every row and every row has a cell for
    every column, it returns. *)
Theorem docx_add_table_from_df_runs :
  forall (title : string) (df : pd.DataFrame string) (footnote : option string)
         (doc : docx.Document),
    length (pd.index df) = length (pd.values df) ->
    Forall (fun row => length row = length (pd.columns df)) (pd.values df) ->
    (pd.values df = [] ->
     docxtk.add_table_from_df title df footnote doc
     = (Raise IndexError, doc ++ [docx.Paragraph title docxtk.DocStyles.footer])) /\
    (pd.values df <> [] ->
     fst (docxtk.add_table_from_df title df footnote doc) = Ok tt).
Proof.
  intros title [index columns values] footnote doc. cbn [pd.index pd.columns pd.values].
  intros Hindex Hshape. unfold docxtk.add_table_from_df. cbn [pd.index pd.columns pd.values].
  split; [intros ->; reflexivity |].
  destruct values as [| row0 values']; [contradiction |]. intros _.
  unfold docxtk.add_table_from_list.
  erewrite bind_ok by reflexivity.
  erewrite bind_ok by reflexivity.
  rewrite (Forall_inv Hshape), !Nat.eqb_refl.
  erewrite bind_ok by reflexivity.
  erewrite bind_ok by reflexivity.
  erewrite bind_ok by reflexivity.
  apply fill_table_succeeds.
  - reflexivity.
  - rewrite Hindex. reflexivity.
  - reflexivity.
  - eapply Forall_impl; [| exact Hshape]. cbn. intros row ->. reflexivity.
  - eexists. split; [reflexivity |]. cbn. rewrite length_replicate. split; reflexivity.
  - intros doc'.
    destruct footnote as [s |]; [destruct (bool_decide (s = EmptyString)) |]; reflexivity.
Qed.

Lemma docx_add_table_from_df_runs_witness :
  docxtk.add_table_from_df "t"
    {| pd.index := []; pd.columns := ["a"; "b"]; pd.values := [] |} None []
  = (Raise IndexError, [docx.Paragraph "t" "Footer"]) /\
  fst (docxtk.add_table_from_df "t"
         {| pd.index := ["r1"; "r2"]; pd.columns := ["a"; "b"];
            pd.values := [["1"; "2"]; ["3"; "4"]] |} (Some "note") []) = Ok tt.
Proof.
  split.
  - apply (docx_add_table_from_df_runs "t"
             {| pd.index := []; pd.columns := ["a"; "b"]; pd.values := [] |} None []);
      [reflexivity | constructor | reflexivity].
  - apply (docx_add_table_from_df_runs "t"
             {| pd.index := ["r1"; "r2"]; pd.columns := ["a"; "b"];
                pd.values := [["1"; "2"]; ["3"; "4"]] |} (Some "note") []);
      [reflexivity | repeat constructor | discriminate].
Defined.

(** *** [_populate_table]: the cells it writes *)

(** A loop over [enumerate(xs)] that returns has run its body on the
    elements of [xs] in turn, each with its index. *)
Lemma for_each_enumerate_ind {St A} (P : nat -> St -> Prop) (body : nat * A -> M St unit)
    (xs : list A) (s s' : St) :
  for_each (enumerate xs) body s = (Ok tt, s') ->
  P 0%nat s ->
  (forall i x t t', xs !! i = Some x -> P i t -> body (i, x) t = (Ok tt, t') -> P (S i) t') ->
  P (length xs) s'.
Proof.
  unfold enumerate. intros Hrun Hstart Hstep.
  enough (Hgen : forall ys k t,
            (forall i x, ys !! i = Some x -> xs !! (k + i)%nat = Some x) ->
            (k + length ys = length xs)%nat -> P k t ->
            for_each (zip (seq k (length ys)) ys) body t = (Ok tt, s') -> P (length xs) s').
  { apply (Hgen xs 0%nat s); auto. }
  clear s Hrun Hstart. induction ys as [| y ys IH]; intros k t Hsub Hlen Ht Hrun.
  - injection Hrun as <-. cbn in Hlen. replace (length xs) with k by lia. assumption.
  - cbn [length seq zip zip_with for_each] in Hrun.
    apply bind_inv in Hrun as ([] & t1 & Hbody & Hrest).
    apply (IH (S k) t1); [| cbn in Hlen; lia | | assumption].
    + intros i x Hi. replace (S k + i)%nat with (k + S i)%nat by lia. apply Hsub. exact Hi.
    + apply (Hstep k y t); [| assumption | assumption].
      rewrite <- (Nat.add_0_r k). apply Hsub. reflexivity.
Qed.

(** A write in a cell of a pptx table changes that cell and no other, and
    leaves the columns and the size of every row as they were. *)
Lemma pptx_update_cell (t t' : pptx.Table) (r0 c0 : nat) (f : pptx.Cell -> pptx.Cell) :
  pptx.update_cell r0 c0 f t = (Ok tt, t') ->
  pptx.columns t' = pptx.columns t /\
  map length (pptx.rows t') = map length (pptx.rows t) /\
  (exists old, pptx.cell t r0 c0 = Some old /\ pptx.cell t' r0 c0 = Some (f old)) /\
  (forall r c, ~ (r = r0 /\ c = c0) -> pptx.cell t' r c = pptx.cell t r c).
Proof.
  unfold pptx.update_cell, pptx.cell.
  destruct (pptx.rows t !! r0) as [row |] eqn:Hrow; [| discriminate].
  destruct (row !! c0) as [old |] eqn:Hold; [| discriminate].
  intros [= <-]. cbn [pptx.columns pptx.rows].
  split; [reflexivity |]. split; [| split].
  - change (length <$> <[r0 := <[c0 := f old]> row]> (pptx.rows t) = length <$> pptx.rows t).
    rewrite list_fmap_insert, length_insert.
    apply list_insert_id. rewrite list_lookup_fmap, Hrow. reflexivity.
  - exists old. cbn. split; [assumption |].
    rewrite list_lookup_insert_eq by (eapply lookup_lt_Some; eassumption). cbn.
    apply list_lookup_insert_eq. eapply lookup_lt_Some. eassumption.
  - intros r c Hne. destruct (decide (r = r0)) as [-> | Hr].
    + rewrite list_lookup_insert_eq by (eapply lookup_lt_Some; eassumption).
      rewrite Hrow. cbn. apply list_lookup_insert_ne. intros <-. tauto.
    + rewrite list_lookup_insert_ne by congruence. reflexivity.
Qed.

Section Populated.
Variable text_frame : string -> list pptx.Paragraph.
Context {V : Type} `{Str V}.
Variables (cols rows : list V) (values : list (list V)) (first_cell : string).
Variable t0 : pptx.Table.

(** One cell text written by [_populate_table]. *)
Lemma populated_write (i j : nat) (s : string) (t t' : pptx.Table) :
  pptxtk.set_text text_frame i j s t = (Ok tt, t') ->
  pptx.columns t' = pptx.columns t /\
  map length (pptx.rows t') = map length (pptx.rows t) /\
  pptx.cell t' i j = Some (text_frame s) /\
  (forall r c, ~ (r = i /\ c = j) -> pptx.cell t' r c = pptx.cell t r c).
Proof.
  intros Hrun. unfold pptxtk.set_text in Hrun.
  apply pptx_update_cell in Hrun as (Hcols & Hshape & (old & _ & Hnew) & Hother).
  auto.
Qed.

(** What [_populate_table] leaves in the table, when it returns. *)
Lemma populate_table_leaves (t' : pptx.Table) :
  pptxtk._populate_table text_frame cols rows values first_cell t0 = (Ok tt, t') ->
  populated_so_far text_frame cols rows values first_cell
    (length cols) (length rows) (length cols) 0 t0 t'.
Proof.
  set (so_far := populated_so_far text_frame cols rows values first_cell).
  unfold pptxtk._populate_table. intros Hrun.
  apply bind_inv in Hrun as ([] & t1 & Hfirst & Hrun).
  apply bind_inv in Hrun as ([] & t2 & Hcols & Hrun).
  apply bind_inv in Hrun as ([] & t3 & Hrows & Hvalues).
  assert (H1 : (so_far 0 0 0 0 t0 t1)%nat).
  { apply populated_write in Hfirst as (Hc & Hs & Hnew & Hsame).
    split; [assumption |]. split; [assumption |].
    split; [exact Hnew |]. split; [| split]; intros; lia. }
  assert (H2 : (so_far (length cols) 0 0 0 t0 t2)%nat).
  { refine (for_each_enumerate_ind (fun k => so_far k 0 0 0 t0)%nat _ _ _ _ Hcols H1 _).
    intros k col t u Hcol Ht Hbody.
    apply populated_write in Hbody as (Hc & Hs & Hnew & Hsame).
    destruct Ht as (Hc0 & Hs0 & H00 & Hhdr & Hrowh & Hdat).
    split; [congruence |]. split; [congruence |].
    split; [| split; [| split]].
    - rewrite Hsame by lia. exact H00.
    - intros j col' Hj Hcol'. destruct (decide (j = k)) as [-> | Hne].
      + rewrite Hnew. congruence.
      + rewrite Hsame by lia. apply Hhdr; [lia | assumption].
    - intros; lia.
    - intros; lia. }
  assert (H3 : (so_far (length cols) (length rows) 0 0 t0 t3)%nat).
  { refine (for_each_enumerate_ind (fun k => so_far (length cols) k 0 0 t0)%nat
              _ _ _ _ Hrows H2 _).
    intros k row t u Hrow Ht Hbody.
    apply populated_write in Hbody as (Hc & Hs & Hnew & Hsame).
    destruct Ht as (Hc0 & Hs0 & H00 & Hhdr & Hrowh & Hdat).
    split; [congruence |]. split; [congruence |].
    split; [| split; [| split]].
    - rewrite Hsame by lia. exact H00.
    - intros j col Hj Hcol. rewrite Hsame by lia. apply Hhdr; assumption.
    - intros i row' Hi Hrow'. destruct (decide (i = k)) as [-> | Hne].
      + rewrite Hnew. congruence.
      + rewrite Hsame by lia. apply Hrowh; [lia | assumption].
    - intros; lia. }
  refine (for_each_range_ind (fun k => so_far (length cols) (length rows) k 0 t0)%nat
            _ _ _ _ Hvalues H3 _).
  intros k t w Hk Ht Hinner.
  assert (Hdone : so_far (length cols) (length rows) k (length rows) t0 w).
  { refine (for_each_range_ind (fun l => so_far (length cols) (length rows) k l t0)%nat
              _ _ _ _ Hinner Ht _).
    intros l u u' Hl Hu Hbody.
    apply getitem_inv in Hbody as (vs & Hvs & Hbody).
    apply getitem_inv in Hbody as (v & Hv & Hwrite).
    apply populated_write in Hwrite as (Hc & Hs & Hnew & Hsame).
    destruct Hu as (Hc0 & Hs0 & H00 & Hhdr & Hrowh & Hdat).
    split; [congruence |]. split; [congruence |].
    split; [| split; [| split]].
    - rewrite Hsame by lia. exact H00.
    - intros j col Hj Hcol. rewrite Hsame by lia. apply Hhdr; assumption.
    - intros i row Hi Hrow. rewrite Hsame by lia. apply Hrowh; assumption.
    - intros i j vs' v' Hij Hi Hvs' Hv'.
      destruct (decide (i = l /\ j = k)) as [[-> ->] | Hne].
      + rewrite Hnew. congruence.
      + rewrite Hsame by lia. apply (Hdat i j vs' v'); [lia | assumption ..]. }
  destruct Hdone as (Hc0 & Hs0 & H00 & Hhdr & Hrowh & Hdat).
  split; [assumption |]. split; [assumption |]. split; [assumption |].
  split; [assumption |]. split; [assumption |].
  intros i j vs v Hij Hi Hvs Hv. apply (Hdat i j vs v); [lia | assumption ..].
Qed.

End Populated.

(** When [_populate_table] returns, the first cell of the table holds the
    text frame of [first_cell], the rest of the first row those of the column
    labels, the rest of the first column those of the row labels, and the
    cell after row [i] and column [j] that of [values[i][j]], each label and
    value as [str] gives it. The columns of the table and the number of
    cells of each row are what they were. *)
Theorem populate_table_cells :
  forall (text_frame : string -> list pptx.Paragraph) (V : Type) (StrV : Str V)
         (cols rows : list V) (values : list (list V)) (first_cell : string)
         (t t' : pptx.Table),
    pptxtk._populate_table text_frame cols rows values first_cell t = (Ok tt, t') ->
    pptx.columns t' = pptx.columns t /\
    map length (pptx.rows t') = map length (pptx.rows t) /\
    filled_from text_frame cols rows values first_cell t'.
Proof.
  intros text_frame V StrV cols rows values first_cell t t' Hrun.
  apply populate_table_leaves in Hrun as (Hc & Hs & H00 & Hhdr & Hrowh & Hdat).
  split; [assumption |]. split; [assumption |]. split; [assumption |].
  split; [| split].
  - intros j col Hcol. apply Hhdr; [| assumption]. eapply lookup_lt_Some. eassumption.
  - intros i row Hrow. apply Hrowh; [| assumption]. eapply lookup_lt_Some. eassumption.
  - intros i j vs v Hi Hj Hvs Hv. apply (Hdat i j vs v); [lia | assumption ..].
Qed.

Lemma populate_table_cells_witness :
  let t := {| pptx.columns := [10; 10];
              pptx.rows := [[[[]]; [[]]]; [[[]]; [[]]]] |} in
  exists t',
    pptxtk._populate_table pptx.one_line ["a"] ["r"] [["1"]] " " t = (Ok tt, t') /\
    pptx.cell t' 0 0 = Some (pptx.one_line " ") /\
    pptx.cell t' 0 1 = Some (pptx.one_line "a") /\
    pptx.cell t' 1 0 = Some (pptx.one_line "r") /\
    pptx.cell t' 1 1 = Some (pptx.one_line "1").
Proof.
  cbv zeta.
  set (t := {| pptx.columns := [10; 10]; pptx.rows := [[[[]]; [[]]]; [[[]]; [[]]]] |}).
  assert (Hrun : pptxtk._populate_table pptx.one_line ["a"] ["r"] [["1"]] " " t
                 = (Ok tt, snd (pptxtk._populate_table pptx.one_line ["a"] ["r"] [["1"]]
                                  " " t)))
    by (vm_compute; reflexivity).
  destruct (populate_table_cells pptx.one_line string str_string ["a"] ["r"] [["1"]] " "
              t _ Hrun) as (_ & _ & H00 & Hhdr & Hrowh & Hdat).
  eexists. split; [exact Hrun |].
  split; [exact H00 |].
  split; [exact (Hhdr 0%nat "a" eq_refl) |].
  split; [exact (Hrowh 0%nat "r" eq_refl) |].
  apply (Hdat 0%nat 0%nat ["1"] "1"); [simpl; lia | simpl; lia | reflexivity | reflexivity].
Defined.

(** *** [num_round] on negative integers *)

(** Rounding to the nearest, ties to even, commutes with the change of
    sign. *)
Lemma round_half_even_opp (n d : Z) :
  0 < d -> Py.round_half_even (- n) d = - Py.round_half_even n d.
Proof.
  intros Hd. unfold Py.round_half_even.
  pose proof (Z.mod_pos_bound n d Hd) as Hmod.
  destruct (Z.eq_dec (n mod d) 0) as [Hzero | Hnz].
  - rewrite Z.div_opp_l_z, Z.mod_opp_l_z, Hzero by lia.
    change (2 * 0) with 0. destruct (Z.compare_spec 0 d); [lia | reflexivity | lia].
  - rewrite Z.div_opp_l_nz, Z.mod_opp_l_nz by lia.
    replace (Z.even (- (n / d) - 1)) with (negb (Z.even (n / d))).
    2:{ rewrite Z.even_sub, Z.even_opp. destruct (Z.even (n / d)); reflexivity. }
    destruct (Z.compare_spec (2 * (n mod d)) d), (Z.compare_spec (2 * (d - n mod d)) d);
      try lia; destruct (Z.even (n / d)); cbn [negb]; lia.
Qed.

(** The string of a negative integer, comma-grouped, is the minus sign and
    the string of its opposite. *)
Lemma format_comma_opp (r : Z) :
  0 < r -> Py.format_comma (- r) = String "-" (Py.format_comma r).
Proof.
  intros Hr. unfold Py.format_comma.
  destruct (Z.ltb_spec (- r) 0) as [_ | Hge]; [| lia].
  destruct (Z.ltb_spec r 0) as [Hlt | _]; [lia |].
  rewrite Z.opp_involutive. reflexivity.
Qed.

(** On a negative integer, [num_round] returns the minus sign followed by
    what it returns on the opposite of the integer: the sign takes one
    character of [str(int(x))], which the branch [x < 100] makes up for. *)
Theorem num_round_int_opp :
  forall z : Z,
    0 < z ->
    exists s,
      docxtk.num_round (Py.Int z) = Ok s /\
      docxtk.num_round (Py.Int (- z)) = Ok (String "-" s).
Proof.
  intros z Hz.
  destruct (num_round_int z) as (r & Hrun & Hsmall & Hbig).
  destruct (num_round_int (- z)) as (r' & Hrun' & Hsmall' & Hbig').
  cbv zeta in Hbig, Hbig'. rewrite Z.abs_opp in *.
  exists (Py.format_comma r). split; [assumption |].
  rewrite Hrun'. f_equal.
  assert (Hopp : r' = - r /\ 0 < r).
  { destruct (Z.lt_ge_cases (Z.abs z) 100) as [Hlt | Hge].
    - rewrite (Hsmall Hlt), (Hsmall' Hlt). lia.
    - pose proof (digits_count_100 (Z.abs z) ltac:(lia)) as [_ Hthree].
      pose proof (digits_length_bounds (Z.abs z) ltac:(lia)) as (_ & _ & Hlower).
      cbv zeta in Hthree, Hlower. specialize (Hthree Hge). specialize (Hlower ltac:(lia)).
      set (d := Z.of_nat (length (Py.digits (Z.abs z)))) in *.
      pose proof (pow10_pos (d - 2) ltac:(lia)) as Hunit.
      destruct (pow10_split d Hthree) as [Hsplit _].
      rewrite (Hbig Hge), (Hbig' Hge), round_half_even_opp by assumption.
      split; [lia |].
      pose proof (round_half_even_range z (10 ^ (d - 2)) 10 (z + 1) Hunit) as Hrange.
      assert (10 <= Py.round_half_even z (10 ^ (d - 2))) by (apply Hrange; nia).
      nia. }
  destruct Hopp as [-> Hr]. apply format_comma_opp. assumption.
Qed.

Lemma num_round_int_opp_witness :
  docxtk.num_round (Py.Int 12345) = Ok "12,000" /\
  docxtk.num_round (Py.Int (- 12345)) = Ok "-12,000".
Proof.
  destruct (num_round_int_opp 12345 ltac:(lia)) as (s & Hpos & Hneg).
  assert (Hs : s = "12,000").
  { assert (Hrun : docxtk.num_round (Py.Int 12345) = Ok "12,000")
      by (vm_compute; reflexivity).
    congruence. }
  subst s. split; assumption.
Defined.

(** *** [_iter_cells]: every cell, once *)

Lemma elem_of_zip_seq {A} (k : nat) (xs : list A) (i : nat) (x : A) :
  (i, x) ∈ zip (seq k (length xs)) xs <-> (k <= i)%nat /\ xs !! (i - k)%nat = Some x.
Proof.
  revert k. induction xs as [| y xs IH]; intros k; cbn [length seq zip zip_with].
  - rewrite elem_of_nil, lookup_nil. split; [tauto | intros [_ ?]; discriminate].
  - rewrite elem_of_cons, IH. split.
    + intros [[= -> ->] | [Hk Hx]].
      * rewrite Nat.sub_diag. split; [lia | reflexivity].
      * split; [lia |]. replace (i - k)%nat with (S (i - S k)) by lia. exact Hx.
    + intros [Hk Hx]. destruct (decide (i = k)) as [-> | Hne].
      * rewrite Nat.sub_diag in Hx. injection Hx as ->. left. reflexivity.
      * right. split; [lia |]. replace (i - k)%nat with (S (i - S k)) in Hx by lia. exact Hx.
Qed.

Lemma NoDup_zip_seq {A} (k : nat) (xs : list A) : NoDup (zip (seq k (length xs)) xs).
Proof.
  revert k. induction xs as [| y xs IH]; intros k; cbn [length seq zip zip_with].
  - constructor.
  - constructor; [| apply IH]. rewrite elem_of_zip_seq. lia.
Qed.

(** [_iter_cells] yields the place of every cell of the table, and yields
    it once: a place is yielded exactly when the table has a cell there. *)
Theorem iter_cells_each_once :
  forall t : pptx.Table,
    NoDup (pptxtk._iter_cells t) /\
    forall i j, (i, j) ∈ pptxtk._iter_cells t <-> is_Some (pptx.cell t i j).
Proof.
  intros t. unfold pptxtk._iter_cells, enumerate, pptx.cell. split.
  - apply NoDup_bind.
    + intros [i1 row1] [i2 row2] [i j] H1 H2 Hin1 Hin2.
      apply elem_of_zip_seq in H1 as [_ H1], H2 as [_ H2].
      apply list_elem_of_bind in Hin1 as ([j1 c1] & Hy1 & _).
      apply list_elem_of_bind in Hin2 as ([j2 c2] & Hy2 & _).
      apply list_elem_of_singleton in Hy1, Hy2.
      injection Hy1 as -> ->. injection Hy2 as -> _.
      rewrite H1 in H2. injection H2 as ->. reflexivity.
    + intros [i row] _. apply NoDup_bind.
      * intros [j1 c1] [j2 c2] [i' j] H1 H2 Hy1 Hy2.
        apply list_elem_of_singleton in Hy1, Hy2.
        injection Hy1 as -> ->. injection Hy2 as ->.
        apply elem_of_zip_seq in H1 as [_ H1], H2 as [_ H2].
        rewrite H1 in H2. injection H2 as ->. reflexivity.
      * intros [j c] _. apply NoDup_singleton.
      * apply NoDup_zip_seq.
    + apply NoDup_zip_seq.
  - intros i j. rewrite list_elem_of_bind. split.
    + intros ([i' row] & Hin & Hrow).
      apply list_elem_of_bind in Hin as ([j' c] & Hy & Hc).
      apply list_elem_of_singleton in Hy. injection Hy as -> ->.
      apply elem_of_zip_seq in Hrow as [_ Hrow], Hc as [_ Hc].
      rewrite Nat.sub_0_r in Hrow, Hc. rewrite Hrow. cbn. rewrite Hc. eauto.
    + intros [c Hc].
      destruct (pptx.rows t !! i) as [row |] eqn:Hrow; [| discriminate].
      cbn in Hc. exists (i, row). split.
      * apply list_elem_of_bind. exists (j, c). split; [apply list_elem_of_singleton; reflexivity |].
        apply elem_of_zip_seq. rewrite Nat.sub_0_r. split; [lia | assumption].
      * apply elem_of_zip_seq. rewrite Nat.sub_0_r. split; [lia | assumption].
Qed.

(** *** The numbers that floats and rationals stand for *)





Lemma Qc_valued_laws : Py.ValuedLaws Qc.
Proof.
  split.
  - reflexivity.
  - eexists. split; reflexivity.
  - intros x y a b [= <-] [= <-]. apply Qeq_bool_iff.
Qed.

(** Rational arithmetic does not round. *)
Lemma Qc_exact_add (x y : Qc) : Py.exact_add x y = true.
Proof.
  unfold Py.exact_add, Py.exact_value, Py.Qc_Valued. apply Qeq_bool_iff.
  cbn. apply Qred_correct.
Qed.

Lemma Qc_exact_mul (x y : Qc) : Py.exact_mul x y = true.
Proof.
  unfold Py.exact_mul, Py.exact_value, Py.Qc_Valued. apply Qeq_bool_iff.
  cbn. apply Qred_correct.
Qed.

Lemma Qc_exact_sum_from (acc : Qc) (xs : list Qc) : Py.exact_sum_from acc xs = true.
Proof.
  revert acc. induction xs as [| x xs IH]; intros acc; cbn [Py.exact_sum_from].
  - reflexivity.
  - rewrite Qc_exact_add, IH. reflexivity.
Qed.

(** On rationals every operation of [_make_sub_dims] and of the check of
    its result is exact. *)
Lemma Qc_exact (start length : Qc) (proportions : list Qc) :
  Spec.exact_run start length proportions = true /\
  Spec.exact_check start length proportions = true.
Proof.
  unfold Spec.exact_run, Spec.exact_check. split.
  - rewrite Qc_exact_sum_from.
    replace (match proportions with [] => true | p :: ps => Py.exact_sum_from p ps end)
      with true by (destruct proportions; [| rewrite Qc_exact_sum_from]; reflexivity).
    rewrite !andb_true_l, !andb_true_iff. repeat split;
      apply forallb_forall; intros; first [apply Qc_exact_mul | apply Qc_exact_add].
  - destruct (pptxtk._make_sub_dims start length proportions) as [[starts lengths] |];
      [| reflexivity].
    rewrite Qc_exact_sum_from, andb_true_l.
    apply forallb_forall. intros [s l] _. apply Qc_exact_add.
Qed.

(** *** [_make_sub_dims] where no operation rounds *)

Section SubDimsExact.
Context {R : Type} `{Py.Num R} `{Py.Valued R} `{!Py.ValuedLaws R}.

Lemma stands_unique (x : R) (a b : Q) : Py.stands x a -> Py.stands x b -> Qeq a b.
Proof.
  intros (a' & Ha & Haa) (b' & Hb & Hbb). rewrite Ha in Hb. injection Hb as <-.
  rewrite <- Haa, <- Hbb. reflexivity.
Qed.

Lemma stands_proper (x : R) (a b : Q) : Py.stands x a -> Qeq a b -> Py.stands x b.
Proof.
  intros (a' & Ha & Haa) Hab. exists a'. split; [assumption |].
  rewrite Haa. assumption.
Qed.

Lemma stands_eqb (x y : R) (a b : Q) :
  Py.stands x a -> Py.stands y b -> (Py.num_eqb x y = true <-> Qeq a b).
Proof.
  intros (a' & Ha & Haa) (b' & Hb & Hbb).
  rewrite (Py.eqb_value x y a' b' Ha Hb), Haa, Hbb. reflexivity.
Qed.

Lemma exact_add_stands (x y : R) :
  Py.exact_add x y = true ->
  exists a b, Py.stands x a /\ Py.stands y b /\ Py.stands (Py.num_add x y) (a + b).
Proof.
  unfold Py.exact_add, Py.stands.
  destruct (Py.exact_value x) as [a |]; [| discriminate].
  destruct (Py.exact_value y) as [b |]; [| discriminate].
  destruct (Py.exact_value (Py.num_add x y)) as [c |]; [| discriminate].
  intros Hc%Qeq_bool_iff. exists a, b.
  repeat split; eexists; (split; [reflexivity |]); [reflexivity | reflexivity | exact Hc].
Qed.

Lemma exact_mul_stands (x y : R) :
  Py.exact_mul x y = true ->
  exists a b, Py.stands x a /\ Py.stands y b /\ Py.stands (Py.num_mul x y) (a * b).
Proof.
  unfold Py.exact_mul, Py.stands.
  destruct (Py.exact_value x) as [a |]; [| discriminate].
  destruct (Py.exact_value y) as [b |]; [| discriminate].
  destruct (Py.exact_value (Py.num_mul x y)) as [c |]; [| discriminate].
  intros Hc%Qeq_bool_iff. exists a, b.
  repeat split; eexists; (split; [reflexivity |]); [reflexivity | reflexivity | exact Hc].
Qed.

(** An exact addition or product of values that stand for [a] and [b]
    stands for [a + b], or for [a * b]. *)
Lemma exact_add_value (x y : R) (a b : Q) :
  Py.exact_add x y = true -> Py.stands x a -> Py.stands y b ->
  Py.stands (Py.num_add x y) (a + b).
Proof.
  intros (a' & b' & Ha' & Hb' & Hsum)%exact_add_stands Ha Hb.
  apply (stands_proper _ _ _ Hsum).
  rewrite (stands_unique x a' a Ha' Ha), (stands_unique y b' b Hb' Hb). reflexivity.
Qed.

Lemma exact_mul_value (x y : R) (a b : Q) :
  Py.exact_mul x y = true -> Py.stands x a -> Py.stands y b ->
  Py.stands (Py.num_mul x y) (a * b).
Proof.
  intros (a' & b' & Ha' & Hb' & Hprod)%exact_mul_stands Ha Hb.
  apply (stands_proper _ _ _ Hprod).
  rewrite (stands_unique x a' a Ha' Ha), (stands_unique y b' b Hb' Hb). reflexivity.
Qed.

(** A sum without rounding stands for the sum of the numbers. *)
Lemma exact_sum_value (acc : R) (xs : list R) (A : Q) :
  Py.exact_sum_from acc xs = true -> Py.stands acc A ->
  exists vals, Forall2 Py.stands xs vals /\
               Py.stands (fold_left Py.num_add xs acc) (A + Py.qsum vals).
Proof.
  revert acc A. induction xs as [| x xs IH]; intros acc A Hexact Hacc.
  - exists []. split; [constructor |]. cbn [fold_left].
    apply (stands_proper _ _ _ Hacc). unfold Py.qsum. cbn [foldr]. ring.
  - cbn [Py.exact_sum_from] in Hexact. apply andb_true_iff in Hexact as [Hadd Hrest].
    destruct (exact_add_stands _ _ Hadd) as (a & b & Ha & Hb & _).
    pose proof (exact_add_value _ _ _ _ Hadd Hacc Hb) as Hsum.
    destruct (IH _ _ Hrest Hsum) as (vals & Hvals & Htotal).
    exists (b :: vals). split; [constructor; assumption |].
    cbn [fold_left]. apply (stands_proper _ _ _ Htotal).
    unfold Py.qsum. cbn [foldr]. ring.
Qed.

(** The sum of the scaled terms is the scaled sum. *)
Lemma scaled_sum_value (length : R) (L : Q) (xs : list R) (vals scaled : list Q) :
  Py.stands length L ->
  forallb (fun p => Py.exact_mul p length) xs = true ->
  Forall2 Py.stands xs vals ->
  Forall2 Py.stands (map (fun p => Py.num_mul p length) xs) scaled ->
  Qeq (Py.qsum scaled) (Py.qsum vals * L).
Proof.
  intros HL. revert vals scaled.
  induction xs as [| x xs IH]; intros vals scaled Hmul Hvals Hscaled.
  - apply Forall2_nil_inv_l in Hvals as ->. apply Forall2_nil_inv_l in Hscaled as ->.
    unfold Py.qsum. cbn [foldr]. ring.
  - cbn [map] in Hscaled.
    apply Forall2_cons_inv_l in Hvals as (a & vals' & Ha & Hvals & ->).
    apply Forall2_cons_inv_l in Hscaled as (b & scaled' & Hb & Hscaled & ->).
    cbn [forallb] in Hmul. apply andb_true_iff in Hmul as [Hx Hmul].
    pose proof (exact_mul_value _ _ _ _ Hx Ha HL) as Hprod.
    unfold Py.qsum in *. cbn [foldr].
    rewrite (IH _ _ Hmul Hvals Hscaled), (stands_unique _ _ _ Hb Hprod). ring.
Qed.

(** Each running sum is the one before it plus the next term, and that
    addition is one of those of the running sums. *)
Lemma cumsum_from_step (acc : R) (xs : list R) (j : nat) (c c' p : R) :
  Py.exact_sum_from acc xs = true ->
  (acc :: Py.cumsum_from acc xs) !! j = Some c ->
  (acc :: Py.cumsum_from acc xs) !! S j = Some c' ->
  xs !! j = Some p ->
  c' = Py.num_add c p /\ Py.exact_add c p = true.
Proof.
  revert acc j c c' p. induction xs as [| x xs IH]; intros acc j c c' p Hexact Hc Hc' Hp.
  - discriminate.
  - cbn [Py.exact_sum_from] in Hexact. apply andb_true_iff in Hexact as [Hadd Hrest].
    destruct j as [| j]; simpl in *.
    + injection Hc as <-. injection Hc' as <-. injection Hp as <-. auto.
    + eapply IH; eassumption.
Qed.

Lemma lookup_removelast {A} (l : list A) (i : nat) (a : A) :
  removelast l !! i = Some a -> l !! i = Some a.
Proof.
  rewrite removelast_firstn_len. intros Hi.
  apply lookup_take_Some in Hi. tauto.
Qed.

Lemma forallb_lookup {A} (f : A -> bool) (l : list A) (i : nat) (a : A) :
  forallb f l = true -> l !! i = Some a -> f a = true.
Proof.
  intros Hall Ha. rewrite forallb_forall in Hall.
  apply Hall, list_elem_of_In, (list_elem_of_lookup_2 _ i). exact Ha.
Qed.

(** Where nothing rounds, the split is the one the specification
    promises. *)
Lemma exact_splits (start length : R) (proportions : list R) :
  proportions <> [] ->
  Py.num_eqb (Py.sum proportions) Py.num_one = true ->
  Spec.exact_run start length proportions = true ->
  Spec.exact_check start length proportions = true ->
  Spec.splits start length proportions.
Proof.
  intros Hne Hsum Hrun Hcheck.
  unfold Spec.exact_check in Hcheck. rewrite (make_sub_dims_sum_one _ _ _ Hsum) in Hcheck.
  apply andb_true_iff in Hcheck as [Hlengths Hends].
  unfold Spec.exact_run in Hrun.
  rewrite !andb_true_iff in Hrun.
  destruct Hrun as ((((Hrun & Hcum) & Hscale) & Hshift) & Hmul).
  destruct proportions as [| p0 ps]; [contradiction |].
  set (proportions := p0 :: ps) in *.
  set (g := fun c => Py.num_add (Py.num_mul c length) start) in *.
  set (lengths := map (fun p => Py.num_mul p length) proportions) in *.
  set (starts := [start] ++ removelast (map g (Py.cumsum proportions))) in *.
  (* the numbers *)
  assert (Hzero : Py.stands Py.num_zero 0%Q).
  { exists 0%Q. split; [apply Py.value_zero | reflexivity]. }
  assert (Hone : Py.stands Py.num_one 1%Q) by exact Py.value_one.
  destruct (exact_mul_stands p0 length) as (a0 & L & _ & HL & _).
  { cbn [forallb] in Hmul. apply andb_true_iff in Hmul as [Hmul _]. exact Hmul. }
  assert (Hstart : exists S, Py.stands start S).
  { cbn [Py.cumsum forallb] in Hshift. apply andb_true_iff in Hshift as [Hshift _].
    destruct (exact_add_stands _ _ Hshift) as (a & b & _ & Hb & _). eauto. }
  destruct Hstart as [S HS].
  eexists starts, lengths. split; [apply make_sub_dims_sum_one; assumption |].
  split; [| split].
  - (* the lengths sum to the length *)
    unfold Spec.lengths_sum_to.
    destruct (exact_sum_value _ _ _ Hrun Hzero) as (vals & Hvals & Htotal).
    destruct (exact_sum_value _ _ _ Hlengths Hzero) as (scaled & Hscaled & Hscaledtotal).
    apply (stands_eqb _ _ _ _ Hscaledtotal HL).
    rewrite (scaled_sum_value length L proportions vals scaled HL Hmul Hvals Hscaled).
    apply (stands_eqb _ _ _ _ Htotal Hone) in Hsum.
    rewrite Qplus_0_l in Hsum. rewrite Hsum. ring.
  - (* each segment starts where the one before it ends *)
    intros i s l s' Hs Hl Hs'.
    assert (Hend : Py.exact_add s l = true).
    { apply (forallb_lookup _ _ i (s, l) Hends).
      rewrite lookup_zip_with.
      change (start :: removelast (map g (Py.cumsum proportions))) with starts.
      rewrite Hs, Hl. reflexivity. }
    change (removelast (map g (Py.cumsum proportions)) !! i = Some s') in Hs'.
    apply lookup_removelast in Hs'.
    unfold lengths in Hl. rewrite list_lookup_fmap in Hs', Hl.
    destruct (Py.cumsum proportions !! i) as [c' |] eqn:Hc'; [| discriminate].
    destruct (proportions !! i) as [p |] eqn:Hp; [| discriminate].
    injection Hs' as <-. injection Hl as <-.
    pose proof (forallb_lookup _ _ _ _ Hmul Hp) as Hpl.
    pose proof (forallb_lookup _ _ _ _ Hscale Hc') as Hc'l.
    pose proof (forallb_lookup _ _ _ _ Hshift Hc') as Hc's.
    destruct (exact_mul_stands _ _ Hpl) as (a & L' & Ha & HL' & _).
    destruct (exact_mul_stands _ _ Hc'l) as (C' & L'' & HC' & _ & _).
    pose proof (exact_mul_value _ _ _ _ Hpl Ha HL) as Hlen.
    pose proof (exact_mul_value _ _ _ _ Hc'l HC' HL) as Hscaled.
    pose proof (exact_add_value _ _ _ _ Hc's Hscaled HS) as Hnext.
    destruct i as [| j].
    + change (Some start = Some s) in Hs. injection Hs as <-.
      cbn in Hc', Hp. injection Hp as <-. injection Hc' as <-.
      pose proof (exact_add_value _ _ _ _ Hend HS Hlen) as Hsum'.
      apply (stands_eqb _ _ _ _ Hnext Hsum').
      rewrite (stands_unique _ _ _ HC' Ha). ring.
    + change (removelast (map g (Py.cumsum proportions)) !! j = Some s) in Hs.
      apply lookup_removelast in Hs. rewrite list_lookup_fmap in Hs.
      destruct (Py.cumsum proportions !! j) as [c |] eqn:Hc; [| discriminate].
      injection Hs as <-.
      pose proof (forallb_lookup _ _ _ _ Hscale Hc) as Hcl.
      pose proof (forallb_lookup _ _ _ _ Hshift Hc) as Hcs.
      destruct (exact_mul_stands _ _ Hcl) as (C & L3 & HC & _ & _).
      pose proof (exact_mul_value _ _ _ _ Hcl HC HL) as Hscaled0.
      pose proof (exact_add_value _ _ _ _ Hcs Hscaled0 HS) as Hprev.
      cbn in Hc, Hc', Hp.
      destruct (cumsum_from_step p0 ps j c c' p Hcum Hc Hc' Hp) as [Hstep Hstepexact].
      pose proof (exact_add_value _ _ _ _ Hstepexact HC Ha) as HC''.
      rewrite <- Hstep in HC''.
      pose proof (exact_add_value _ _ _ _ Hend Hprev Hlen) as Hsum'.
      apply (stands_eqb _ _ _ _ Hnext Hsum').
      rewrite (stands_unique _ _ _ HC' HC''). ring.
  - split; [| split; reflexivity].
    unfold starts. cbn [app List.length].
    rewrite length_removelast, length_map, length_cumsum. reflexivity.
Qed.

End SubDimsExact.



(** In rationals the same holds of every input. *)
Lemma make_sub_dims_rational (start length : Qc) (proportions : list Qc) :
  proportions <> [] ->
  Py.num_eqb (Py.sum proportions) Py.num_one = true ->
  Spec.splits start length proportions.
Proof.
  intros Hne Hsum. destruct (Qc_exact start length proportions) as [Hrun Hcheck].
  apply (@exact_splits Qc _ _ Qc_valued_laws); assumption.
Qed.

(** *** The pptx table functions: calls on the table of a slide *)

Lemma pptx_on_table_at_end {A} (before : pptx.Slide) (g : pptx.GraphicFrame)
    (m : M pptx.Table A) :
  pptx.on_table (length before) m (before ++ [g])
  = (fst (m (pptx.table g)),
     before ++ [{| pptx.left := pptx.left g; pptx.top := pptx.top g;
                   pptx.width := pptx.width g; pptx.height := pptx.height g;
                   pptx.table := snd (m (pptx.table g)) |}]).
Proof.
  unfold pptx.on_table, pptx.Slide in *.
  rewrite lookup_app_r, Nat.sub_diag by lia. cbn [lookup list_lookup].
  destruct (m (pptx.table g)) as [r t']. cbn [fst snd].
  rewrite insert_app_r_alt, Nat.sub_diag by lia. reflexivity.
Qed.

Lemma set_column_width_at_end (before : pptx.Slide) (g : pptx.GraphicFrame)
    (i : nat) (w : pptx.Length) :
  pptx.set_column_width (length before) i w (before ++ [g])
  = match pptx.columns (pptx.table g) !! i with
    | Some _ =>
        (Ok tt,
         before ++ [{| pptx.left := pptx.left g; pptx.top := pptx.top g;
                       pptx.width := foldr Z.add 0 (<[i := w]> (pptx.columns (pptx.table g)));
                       pptx.height := pptx.height g;
                       pptx.table :=
                         {| pptx.columns := <[i := w]> (pptx.columns (pptx.table g));
                            pptx.rows := pptx.rows (pptx.table g) |} |}])
    | None => (Raise IndexError, before ++ [g])
    end.
Proof.
  unfold pptx.set_column_width, pptx.Slide in *.
  rewrite lookup_app_r, Nat.sub_diag by lia. cbn [lookup list_lookup].
  destruct (pptx.columns (pptx.table g) !! i); [| reflexivity].
  rewrite insert_app_r_alt, Nat.sub_diag by lia. reflexivity.
Qed.

(** Setting the size of the runs of every cell keeps the cells in place. *)
Lemma pptx_cell_map (f : pptx.Cell -> pptx.Cell) (cols : list pptx.Length)
    (rs : list (list pptx.Cell)) (r c : nat) :
  pptx.cell {| pptx.columns := cols; pptx.rows := map (map f) rs |} r c
  = f <$> pptx.cell {| pptx.columns := cols; pptx.rows := rs |} r c.
Proof.
  unfold pptx.cell. cbn [pptx.rows].
  change (map (map f) rs) with (map f <$> rs). rewrite list_lookup_fmap.
  destruct (rs !! r) as [row |]; [| reflexivity]. cbn.
  change (map f row) with (f <$> row). apply list_lookup_fmap.
Qed.

Lemma map_length_map_map {A B} (f : A -> B) (rs : list (list A)) :
  map length (map (map f) rs) = map length rs.
Proof.
  induction rs as [| row rs IH]; [reflexivity |].
  cbn [map]. rewrite length_map, IH. reflexivity.
Qed.

Lemma map_length_replicate {A} (nrows ncols : nat) (x : A) :
  map length (replicate nrows (replicate ncols x)) = replicate nrows ncols.
Proof.
  induction nrows as [| n IH]; [reflexivity |].
  cbn [replicate map]. rewrite length_replicate, IH. reflexivity.
Qed.

Lemma sum_replicate_from (n : nat) (c r : Z) :
  foldr Z.add r (replicate n c) = Z.of_nat n * c + r.
Proof.
  induction n as [| n IH]; [cbn; lia |].
  cbn [replicate foldr]. rewrite IH. lia.
Qed.

(** The columns that [add_table] makes are as wide together as the table. *)
Lemma sum_even_split (ncols : nat) (w : Z) :
  (0 < ncols)%nat ->
  foldr Z.add 0 (replicate (ncols - 1) (w / Z.of_nat ncols)
                 ++ replicate (Nat.min ncols 1)
                      (w - Z.of_nat (ncols - 1) * (w / Z.of_nat ncols))) = w.
Proof.
  intros Hn. rewrite foldr_app.
  replace (Nat.min ncols 1) with 1%nat by lia. cbn [replicate foldr].
  rewrite sum_replicate_from. lia.
Qed.

Lemma for_each_ext {St A} (xs : list A) (body body' : A -> M St unit) (s : St) :
  (forall x t, body x t = body' x t) -> for_each xs body s = for_each xs body' s.
Proof.
  intros Hext. revert s. induction xs as [| x xs IH]; intros s; [reflexivity |].
  cbn [for_each]. unfold mbind, M_bind. rewrite Hext.
  destruct (body' x s) as [[[] | e] s']; [apply IH | reflexivity].
Qed.

(** *** [_set_table_font_size] *)

Lemma mapM_cons {A B} (f : A -> result B) (x : A) (l : list A) :
  mapM f (x :: l) = y ← f x; k ← mapM f l; Ok (y :: k).
Proof. reflexivity. Qed.

Section FontSizes.
Variable Pt : Py.float -> result pptx.Length.
Variable pt : Py.float.

Lemma size_runs_ok (p : pptx.Length) (paragraph : pptx.Paragraph) :
  Pt pt = Ok p ->
  mapM (fun run => size ← Pt pt; Ok (pptx.set_size size run)) paragraph
  = Ok (map (pptx.set_size p) paragraph).
Proof.
  intros Hp. induction paragraph as [| run paragraph IH]; [reflexivity |].
  rewrite mapM_cons, IH, Hp. reflexivity.
Qed.

Lemma size_cell_ok (p : pptx.Length) (cell : pptx.Cell) :
  Pt pt = Ok p ->
  mapM (fun paragraph =>
          mapM (fun run => size ← Pt pt; Ok (pptx.set_size size run)) paragraph) cell
  = Ok (map (map (pptx.set_size p)) cell).
Proof.
  intros Hp. induction cell as [| paragraph cell IH]; [reflexivity |].
  rewrite mapM_cons, IH, (size_runs_ok p paragraph Hp). reflexivity.
Qed.

Lemma size_cell_raise (e : exn) (cell : pptx.Cell) :
  Pt pt = Raise e ->
  mapM (fun paragraph =>
          mapM (fun run => size ← Pt pt; Ok (pptx.set_size size run)) paragraph) cell
  = if has_run cell then Raise e else Ok cell.
Proof.
  intros He. induction cell as [| paragraph cell IH]; [reflexivity |].
  rewrite mapM_cons. cbn [has_run existsb]. fold (has_run cell).
  destruct paragraph as [| run paragraph].
  - cbn [mapM orb]. change (mret []) with (Ok (@nil pptx.Run)). cbn [mbind result_bind].
    rewrite IH. destruct (has_run cell); reflexivity.
  - rewrite mapM_cons, He. reflexivity.
Qed.

(** When [Pt(pt)] returns, the call returns, and it has set the size of
    every run of every paragraph of every cell. *)
Lemma set_table_font_size_ok (p : pptx.Length) (t : pptx.Table) :
  Pt pt = Ok p ->
  pptxtk._set_table_font_size Pt pt t
  = (Ok tt, {| pptx.columns := pptx.columns t;
               pptx.rows := map (map (map (map (pptx.set_size p)))) (pptx.rows t) |}).
Proof.
  intros Hp. unfold pptxtk._set_table_font_size.
  rewrite (for_each_ext _ _ (fun '(i, j) =>
             pptx.update_cell i j (map (map (pptx.set_size p))))).
  - destruct t as [cols rs].
    exact (update_rows (map (map (pptx.set_size p))) cols rs []).
  - intros [i j] u. destruct (pptx.cell u i j) as [c |] eqn:Hc.
    + erewrite bind_ok by (unfold pptx.get_cell; rewrite Hc; reflexivity).
      erewrite bind_ok by (unfold lift; rewrite (size_cell_ok p c Hp); reflexivity).
      unfold pptx.update_cell. unfold pptx.cell in Hc.
      destruct (pptx.rows u !! i) as [row |]; [| discriminate]. cbn in Hc.
      rewrite Hc. reflexivity.
    + erewrite bind_raise by (unfold pptx.get_cell; rewrite Hc; reflexivity).
      unfold pptx.update_cell. unfold pptx.cell in Hc.
      destruct (pptx.rows u !! i) as [row |]; [| reflexivity]. cbn in Hc.
      rewrite Hc. reflexivity.
Qed.

(** When [Pt(pt)] raises, a cell with a run stops the call, and a cell
    without one is left as it is. *)
Lemma size_one_cell_raise (e : exn) (t : pptx.Table) (i j : nat) (c : pptx.Cell) :
  Pt pt = Raise e -> pptx.cell t i j = Some c ->
  (cell ← pptx.get_cell i j;
   cell' ← lift (mapM (fun paragraph =>
                   mapM (fun run => size ← Pt pt; Ok (pptx.set_size size run))
                        paragraph) cell);
   pptx.update_cell i j (fun _ => cell')) t
  = if has_run c then (Raise e, t) else (Ok tt, t).
Proof.
  intros He Hc.
  erewrite bind_ok by (unfold pptx.get_cell; rewrite Hc; reflexivity).
  destruct (has_run c) eqn:Hruns.
  { erewrite bind_raise;
      [reflexivity | unfold lift; rewrite (size_cell_raise e c He), Hruns; reflexivity]. }
  erewrite bind_ok by (unfold lift; rewrite (size_cell_raise e c He), Hruns; reflexivity).
  unfold pptx.update_cell. unfold pptx.cell in Hc.
  destruct (pptx.rows t !! i) as [row |] eqn:Hrow; [| discriminate]. cbn in Hc.
  rewrite Hc. rewrite (list_insert_id row j c Hc), (list_insert_id _ i row Hrow).
  destruct t; reflexivity.
Qed.

Lemma set_font_size_raise_from (e : exn) (t : pptx.Table) (places : list (nat * nat)) :
  Pt pt = Raise e ->
  Forall (fun '(i, j) => is_Some (pptx.cell t i j)) places ->
  for_each places (fun '(i, j) =>
    cell ← pptx.get_cell i j;
    cell' ← lift (mapM (fun paragraph =>
                    mapM (fun run => size ← Pt pt; Ok (pptx.set_size size run))
                         paragraph) cell);
    pptx.update_cell i j (fun _ => cell')) t
  = if existsb (fun '(i, j) => match pptx.cell t i j with
                               | Some c => has_run c
                               | None => false
                               end) places
    then (Raise e, t) else (Ok tt, t).
Proof.
  intros He. induction places as [| [i j] places IH]; intros Hplaces; [reflexivity |].
  apply Forall_cons_1 in Hplaces as [[c Hc] Hplaces].
  cbn [for_each existsb]. rewrite Hc.
  unfold mbind at 1. unfold M_bind at 1.
  rewrite (size_one_cell_raise e t i j c He Hc).
  destruct (has_run c); [reflexivity |]. cbn [orb]. apply IH. assumption.
Qed.

End FontSizes.

(** The places that [_iter_cells] yields are those of the cells. *)
Lemma elem_of_iter_cells (t : pptx.Table) (i j : nat) :
  (i, j) ∈ pptxtk._iter_cells t <-> is_Some (pptx.cell t i j).
Proof.
  unfold pptxtk._iter_cells, enumerate, pptx.cell.
  rewrite list_elem_of_bind. split.
  - intros ([i' row] & Hin & Hrow).
    apply list_elem_of_bind in Hin as ([j' c] & Hy & Hc).
    apply list_elem_of_singleton in Hy. injection Hy as -> ->.
    apply elem_of_zip_seq in Hrow as [_ Hrow], Hc as [_ Hc].
    rewrite Nat.sub_0_r in Hrow, Hc. rewrite Hrow. cbn. rewrite Hc. eauto.
  - intros [c Hc].
    destruct (pptx.rows t !! i) as [row |] eqn:Hrow; [| discriminate].
    cbn in Hc. exists (i, row). split.
    + apply list_elem_of_bind. exists (j, c). split; [apply list_elem_of_singleton; reflexivity |].
      apply elem_of_zip_seq. rewrite Nat.sub_0_r. split; [lia | assumption].
    + apply elem_of_zip_seq. rewrite Nat.sub_0_r. split; [lia | assumption].
Qed.

(** *** [_add_table_from_lst]: the table it adds *)

Lemma lift_inv {St A B} (r : result A) (k : A -> M St B) (s s' : St) (b : B) :
  (lift r ≫= k) s = (Ok b, s') -> exists a, r = Ok a /\ k a s = (Ok b, s').
Proof.
  unfold mbind, M_bind, lift. destruct r as [a | e]; [eauto | discriminate].
Qed.

Section GetCm.
Variable Cm : Py.float -> result pptx.Length.

(** [_get_cm] returns when its conversions do: those of [left] and [top],
    and those of a [width] and a [height] that are not zero. *)
Lemma get_cm_inv (left top width height : Py.float) (l t : pptx.Length)
    (w h : option pptx.Length) :
  pptxtk._get_cm Cm left top (Some width) (Some height) = Ok (l, t, w, h) ->
  Cm left = Ok l /\ Cm top = Ok t /\
  (if Py.ftruthy width then exists w', Cm width = Ok w' /\ w = Some w' else w = None) /\
  (if Py.ftruthy height then exists h', Cm height = Ok h' /\ h = Some h' else h = None).
Proof.
  unfold pptxtk._get_cm.
  destruct (Cm left) as [l' | e]; [| discriminate].
  destruct (Cm top) as [t' | e]; [| discriminate]. cbn [mbind result_bind].
  destruct (Py.ftruthy width), (Py.ftruthy height);
    repeat match goal with
           | |- context [Cm ?x] => destruct (Cm x) as [? | ?]; cbn [mbind result_bind]
           end;
    try discriminate; intros [= <- <- <- <-]; eauto 10.
Qed.

Lemma get_cm_ok (left top width height : Py.float) (l t w h : pptx.Length) :
  Cm left = Ok l -> Cm top = Ok t -> Cm width = Ok w -> Cm height = Ok h ->
  Py.ftruthy width = true -> Py.ftruthy height = true ->
  pptxtk._get_cm Cm left top (Some width) (Some height) = Ok (l, t, Some w, Some h).
Proof.
  intros Hl Ht Hw Hh Hwidth Hheight. unfold pptxtk._get_cm.
  rewrite Hl, Ht, Hwidth, Hheight, Hw, Hh. reflexivity.
Qed.

End GetCm.

(** What [_add_table_from_lst] leaves on the slide when it returns; [p] is
    the size [Pt(font_size)] when [font_size] is not zero. *)
Lemma add_table_from_lst_leaves
    (Cm Pt : Py.float -> result pptx.Length) (text_frame : string -> list pptx.Paragraph)
    {V : Type} `{Str V} (cols rows : list V) (values : list (list V))
    (left top width height : Py.float) (first_cell : string) (font_size : Py.float)
    (col_proportions : option (list Py.float)) (slide slide' : pptx.Slide)
    (p : pptx.Length) :
  pptxtk._add_table_from_lst Cm Pt text_frame cols rows values left top width height
    first_cell font_size col_proportions slide = (Ok tt, slide') ->
  (Py.ftruthy font_size = true -> Pt font_size = Ok p) ->
  exists g proportions l t w h,
    col_proportions = Some proportions /\
    Cm left = Ok l /\ Cm top = Ok t /\ Cm width = Ok w /\ Cm height = Ok h /\
    slide' = slide ++ [g] /\
    pptx.left g = l /\ pptx.top g = t /\ pptx.height g = h /\
    pptx.width g = foldr Z.add 0 (pptx.columns (pptx.table g)) /\
    sized_table (length rows + 1) (length cols + 1) (pptx.table g) /\
    (forall i proportion, proportions !! i = Some proportion ->
       exists wi, Cm (Py.fmul width proportion) = Ok wi /\
                  pptx.columns (pptx.table g) !! i = Some wi) /\
    filled_from
      (fun s => if Py.ftruthy font_size
                then map (map (pptx.set_size p)) (text_frame s)
                else text_frame s)
      cols rows values first_cell (pptx.table g).
Proof.
  intros Hrun Hpt. unfold pptxtk._add_table_from_lst in Hrun.
  apply lift_inv in Hrun as ([[[l t] w] h] & Hcm & Hrun).
  apply get_cm_inv in Hcm as (Hl & Ht & Hw & Hh).
  apply bind_inv in Hrun as (table & s1 & Hadd & Hrun).
  unfold pptx.add_table in Hadd.
  destruct w as [w |]; [| discriminate]. destruct h as [h |]; [| discriminate].
  destruct (Py.ftruthy width); [| discriminate]. destruct Hw as (w' & Hw & [= <-]).
  destruct (Py.ftruthy height); [| discriminate]. destruct Hh as (h' & Hh & [= <-]).
  injection Hadd as <- <-.
  apply bind_inv in Hrun as ([] & s2 & Hwidths & Hrun).
  apply bind_inv in Hrun as ([] & s3 & Hfill & Hsize).
  destruct col_proportions as [ps |]; [| discriminate].
  apply bind_inv in Hwidths as ([] & s1' & Hassert & Hwidths).
  unfold assert in Hassert.
  destruct (Py.feqb (Py.sum ps) (Py.float_of_Z 1)); [| discriminate].
  injection Hassert as <-.
  set (nrows := (length rows + 1)%nat) in *.
  set (ncols := (length cols + 1)%nat) in *.
  set (body := fun '(i, proportion) =>
                 w ← lift (Cm (Py.fmul width proportion));
                 pptx.set_column_width (length slide) i w) in *.
  match type of Hwidths with
  | _ ?s = _ => assert (Hloop : for_each (enumerate ps) body s = (Ok tt, s2))
                  by (destruct ps; exact Hwidths)
  end.
  clear Hwidths.
  set (set_to := fun (k : nat) (widths : list pptx.Length) =>
         forall i proportion, (i < k)%nat -> ps !! i = Some proportion ->
           exists wi, Cm (Py.fmul width proportion) = Ok wi /\ widths !! i = Some wi).
  assert (H2 : widths_in_place slide l t h nrows ncols (set_to (length ps)) s2).
  { refine (for_each_enumerate_ind
              (fun k => widths_in_place slide l t h nrows ncols (set_to k))
              body ps _ _ Hloop _ _).
    - exists (replicate (ncols - 1) (w / Z.of_nat ncols)
              ++ replicate (Nat.min ncols 1)
                   (w - Z.of_nat (ncols - 1) * (w / Z.of_nat ncols))).
      split; [| split; [| intros i q Hi; lia]].
      + rewrite sum_even_split by (unfold ncols; lia). reflexivity.
      + rewrite length_app, !length_replicate. unfold ncols. lia.
    - intros k q s s' Hq (widths & -> & Hlen & Hset) Hbody.
      unfold body in Hbody. apply lift_inv in Hbody as (wk & Hwk & Hbody).
      rewrite set_column_width_at_end in Hbody. cbn [pptx.table pptx.columns] in Hbody.
      match type of Hbody with
      | match ?x with _ => _ end = _ => destruct x as [w0 |] eqn:Hw0; [| discriminate]
      end.
      cbn in Hbody. injection Hbody as <-.
      eexists. split; [reflexivity |]. split; [rewrite length_insert; assumption |].
      intros i q' Hi Hq'. destruct (decide (i = k)) as [-> | Hne].
      + exists wk. split; [congruence |].
        apply list_lookup_insert_eq. eapply lookup_lt_Some. eassumption.
      + rewrite list_lookup_insert_ne by congruence. apply Hset; [lia | assumption]. }
  destruct H2 as (widths & -> & Hlen & Hset).
  rewrite pptx_on_table_at_end in Hfill.
  cbn [pptx.table pptx.left pptx.top pptx.width pptx.height] in Hfill.
  destruct (pptxtk._populate_table text_frame cols rows values first_cell
              {| pptx.columns := widths;
                 pptx.rows := replicate nrows (replicate ncols [[]]) |})
    as [r t3] eqn:Hpopulate.
  cbn [fst snd] in Hfill. injection Hfill as -> <-.
  apply populate_table_leaves in Hpopulate as (Hc & Hs & H00 & Hhdr & Hrowh & Hdat).
  cbn [pptx.columns pptx.rows] in Hc, Hs. rewrite map_length_replicate in Hs.
  subst widths.
  assert (Hfilled : filled_from text_frame cols rows values first_cell t3).
  { split; [assumption |]. split; [| split].
    - intros j col Hcol. apply Hhdr; [| assumption]. eapply lookup_lt_Some. eassumption.
    - intros i row Hrow. apply Hrowh; [| assumption]. eapply lookup_lt_Some. eassumption.
    - intros i j vs v Hi Hj Hvs Hv. apply (Hdat i j vs v); [lia | assumption ..]. }
  clear H00 Hhdr Hrowh Hdat.
  assert (Hwidths : forall i proportion, ps !! i = Some proportion ->
            exists wi, Cm (Py.fmul width proportion) = Ok wi /\
                       pptx.columns t3 !! i = Some wi).
  { intros i q Hq. apply Hset; [| assumption]. eapply lookup_lt_Some. eassumption. }
  destruct (Py.ftruthy font_size).
  - rewrite pptx_on_table_at_end, (set_table_font_size_ok Pt font_size p _ (Hpt eq_refl))
      in Hsize.
    cbn [fst snd pptx.table pptx.left pptx.top pptx.width pptx.height] in Hsize.
    injection Hsize as <-.
    eexists _, ps, l, t, w, h. do 5 (split; [first [reflexivity | assumption] |]).
    split; [reflexivity |].
    cbn [pptx.left pptx.top pptx.width pptx.height pptx.table pptx.columns].
    do 3 (split; [reflexivity |]).
    split; [reflexivity |]. split; [| split].
    + split; cbn [pptx.columns pptx.rows]; [exact Hlen |].
      rewrite map_length_map_map. exact Hs.
    + exact Hwidths.
    + destruct t3 as [cols3 rows3]. cbn [pptx.columns pptx.rows].
      destruct Hfilled as (H00 & Hhdr & Hrowh & Hdat).
      split; [| split; [| split]]; intros; rewrite pptx_cell_map.
      * rewrite H00. reflexivity.
      * erewrite Hhdr by eassumption. reflexivity.
      * erewrite Hrowh by eassumption. reflexivity.
      * erewrite Hdat by eassumption. reflexivity.
  - injection Hsize as <-.
    eexists _, ps, l, t, w, h. do 5 (split; [first [reflexivity | assumption] |]).
    split; [reflexivity |].
    cbn [pptx.left pptx.top pptx.width pptx.height pptx.table].
    do 3 (split; [reflexivity |]).
    split; [reflexivity |]. split; [| split].
    + split; [first [exact Hlen | congruence] | exact Hs].
    + exact Hwidths.
    + exact Hfilled.
Qed.

(** When [_add_table_from_lst] returns, column proportions were given, the
    four conversions of [_get_cm] have returned, and the slide has one more
    shape, at the end: a table at [Cm(left)] and [Cm(top)], of the height
    [Cm(height)], with one row more than the row labels and one column more
    than the column labels. Column [i] has the width
    [Cm(width * col_proportions[i])], and the table is as wide as its columns
    together, which python-pptx makes it when the width of a column is set.
    The cells hold the text frames of [first_cell], of the labels and of the
    values; when [font_size] is not zero and [Pt(font_size)] is [p], every
    run of them has the size [p]. *)
Theorem add_table_from_lst_table :
  forall (Cm Pt : Py.float -> result pptx.Length)
         (text_frame : string -> list pptx.Paragraph)
         (V : Type) (StrV : Str V) (cols rows : list V) (values : list (list V))
         (left top width height : Py.float) (first_cell : string) (font_size : Py.float)
         (col_proportions : option (list Py.float)) (slide slide' : pptx.Slide)
         (p : pptx.Length),
    pptxtk._add_table_from_lst Cm Pt text_frame cols rows values left top width height
      first_cell font_size col_proportions slide = (Ok tt, slide') ->
    (Py.ftruthy font_size = true -> Pt font_size = Ok p) ->
    exists g proportions l t w h,
      col_proportions = Some proportions /\
      Cm left = Ok l /\ Cm top = Ok t /\ Cm width = Ok w /\ Cm height = Ok h /\
      slide' = slide ++ [g] /\
      pptx.left g = l /\ pptx.top g = t /\ pptx.height g = h /\
      pptx.width g = foldr Z.add 0 (pptx.columns (pptx.table g)) /\
      sized_table (length rows + 1) (length cols + 1) (pptx.table g) /\
      (forall i proportion, proportions !! i = Some proportion ->
         exists wi, Cm (Py.fmul width proportion) = Ok wi /\
                    pptx.columns (pptx.table g) !! i = Some wi) /\
      filled_from
        (fun s => if Py.ftruthy font_size
                  then map (map (pptx.set_size p)) (text_frame s)
                  else text_frame s)
        cols rows values first_cell (pptx.table g).
Proof.
  intros Cm Pt text_frame V StrV cols rows values left top width height first_cell
    font_size col_proportions slide slide' p Hrun Hpt.
  exact (add_table_from_lst_leaves Cm Pt text_frame cols rows values left top width height
           first_cell font_size col_proportions slide slide' p Hrun Hpt).
Qed.

Lemma add_table_from_lst_table_witness :
  exists g,
    pptxtk._add_table_from_lst pptx.Cm pptx.Pt pptx.one_line ["a"] ["r"] [["1"]]
      (Py.float_of_Z 1) (Py.float_of_Z 2) (Py.float_of_Z 12) (Py.float_of_Z 5)
      " " (Py.float_of_Z 12) (Some [Py.decimal 1 1; Py.decimal 9 1]) []
    = (Ok tt, [g]) /\
    pptx.left g = 360000 /\
    pptx.columns (pptx.table g) !! 0%nat = Some 432000 /\
    pptx.columns (pptx.table g) !! 1%nat = Some 3888000 /\
    pptx.width g = foldr Z.add 0 (pptx.columns (pptx.table g)) /\
    pptx.cell (pptx.table g) 1 1 = Some [[{| pptx.text := "1"; pptx.size := Some 152400 |}]].
Proof.
  assert (Hrun : pptxtk._add_table_from_lst pptx.Cm pptx.Pt pptx.one_line ["a"] ["r"] [["1"]]
                   (Py.float_of_Z 1) (Py.float_of_Z 2) (Py.float_of_Z 12) (Py.float_of_Z 5)
                   " " (Py.float_of_Z 12) (Some [Py.decimal 1 1; Py.decimal 9 1]) []
                 = (Ok tt,
                    snd (pptxtk._add_table_from_lst pptx.Cm pptx.Pt pptx.one_line
                           ["a"] ["r"] [["1"]]
                           (Py.float_of_Z 1) (Py.float_of_Z 2) (Py.float_of_Z 12)
                           (Py.float_of_Z 5) " " (Py.float_of_Z 12)
                           (Some [Py.decimal 1 1; Py.decimal 9 1]) [])))
    by (vm_compute; reflexivity).
  assert (Hpt : Py.ftruthy (Py.float_of_Z 12) = true -> pptx.Pt (Py.float_of_Z 12) = Ok 152400)
    by (intros _; vm_compute; reflexivity).
  destruct (add_table_from_lst_table pptx.Cm pptx.Pt pptx.one_line string str_string
              ["a"] ["r"] [["1"]]
              (Py.float_of_Z 1) (Py.float_of_Z 2) (Py.float_of_Z 12) (Py.float_of_Z 5)
              " " (Py.float_of_Z 12) (Some [Py.decimal 1 1; Py.decimal 9 1]) [] _ 152400
              Hrun Hpt)
    as (g & ps & l & t & w & h & Hps & Hl & _ & _ & _ & Hslide & Hleft & _ & _ & Hwidth
        & _ & Hwidths & Hcells).
  injection Hps as <-.
  exists g. split; [rewrite Hrun, Hslide; reflexivity |].
  split; [| split; [| split; [| split; [exact Hwidth |]]]].
  - rewrite Hleft. assert (Hl' : pptx.Cm (Py.float_of_Z 1) = Ok 360000)
      by (vm_compute; reflexivity).
    congruence.
  - destruct (Hwidths 0%nat (Py.decimal 1 1) eq_refl) as (w0 & Hw0 & Hcol).
    assert (Hw0' : pptx.Cm (Py.fmul (Py.float_of_Z 12) (Py.decimal 1 1)) = Ok 432000)
      by (vm_compute; reflexivity).
    rewrite Hw0' in Hw0. injection Hw0 as <-. exact Hcol.
  - destruct (Hwidths 1%nat (Py.decimal 9 1) eq_refl) as (w1 & Hw1 & Hcol).
    assert (Hw1' : pptx.Cm (Py.fmul (Py.float_of_Z 12) (Py.decimal 9 1)) = Ok 3888000)
      by (vm_compute; reflexivity).
    rewrite Hw1' in Hw1. injection Hw1 as <-. exact Hcol.
  - destruct Hcells as (_ & _ & _ & Hdat).
    refine (eq_trans (Hdat 0%nat 0%nat ["1"] "1" _ _ eq_refl eq_refl) _);
      [simpl; lia | simpl; lia | vm_compute; reflexivity].
Defined.

(** *** [add_table_from_df]: the font size *)

Lemma all_runs_sized (p : pptx.Length) (rs : list (list pptx.Cell)) :
  Forall (Forall (Forall (Forall (fun r => pptx.size r = Some p))))
         (map (map (map (map (pptx.set_size p)))) rs).
Proof.
  repeat (apply Forall_fmap, Forall_true; intros ?). reflexivity.
Qed.

(** C9: whatever [font_size] is passed to [add_table_from_df], the call is
    the one with a font size of 12. When it returns, with [p] for [Pt(12)],
    it has added one table with a row for every index label and a column
    for every column label, after the first ones, whose cells hold the text
    frames of [first_cell], of the labels and of the values with every run
    set to the size [p]; no run of the table has another size. *)
Theorem add_table_from_df_font_size :
  forall (Cm Pt : Py.float -> result pptx.Length)
         (text_frame : string -> list pptx.Paragraph)
         (V : Type) (StrV : Str V) (df : pd.DataFrame V)
         (left top width height : Py.float) (col_proportions : option (list Py.float))
         (first_cell : string) (font_size : Py.float) (slide slide' : pptx.Slide)
         (p : pptx.Length),
    pptxtk.add_table_from_df Cm Pt text_frame df left top width height
      col_proportions first_cell font_size slide = (Ok tt, slide') ->
    Pt (Py.float_of_Z 12) = Ok p ->
    pptxtk.add_table_from_df Cm Pt text_frame df left top width height
      col_proportions first_cell font_size
    = pptxtk.add_table_from_df Cm Pt text_frame df left top width height
        col_proportions first_cell (Py.float_of_Z 12) /\
    exists g,
      slide' = slide ++ [g] /\
      sized_table (length (pd.index df) + 1) (length (pd.columns df) + 1) (pptx.table g) /\
      filled_from (fun s => map (map (pptx.set_size p)) (text_frame s))
        (pd.columns df) (pd.index df) (pd.values df) first_cell (pptx.table g) /\
      Forall (Forall (Forall (Forall (fun r => pptx.size r = Some p))))
             (pptx.rows (pptx.table g)).
Proof.
  intros Cm Pt text_frame V StrV df left top width height col_proportions
    first_cell font_size slide slide' p Hrun Hp.
  split; [reflexivity |].
  unfold pptxtk.add_table_from_df in Hrun.
  pose proof Hrun as Hleaves.
  apply (add_table_from_lst_leaves _ _ _ _ _ _ _ _ _ _ _ _ _ _ _ p) in Hleaves;
    [| intros _; exact Hp].
  destruct Hleaves as (g & ps & l & t & w & h & _ & _ & _ & _ & _ & Hslide & _ & _ & _ & _
                       & Hsized & _ & Hfilled).
  exists g. split; [assumption |]. split; [assumption |]. split; [exact Hfilled |].
  (* every run: the last step of the call is the setting of the sizes *)
  unfold pptxtk._add_table_from_lst in Hrun.
  apply lift_inv in Hrun as ([[[l' t'] w'] h'] & _ & Hrun).
  apply bind_inv in Hrun as (table & s1 & Hadd & Hrun).
  assert (Htable : table = length slide).
  { unfold pptx.add_table in Hadd. destruct w', h'; try discriminate. congruence. }
  subst table.
  apply bind_inv in Hrun as ([] & s2 & _ & Hrun).
  apply bind_inv in Hrun as ([] & s3 & Hfill & Hsize).
  change (Py.ftruthy (Py.float_of_Z 12)) with true in Hsize. cbv iota in Hsize.
  unfold pptx.on_table in Hsize.
  destruct (s3 !! length slide) as [g3 |]; [| discriminate].
  rewrite (set_table_font_size_ok Pt _ p _ Hp) in Hsize. injection Hsize as Hs3.
  rewrite Hslide in Hs3.
  assert (Hg : (slide ++ [g]) !! length slide = Some g).
  { unfold pptx.Slide in *. rewrite lookup_app_r, Nat.sub_diag by lia. reflexivity. }
  rewrite <- Hs3 in Hg.
  apply list_lookup_insert_Some in Hg as [(_ & Hg & _) | [Hne _]]; [| congruence].
  rewrite <- Hg. cbn [pptx.table pptx.rows]. apply all_runs_sized.
Qed.

(** A frame of one row and one column, with headers, added to an empty slide
    with a requested font size of 20: the call returns, the cell of the value
    holds its text at the size [Pt(12) = 152400], and so does every run. *)
Lemma add_table_from_df_font_size_witness :
  let df := {| pd.index := ["r1"]; pd.columns := ["a"]; pd.values := [["1"]] |} in
  let call font_size :=
    pptxtk.add_table_from_df pptx.Cm pptx.Pt pptx.one_line df
      (Py.float_of_Z 1) (Py.float_of_Z 2) (Py.float_of_Z 10) (Py.float_of_Z 5)
      (Some [Py.decimal 5 1; Py.decimal 5 1]) " " font_size in
  fst (call (Py.float_of_Z 20) []) = Ok tt /\
  call (Py.float_of_Z 20) = call (Py.float_of_Z 12) /\
  exists g,
    snd (call (Py.float_of_Z 20) []) = [] ++ [g] /\
    pptx.cell (pptx.table g) 1 1
    = Some [[{| pptx.text := "1"; pptx.size := Some 152400 |}]] /\
    Forall (Forall (Forall (Forall (fun r => pptx.size r = Some 152400))))
           (pptx.rows (pptx.table g)).
Proof.
  cbv zeta. split; [vm_compute; reflexivity |].
  assert (Hrun :
    pptxtk.add_table_from_df pptx.Cm pptx.Pt pptx.one_line
      {| pd.index := ["r1"]; pd.columns := ["a"]; pd.values := [["1"]] |}
      (Py.float_of_Z 1) (Py.float_of_Z 2) (Py.float_of_Z 10) (Py.float_of_Z 5)
      (Some [Py.decimal 5 1; Py.decimal 5 1]) " " (Py.float_of_Z 20) []
    = (Ok tt,
       snd (pptxtk.add_table_from_df pptx.Cm pptx.Pt pptx.one_line
              {| pd.index := ["r1"]; pd.columns := ["a"]; pd.values := [["1"]] |}
              (Py.float_of_Z 1) (Py.float_of_Z 2) (Py.float_of_Z 10) (Py.float_of_Z 5)
              (Some [Py.decimal 5 1; Py.decimal 5 1]) " " (Py.float_of_Z 20) [])))
    by (vm_compute; reflexivity).
  assert (Hp : pptx.Pt (Py.float_of_Z 12) = Ok 152400) by (vm_compute; reflexivity).
  destruct (add_table_from_df_font_size pptx.Cm pptx.Pt pptx.one_line string str_string
              {| pd.index := ["r1"]; pd.columns := ["a"]; pd.values := [["1"]] |}
              (Py.float_of_Z 1) (Py.float_of_Z 2) (Py.float_of_Z 10) (Py.float_of_Z 5)
              (Some [Py.decimal 5 1; Py.decimal 5 1]) " " (Py.float_of_Z 20) [] _ 152400
              Hrun Hp)
    as (Hsame & g & Hslide & _ & (_ & _ & _ & Hdat) & Hall).
  split; [exact Hsame |].
  exists g. split; [exact Hslide |]. split; [| exact Hall].
  exact (Hdat 0%nat 0%nat ["1"] "1" ltac:(simpl; lia) ltac:(simpl; lia) eq_refl eq_refl).
Defined.

(** *** [_set_table_font_size] on every table *)

(** When [Pt(pt)] returns a size, [_set_table_font_size] returns on every
    table, whatever the number of cells of its rows. It leaves the columns
    as they are and, in every cell, the paragraphs and the runs with their
    texts; every run has the size afterwards. *)
Theorem set_table_font_size_cells :
  forall (Pt : Py.float -> result pptx.Length) (pt : Py.float) (t : pptx.Table)
         (p : pptx.Length),
    Pt pt = Ok p ->
    exists t',
      pptxtk._set_table_font_size Pt pt t = (Ok tt, t') /\
      pptx.columns t' = pptx.columns t /\
      forall r c,
        pptx.cell t' r c = map (map (pptx.set_size p)) <$> pptx.cell t r c /\
        map (map pptx.text) <$> pptx.cell t' r c = map (map pptx.text) <$> pptx.cell t r c /\
        forall cell, pptx.cell t' r c = Some cell ->
                     Forall (Forall (fun run => pptx.size run = Some p)) cell.
Proof.
  intros Pt pt t p Hp. eexists. split; [apply set_table_font_size_ok; exact Hp |].
  split; [reflexivity |]. intros r c.
  destruct t as [cols rs]. cbn [pptx.columns pptx.rows]. rewrite pptx_cell_map.
  split; [reflexivity |]. split.
  - destruct (pptx.cell {| pptx.columns := cols; pptx.rows := rs |} r c) as [cell |];
      [| reflexivity].
    cbn. f_equal. induction cell as [| par cell IH]; [reflexivity |].
    cbn [map]. rewrite IH. f_equal.
    induction par as [| run par IHp]; [reflexivity |]. cbn [map]. rewrite IHp. reflexivity.
  - intros cell Hcell.
    destruct (pptx.cell {| pptx.columns := cols; pptx.rows := rs |} r c) as [old |];
      [| discriminate].
    injection Hcell as <-.
    repeat (apply Forall_fmap, Forall_true; intros ?). reflexivity.
Qed.

Lemma set_table_font_size_cells_witness :
  exists t',
    pptxtk._set_table_font_size pptx.Pt (Py.float_of_Z 12)
      {| pptx.columns := [10];
         pptx.rows := [[pptx.one_line "a"; []]; []; [pptx.one_line "b"]] |}
    = (Ok tt, t') /\
    pptx.cell t' 2 0 = Some [[{| pptx.text := "b"; pptx.size := Some 152400 |}]].
Proof.
  destruct (set_table_font_size_cells pptx.Pt (Py.float_of_Z 12)
              {| pptx.columns := [10];
                 pptx.rows := [[pptx.one_line "a"; []]; []; [pptx.one_line "b"]] |}
              152400 ltac:(vm_compute; reflexivity))
    as (t' & Hrun & _ & Hcells).
  exists t'. split; [exact Hrun |].
  destruct (Hcells 2%nat 0%nat) as [Hcell _]. exact Hcell.
Defined.

(** When [Pt(pt)] raises, on a NaN or an infinite [pt], [_set_table_font_size]
    raises the same at the first run it meets and has changed nothing by
    then; on a table without a run it returns, the table being as it
    was. *)
Theorem set_table_font_size_raises :
  forall (Pt : Py.float -> result pptx.Length) (pt : Py.float) (t : pptx.Table)
         (e : exn),
    Pt pt = Raise e ->
    ((exists r c cell, pptx.cell t r c = Some cell /\ has_run cell = true) ->
     pptxtk._set_table_font_size Pt pt t = (Raise e, t)) /\
    ((forall r c cell, pptx.cell t r c = Some cell -> has_run cell = false) ->
     pptxtk._set_table_font_size Pt pt t = (Ok tt, t)).
Proof.
  intros Pt pt t e He. unfold pptxtk._set_table_font_size.
  rewrite (set_font_size_raise_from Pt pt e t _ He).
  2:{ apply Forall_forall. intros [i j] Hin. apply elem_of_iter_cells, list_elem_of_In, Hin. }
  split.
  - intros (r & c & cell & Hcell & Hruns).
    replace (existsb _ _) with true; [reflexivity |]. symmetry.
    apply existsb_exists. exists (r, c). split.
    + apply list_elem_of_In, elem_of_iter_cells. rewrite Hcell. eauto.
    + rewrite Hcell. exact Hruns.
  - intros Hnone. replace (existsb _ _) with false; [reflexivity |]. symmetry.
    apply not_true_is_false. intros Hsome.
    apply existsb_exists in Hsome as ([r c] & _ & Hruns).
    destruct (pptx.cell t r c) as [cell |] eqn:Hcell; [| discriminate].
    rewrite (Hnone r c cell Hcell) in Hruns. discriminate.
Qed.

Lemma set_table_font_size_raises_witness :
  pptx.Pt S754_nan = Raise ValueError /\
  pptxtk._set_table_font_size pptx.Pt S754_nan
    {| pptx.columns := [10]; pptx.rows := [[[[]]; pptx.one_line "a"]] |}
  = (Raise ValueError,
     {| pptx.columns := [10]; pptx.rows := [[[[]]; pptx.one_line "a"]] |}).
Proof.
  split; [reflexivity |].
  apply (set_table_font_size_raises pptx.Pt S754_nan
           {| pptx.columns := [10]; pptx.rows := [[[[]]; pptx.one_line "a"]] |}
           ValueError eq_refl).
  exists 0%nat, 1%nat, (pptx.one_line "a"). split; reflexivity.
Defined.

(** *** [_add_table_from_lst]: when it returns and when it raises *)

Lemma elem_of_enumerate {A} (xs : list A) (i : nat) (x : A) :
  (i, x) ∈ enumerate xs -> (i < length xs)%nat /\ x ∈ xs.
Proof.
  unfold enumerate. intros Hin. split.
  - apply elem_of_zip_l, elem_of_seq in Hin. lia.
  - apply elem_of_zip_r in Hin. exact Hin.
Qed.

Lemma sized_table_row (nrows ncols : nat) (t : pptx.Table) (i : nat) :
  sized_table nrows ncols t -> (i < nrows)%nat ->
  exists row, pptx.rows t !! i = Some row /\ length row = ncols.
Proof.
  intros [_ Hshape] Hi.
  assert (Hlookup : map length (pptx.rows t) !! i = Some ncols)
    by (rewrite Hshape; apply lookup_replicate_2; assumption).
  change (map length (pptx.rows t)) with (length <$> pptx.rows t) in Hlookup.
  rewrite list_lookup_fmap in Hlookup.
  destruct (pptx.rows t !! i) as [row |]; [| discriminate].
  injection Hlookup as Hrow. eauto.
Qed.

Section PptxSucceeds.
Variables (nrows ncols : nat).

Lemma pptx_update_cell_succeeds (i j : nat) (f : pptx.Cell -> pptx.Cell) :
  (i < nrows)%nat -> (j < ncols)%nat ->
  succeeds (sized_table nrows ncols) (fun _ => True) (pptx.update_cell i j f).
Proof.
  intros Hi Hj t Ht.
  destruct (sized_table_row _ _ _ _ Ht Hi) as (row & Hrow & Hlen).
  destruct (lookup_lt_is_Some_2 row j) as [c Hc]; [lia |].
  destruct (pptx.update_cell i j f t) as [r t'] eqn:Hrun.
  assert (Hok : r = Ok tt).
  { unfold pptx.update_cell in Hrun. rewrite Hrow, Hc in Hrun. congruence. }
  subst r. exists tt, t'. split; [reflexivity |]. split; [exact I |].
  apply pptx_update_cell in Hrun as (Hcols & Hshape & _).
  destruct Ht as [Hwidth Hrows]. split; congruence.
Qed.

Lemma set_column_width_succeeds (before : pptx.Slide) (i : nat) (w : pptx.Length) :
  (i < ncols)%nat ->
  succeeds (last_table before (sized_table nrows ncols)) (fun _ => True)
    (pptx.set_column_width (length before) i w).
Proof.
  intros Hi s (g & -> & Hwidth & Hrows). rewrite set_column_width_at_end.
  destruct (lookup_lt_is_Some_2 (pptx.columns (pptx.table g)) i) as [w0 Hw0]; [lia |].
  rewrite Hw0. exists tt. eexists. split; [reflexivity |]. split; [exact I |].
  eexists. split; [reflexivity |].
  split; cbn; [rewrite length_insert |]; assumption.
Qed.

Lemma on_last_table_succeeds {A} (before : pptx.Slide) (P : pptx.Table -> Prop)
    (Q : A -> Prop) (m : M pptx.Table A) :
  succeeds P Q m -> succeeds (last_table before P) Q (pptx.on_table (length before) m).
Proof.
  intros Hm s (g & -> & Hg). destruct (Hm _ Hg) as (a & t' & Hrun & Ha & Ht').
  rewrite pptx_on_table_at_end, Hrun. cbn [fst snd].
  exists a. eexists. split; [reflexivity |]. split; [assumption |].
  eexists. split; [reflexivity | exact Ht'].
Qed.

End PptxSucceeds.

(** [_populate_table] returns on a table with a row for every row label and
    a column for every column label, after the first ones, when the values
    reach as far as the labels. *)
Lemma populate_table_succeeds (text_frame : string -> list pptx.Paragraph) {V} `{Str V}
    (cols rows : list V) (values : list (list V)) (first_cell : string) :
  (length rows <= length values)%nat ->
  Forall (fun vs => (length cols <= length vs)%nat) values ->
  succeeds (sized_table (length rows + 1) (length cols + 1)) (fun _ => True)
    (pptxtk._populate_table text_frame cols rows values first_cell).
Proof.
  intros Hvalues Hwide. unfold pptxtk._populate_table, pptxtk.set_text.
  eapply succeeds_bind; [apply pptx_update_cell_succeeds; lia | intros _ _].
  eapply succeeds_bind; [| intros _ _].
  { apply succeeds_for_each. intros [j col] Hin. apply elem_of_enumerate in Hin as [Hin _].
    apply pptx_update_cell_succeeds; lia. }
  eapply succeeds_bind; [| intros _ _].
  { apply succeeds_for_each. intros [i row] Hin. apply elem_of_enumerate in Hin as [Hin _].
    apply pptx_update_cell_succeeds; lia. }
  apply succeeds_for_each. intros j Hj. apply list_elem_of_In, in_seq in Hj.
  apply succeeds_for_each. intros i Hi. apply list_elem_of_In, in_seq in Hi.
  apply succeeds_getitem_bind; [lia |]. intros vs Hvs.
  apply succeeds_getitem_bind.
  - apply list_elem_of_lookup_2, list_elem_of_In in Hvs.
    rewrite Forall_forall in Hwide. specialize (Hwide vs Hvs). lia.
  - intros v _. apply pptx_update_cell_succeeds; lia.
Qed.

(** [_add_table_from_lst] returns when the conversions return, those of
    [left], [top], [width] and [height] to centimetres, of the width of
    every column, and of a [font_size] that is not zero to points; the
    width and the height are not zero; the column proportions sum to 1.0
    and are not more than the columns of the table; and the values have a
    row for every row label and, in every row, a cell for every column
    label. *)
Theorem add_table_from_lst_returns :
  forall (Cm Pt : Py.float -> result pptx.Length)
         (text_frame : string -> list pptx.Paragraph)
         (V : Type) (StrV : Str V) (cols rows : list V) (values : list (list V))
         (left top width height : Py.float) (first_cell : string) (font_size : Py.float)
         (proportions : list Py.float) (slide : pptx.Slide),
    is_ok (Cm left) = true -> is_ok (Cm top) = true ->
    is_ok (Cm width) = true -> is_ok (Cm height) = true ->
    Forall (fun proportion => is_ok (Cm (Py.fmul width proportion)) = true) proportions ->
    (Py.ftruthy font_size = true -> is_ok (Pt font_size) = true) ->
    Py.ftruthy width = true -> Py.ftruthy height = true ->
    Py.feqb (Py.sum proportions) (Py.float_of_Z 1) = true ->
    (length proportions <= length cols + 1)%nat ->
    (length rows <= length values)%nat ->
    Forall (fun vs => (length cols <= length vs)%nat) values ->
    fst (pptxtk._add_table_from_lst Cm Pt text_frame cols rows values
           left top width height first_cell font_size (Some proportions) slide) = Ok tt.
Proof.
  intros Cm Pt text_frame V StrV cols rows values left top width height first_cell
    font_size proportions slide Hl Ht Hw Hh Hcolumns Hpt Hwidth Hheight Hsum Hcount
    Hvalues Hwide.
  destruct (Cm left) as [l |] eqn:Hl'; [| discriminate].
  destruct (Cm top) as [t |] eqn:Ht'; [| discriminate].
  destruct (Cm width) as [w |] eqn:Hw'; [| discriminate].
  destruct (Cm height) as [h |] eqn:Hh'; [| discriminate].
  unfold pptxtk._add_table_from_lst.
  erewrite bind_ok
    by (unfold lift; erewrite get_cm_ok by eassumption; reflexivity).
  cbv beta iota. erewrite bind_ok by reflexivity.
  rewrite Hsum.
  set (nrows := (length rows + 1)%nat). set (ncols := (length cols + 1)%nat).
  set (in_place := last_table slide (sized_table nrows ncols)).
  apply (run_succeeds in_place (fun _ => True) (fun out => fst out = Ok tt)).
  - eapply succeeds_bind with (P := fun _ => True).
    { intros s Hs. exists tt, s. auto. }
    intros _ _. destruct proportions as [| q qs].
    { intros s Hs. exists tt, s. auto. }
    apply succeeds_for_each. intros [i q'] Hin. apply elem_of_enumerate in Hin as [Hi Hq'].
    rewrite Forall_forall in Hcolumns. apply list_elem_of_In, Hcolumns in Hq'.
    destruct (Cm (Py.fmul width q')) as [wi |] eqn:Hwi; [| discriminate].
    eapply succeeds_bind with (P := fun _ => True).
    { intros s Hs. exists wi, s. unfold lift. auto. }
    intros wi' _. apply set_column_width_succeeds. lia.
  - eexists. split; [reflexivity |]. split; cbn.
    + rewrite length_app, !length_replicate. lia.
    + apply map_length_replicate.
  - intros [] s2 _ Hs2.
    apply (run_succeeds in_place (fun _ => True) (fun out => fst out = Ok tt));
      [| exact Hs2 |].
    { apply on_last_table_succeeds, populate_table_succeeds; assumption. }
    intros [] s3 _ (g & -> & Hg).
    destruct (Py.ftruthy font_size); [| reflexivity].
    destruct (Pt font_size) as [p |] eqn:Hp; [| discriminate (Hpt eq_refl)].
    rewrite pptx_on_table_at_end, (set_table_font_size_ok Pt font_size p _ Hp). reflexivity.
Qed.

Lemma add_table_from_lst_returns_witness :
  fst (pptxtk._add_table_from_lst pptx.Cm pptx.Pt pptx.one_line
         ["a"; "b"] ["r"] [["1"; "2"; "3"]; ["4"; "5"]]
         (Py.float_of_Z 1) (Py.float_of_Z 2) (Py.float_of_Z 10) (Py.float_of_Z 5)
         " " (Py.float_of_Z 0) (Some [Py.decimal 5 1; Py.decimal 5 1]) []) = Ok tt.
Proof.
  apply (add_table_from_lst_returns pptx.Cm pptx.Pt pptx.one_line string str_string
           ["a"; "b"] ["r"] [["1"; "2"; "3"]; ["4"; "5"]]
           (Py.float_of_Z 1) (Py.float_of_Z 2) (Py.float_of_Z 10) (Py.float_of_Z 5)
           " " (Py.float_of_Z 0) [Py.decimal 5 1; Py.decimal 5 1] []).
  - vm_compute. reflexivity.
  - vm_compute. reflexivity.
  - vm_compute. reflexivity.
  - vm_compute. reflexivity.
  - repeat constructor.
  - intros Hzero. vm_compute in Hzero. discriminate.
  - vm_compute. reflexivity.
  - vm_compute. reflexivity.
  - vm_compute. reflexivity.
  - simpl. lia.
  - simpl. lia.
  - repeat constructor.
Defined.

(** A loop over [enumerate(xs)] raises what its body raises on the element
    of index [k], when the body has returned on the elements before it. *)
Lemma for_each_enumerate_raises {St A} (I : St -> Prop) (body : nat * A -> M St unit)
    (xs : list A) (k : nat) (e : exn) (s : St) :
  (k < length xs)%nat -> I s ->
  (forall i x t, (i < k)%nat -> xs !! i = Some x -> I t ->
                 exists t', body (i, x) t = (Ok tt, t') /\ I t') ->
  (forall x t, xs !! k = Some x -> I t -> exists t', body (k, x) t = (Raise e, t')) ->
  exists s', for_each (enumerate xs) body s = (Raise e, s').
Proof.
  unfold enumerate. intros Hk Hs Hbefore Hat.
  enough (Hgen : forall ys n t,
            (forall i x, ys !! i = Some x -> xs !! (n + i)%nat = Some x) ->
            (n <= k < n + length ys)%nat -> I t ->
            exists s', for_each (zip (seq n (length ys)) ys) body t = (Raise e, s')).
  { apply (Hgen xs 0%nat s); auto. lia. }
  clear s Hs. induction ys as [| y ys IH]; intros n t Hsub Hn Ht.
  - cbn in Hn. lia.
  - cbn [length seq zip zip_with for_each].
    assert (Hy : xs !! n = Some y).
    { rewrite <- (Nat.add_0_r n). apply Hsub. reflexivity. }
    destruct (decide (n = k)) as [-> | Hne].
    + destruct (Hat y t Hy Ht) as [t' Hraise].
      exists t'. apply bind_raise. assumption.
    + destruct (Hbefore n y t ltac:(lia) Hy Ht) as (t1 & Hok & Ht1).
      destruct (IH (S n) t1) as [s' Hrest]; [| cbn in Hn; lia | assumption |].
      * intros i x Hi. replace (S n + i)%nat with (n + S i)%nat by lia. apply Hsub. exact Hi.
      * exists s'. rewrite (bind_ok _ _ _ _ _ Hok). assumption.
Qed.

(** With more column proportions than the table has columns, which are the
    column labels and one more, [_add_table_from_lst] raises [IndexError]
    when the conversions to centimetres return, the width and the height
    are not zero and the proportions sum to 1.0: the width of a column that
    the table does not have is set. *)
Theorem add_table_from_lst_too_many_proportions :
  forall (Cm Pt : Py.float -> result pptx.Length)
         (text_frame : string -> list pptx.Paragraph)
         (V : Type) (StrV : Str V) (cols rows : list V) (values : list (list V))
         (left top width height : Py.float) (first_cell : string) (font_size : Py.float)
         (proportions : list Py.float) (slide : pptx.Slide),
    is_ok (Cm left) = true -> is_ok (Cm top) = true ->
    is_ok (Cm width) = true -> is_ok (Cm height) = true ->
    Forall (fun proportion => is_ok (Cm (Py.fmul width proportion)) = true) proportions ->
    Py.ftruthy width = true -> Py.ftruthy height = true ->
    Py.feqb (Py.sum proportions) (Py.float_of_Z 1) = true ->
    (length cols + 1 < length proportions)%nat ->
    fst (pptxtk._add_table_from_lst Cm Pt text_frame cols rows values
           left top width height first_cell font_size (Some proportions) slide)
    = Raise IndexError.
Proof.
  intros Cm Pt text_frame V StrV cols rows values left top width height first_cell
    font_size proportions slide Hl Ht Hw Hh Hcolumns Hwidth Hheight Hsum Hcount.
  destruct (Cm left) as [l |] eqn:Hl'; [| discriminate].
  destruct (Cm top) as [t |] eqn:Ht'; [| discriminate].
  destruct (Cm width) as [w |] eqn:Hw'; [| discriminate].
  destruct (Cm height) as [h |] eqn:Hh'; [| discriminate].
  unfold pptxtk._add_table_from_lst.
  erewrite bind_ok
    by (unfold lift; erewrite get_cm_ok by eassumption; reflexivity).
  cbv beta iota. erewrite bind_ok by reflexivity.
  rewrite Hsum.
  set (ncols := (length cols + 1)%nat) in *.
  set (table := {| pptx.columns := _; pptx.rows := _ |}).
  set (frame := {| pptx.left := l; pptx.table := table |}).
  destruct (for_each_enumerate_raises
              (last_table slide (fun t => length (pptx.columns t) = ncols))
              (fun '(i, proportion) =>
                 w ← lift (Cm (Py.fmul width proportion));
                 pptx.set_column_width (length slide) i w)
              proportions ncols IndexError (slide ++ [frame]))
    as [s' Hraise].
  - lia.
  - eexists. split; [reflexivity |]. cbn. rewrite length_app, !length_replicate. lia.
  - intros i q s Hi Hq (g & -> & Hg).
    rewrite Forall_forall in Hcolumns.
    pose proof (Hcolumns q (proj1 (list_elem_of_In _ _) (list_elem_of_lookup_2 _ _ _ Hq)))
      as Hwi.
    destruct (Cm (Py.fmul width q)) as [wi |] eqn:Hcm; [| discriminate].
    erewrite bind_ok by reflexivity.
    rewrite set_column_width_at_end.
    destruct (lookup_lt_is_Some_2 (pptx.columns (pptx.table g)) i) as [w0 Hw0]; [lia |].
    rewrite Hw0. eexists. split; [reflexivity |].
    eexists. split; [reflexivity |]. cbn. rewrite length_insert. assumption.
  - intros q s Hq (g & -> & Hg).
    rewrite Forall_forall in Hcolumns.
    pose proof (Hcolumns q (proj1 (list_elem_of_In _ _) (list_elem_of_lookup_2 _ _ _ Hq)))
      as Hwi.
    destruct (Cm (Py.fmul width q)) as [wi |] eqn:Hcm; [| discriminate].
    erewrite bind_ok by reflexivity.
    rewrite set_column_width_at_end.
    rewrite (lookup_ge_None_2 (pptx.columns (pptx.table g)) ncols) by lia.
    eexists. reflexivity.
  - erewrite bind_raise; [reflexivity |].
    erewrite bind_ok by reflexivity.
    destruct proportions as [| q qs]; [cbn in Hcount; lia | exact Hraise].
Qed.

Lemma add_table_from_lst_too_many_proportions_witness :
  fst (pptxtk._add_table_from_lst pptx.Cm pptx.Pt pptx.one_line ["a"] ["r"] [["1"]]
         (Py.float_of_Z 1) (Py.float_of_Z 2) (Py.float_of_Z 10) (Py.float_of_Z 5)
         " " (Py.float_of_Z 12)
         (Some [Py.decimal 5 1; Py.decimal 25 2; Py.decimal 25 2]) [])
  = Raise IndexError.
Proof.
  apply (add_table_from_lst_too_many_proportions pptx.Cm pptx.Pt pptx.one_line
           string str_string ["a"] ["r"] [["1"]]
           (Py.float_of_Z 1) (Py.float_of_Z 2) (Py.float_of_Z 10) (Py.float_of_Z 5)
           " " (Py.float_of_Z 12) [Py.decimal 5 1; Py.decimal 25 2; Py.decimal 25 2] []).
  - vm_compute. reflexivity.
  - vm_compute. reflexivity.
  - vm_compute. reflexivity.
  - vm_compute. reflexivity.
  - repeat constructor.
  - vm_compute. reflexivity.
  - vm_compute. reflexivity.
  - vm_compute. reflexivity.
  - simpl. lia.
Defined.

(** *** The pptx table functions without column proportions *)

(** What [_add_table_from_lst] does up to the assertion: the conversions
    of [_get_cm], then the empty table. *)
Lemma add_table_from_lst_start
    (Cm Pt : Py.float -> result pptx.Length) (text_frame : string -> list pptx.Paragraph)
    {V : Type} `{Str V} (cols rows : list V) (values : list (list V))
    (left top width height : Py.float) (first_cell : string) (font_size : Py.float)
    (col_proportions : option (list Py.float)) (slide : pptx.Slide) :
  match pptxtk._get_cm Cm left top (Some width) (Some height) with
  | Raise e =>
      pptxtk._add_table_from_lst Cm Pt text_frame cols rows values left top width height
        first_cell font_size col_proportions slide = (Raise e, slide)
  | Ok (_, _, None, _) | Ok (_, _, _, None) =>
      pptxtk._add_table_from_lst Cm Pt text_frame cols rows values left top width height
        first_cell font_size col_proportions slide = (Raise TypeError, slide)
  | Ok (l, t, Some w, Some h) =>
      exists frame,
        pptx.add_table (length rows + 1) (length cols + 1) l t (Some w) (Some h) slide
        = (Ok (length slide), slide ++ [frame]) /\
        pptxtk._add_table_from_lst Cm Pt text_frame cols rows values left top width height
          first_cell font_size col_proportions slide
        = ((match col_proportions with
            | None => mthrow TypeError
            | Some ps =>
                assert (Py.feqb (Py.sum ps) (Py.float_of_Z 1)) EmptyString ;;
                match ps with
                | [] => mret tt
                | _ => for_each (enumerate ps) (fun '(i, proportion) =>
                         w ← lift (Cm (Py.fmul width proportion));
                         pptx.set_column_width (length slide) i w)
                end
            end) ;;
           pptx.on_table (length slide)
             (pptxtk._populate_table text_frame cols rows values first_cell) ;;
           (if Py.ftruthy font_size
            then pptx.on_table (length slide) (pptxtk._set_table_font_size Pt font_size)
            else mret tt)) (slide ++ [frame])
  end.
Proof.
  unfold pptxtk._add_table_from_lst.
  destruct (pptxtk._get_cm Cm left top (Some width) (Some height))
    as [[[[l t] [w |]] [h |]] | e]; try reflexivity.
  eexists. split; reflexivity.
Qed.

(** C8, amended: with [col_proportions] left at [None], [_add_table_from_lst]
    and [add_table_from_df] never return. They raise what [_get_cm] raises when
    one of its conversions fails, the first that does, and [TypeError] when
    [_get_cm] returns: the table is added, or refused for a size of zero,
    and then [sum] is applied to [None], before the test
    [if col_proportions]. *)
Theorem add_table_without_proportions :
  forall (Cm Pt : Py.float -> result pptx.Length)
         (text_frame : string -> list pptx.Paragraph)
         (V : Type) (StrV : Str V)
         (cols rows : list V) (values : list (list V)) (df : pd.DataFrame V)
         (left top width height : Py.float) (first_cell : string) (font_size : Py.float)
         (slide : pptx.Slide),
    let raised :=
      match pptxtk._get_cm Cm left top (Some width) (Some height) with
      | Ok _ => Raise TypeError
      | Raise e => Raise e
      end in
    fst (pptxtk._add_table_from_lst Cm Pt text_frame cols rows values
           left top width height first_cell font_size None slide) = raised /\
    fst (pptxtk.add_table_from_df Cm Pt text_frame df
           left top width height None first_cell font_size slide) = raised /\
    is_ok raised = false.
Proof.
  intros Cm Pt text_frame V StrV cols rows values df left top width height first_cell
    font_size slide. cbv zeta. unfold pptxtk.add_table_from_df.
  pose proof (add_table_from_lst_start Cm Pt text_frame cols rows values left top width
                height first_cell font_size None slide) as Hlst.
  pose proof (add_table_from_lst_start Cm Pt text_frame (pd.columns df) (pd.index df)
                (pd.values df) left top width height first_cell (Py.float_of_Z 12)
                None slide) as Hdf.
  destruct (pptxtk._get_cm Cm left top (Some width) (Some height))
    as [[[[l t] [w |]] [h |]] | e];
    try (rewrite Hlst, Hdf; repeat split; reflexivity).
  destruct Hlst as (g & _ & ->), Hdf as (g' & _ & ->). repeat split; reflexivity.
Qed.

(** C8 as stated fails: the conversions of [_get_cm] come first, and
    [Cm(left)] is [int(left * 360000)], which raises [ValueError] for a NaN
    and [OverflowError] for an infinity or for 1e304, whose product with
    360000 is one. *)
Lemma add_table_without_proportions_conversion :
  let df := {| pd.index := ["r"]; pd.columns := ["a"]; pd.values := [["1"]] |} in
  let big := Py.float_of_Z (10 ^ 304) in
  fst (pptxtk._add_table_from_lst pptx.Cm pptx.Pt pptx.one_line ["a"] ["r"] [["1"]]
         S754_nan (Py.float_of_Z 2) (Py.float_of_Z 10) (Py.float_of_Z 5)
         " " (Py.float_of_Z 12) None []) = Raise ValueError /\
  fst (pptxtk.add_table_from_df pptx.Cm pptx.Pt pptx.one_line df
         S754_nan (Py.float_of_Z 2) (Py.float_of_Z 10) (Py.float_of_Z 5)
         None " " (Py.float_of_Z 12) []) = Raise ValueError /\
  fst (pptxtk.add_table_from_df pptx.Cm pptx.Pt pptx.one_line df
         (Py.float_of_Z 1) (Py.float_of_Z 2) (S754_infinity false) (Py.float_of_Z 5)
         None " " (Py.float_of_Z 12) []) = Raise OverflowError /\
  is_ok (Py.int (Py.Float big)) = true /\
  fst (pptxtk.add_table_from_df pptx.Cm pptx.Pt pptx.one_line df
         (Py.float_of_Z 1) (Py.float_of_Z 2) (Py.float_of_Z 10) big
         None " " (Py.float_of_Z 12) []) = Raise OverflowError.
Proof. vm_compute. repeat split; reflexivity. Qed.

(** *** The assertion of the pptx table functions *)

(** When the conversions of [_get_cm] return and neither the width nor the
    height is zero, [_add_table_from_lst] raises an assertion error if the
    column proportions it is given do not sum to 1.0; it has added the
    empty table to the slide by then. *)
Theorem add_table_proportions_checked :
  forall (Cm Pt : Py.float -> result pptx.Length)
         (text_frame : string -> list pptx.Paragraph)
         (V : Type) (StrV : Str V) (cols rows : list V) (values : list (list V))
         (left top width height : Py.float) (first_cell : string) (font_size : Py.float)
         (proportions : list Py.float) (slide : pptx.Slide),
    is_ok (Cm left) = true -> is_ok (Cm top) = true ->
    is_ok (Cm width) = true -> is_ok (Cm height) = true ->
    Py.ftruthy width = true -> Py.ftruthy height = true ->
    Py.feqb (Py.sum proportions) (Py.float_of_Z 1) = false ->
    fst (pptxtk._add_table_from_lst Cm Pt text_frame cols rows values
           left top width height first_cell font_size (Some proportions) slide)
    = Raise (AssertionError EmptyString) /\
    length (snd (pptxtk._add_table_from_lst Cm Pt text_frame cols rows values
                   left top width height first_cell font_size (Some proportions) slide))
    = S (length slide).
Proof.
  intros Cm Pt text_frame V StrV cols rows values left top width height first_cell
    font_size proportions slide Hl Ht Hw Hh Hwidth Hheight Hsum.
  destruct (Cm left) as [l |] eqn:Hl'; [| discriminate].
  destruct (Cm top) as [t |] eqn:Ht'; [| discriminate].
  destruct (Cm width) as [w |] eqn:Hw'; [| discriminate].
  destruct (Cm height) as [h |] eqn:Hh'; [| discriminate].
  pose proof (add_table_from_lst_start Cm Pt text_frame cols rows values left top width
                height first_cell font_size (Some proportions) slide) as Hstart.
  rewrite (get_cm_ok Cm left top width height l t w h) in Hstart by assumption.
  destruct Hstart as (g & _ & ->).
  rewrite Hsum. erewrite bind_raise by (erewrite bind_raise by reflexivity; reflexivity).
  split; [reflexivity |]. cbn [snd]. unfold pptx.Slide. rewrite length_app. cbn. lia.
Qed.

Lemma add_table_proportions_checked_witness :
  fst (pptxtk._add_table_from_lst pptx.Cm pptx.Pt pptx.one_line ["a"] ["r"] [["1"]]
         (Py.float_of_Z 1) (Py.float_of_Z 2) (Py.float_of_Z 10) (Py.float_of_Z 5)
         " " (Py.float_of_Z 12) (Some [Py.decimal 5 1; Py.decimal 4 1]) [])
  = Raise (AssertionError EmptyString) /\
  length (snd (pptxtk._add_table_from_lst pptx.Cm pptx.Pt pptx.one_line ["a"] ["r"] [["1"]]
                 (Py.float_of_Z 1) (Py.float_of_Z 2) (Py.float_of_Z 10) (Py.float_of_Z 5)
                 " " (Py.float_of_Z 12) (Some [Py.decimal 5 1; Py.decimal 4 1]) []))
  = 1%nat.
Proof.
  apply (add_table_proportions_checked pptx.Cm pptx.Pt pptx.one_line string str_string
           ["a"] ["r"] [["1"]]
           (Py.float_of_Z 1) (Py.float_of_Z 2) (Py.float_of_Z 10) (Py.float_of_Z 5)
           " " (Py.float_of_Z 12) [Py.decimal 5 1; Py.decimal 4 1] []);
    vm_compute; reflexivity.
Defined.

(** *** A width or a height of zero *)

(** A width or a height of zero, of either sign, is not converted by
    [_get_cm] but replaced by [None], which python-pptx does not take for
    the size of a table: when the conversions that [_get_cm] does make
    return, [_add_table_from_lst] and [add_table_from_df] raise [TypeError]
    and leave the slide as it was, whatever the other arguments are. *)
Theorem add_table_zero_size :
  forall (Cm Pt : Py.float -> result pptx.Length)
         (text_frame : string -> list pptx.Paragraph)
         (V : Type) (StrV : Str V) (cols rows : list V) (values : list (list V))
         (df : pd.DataFrame V) (left top width height : Py.float) (first_cell : string)
         (font_size : Py.float) (col_proportions : option (list Py.float))
         (slide : pptx.Slide),
    is_ok (Cm left) = true -> is_ok (Cm top) = true ->
    (Py.ftruthy width = true -> is_ok (Cm width) = true) ->
    (Py.ftruthy height = true -> is_ok (Cm height) = true) ->
    Py.feqb width (Py.float_of_Z 0) = true \/ Py.feqb height (Py.float_of_Z 0) = true ->
    pptxtk._add_table_from_lst Cm Pt text_frame cols rows values
      left top width height first_cell font_size col_proportions slide
    = (Raise TypeError, slide) /\
    pptxtk.add_table_from_df Cm Pt text_frame df
      left top width height col_proportions first_cell font_size slide
    = (Raise TypeError, slide).
Proof.
  intros Cm Pt text_frame V StrV cols rows values df left top width height first_cell
    font_size col_proportions slide Hl Ht Hw Hh Hzero.
  unfold pptxtk.add_table_from_df.
  pose proof (add_table_from_lst_start Cm Pt text_frame cols rows values left top width
                height first_cell font_size col_proportions slide) as Hlst.
  pose proof (add_table_from_lst_start Cm Pt text_frame (pd.columns df) (pd.index df)
                (pd.values df) left top width height first_cell (Py.float_of_Z 12)
                col_proportions slide) as Hdf.
  assert (Hcm : exists l t w h,
             pptxtk._get_cm Cm left top (Some width) (Some height) = Ok (l, t, w, h) /\
             (w = None \/ h = None)).
  { unfold pptxtk._get_cm.
    destruct (Cm left) as [l |]; [| discriminate].
    destruct (Cm top) as [t |]; [| discriminate]. cbn [mbind result_bind].
    unfold Py.ftruthy in *. change (S754_zero false) with (Py.float_of_Z 0) in *.
    destruct (Py.feqb width (Py.float_of_Z 0)), (Py.feqb height (Py.float_of_Z 0));
      cbn [negb] in *;
      try (destruct (Cm width) as [w |]; [| discriminate (Hw eq_refl)]);
      try (destruct (Cm height) as [h |]; [| discriminate (Hh eq_refl)]);
      cbn [mbind result_bind];
      try (eexists _, _, _, _; split; [reflexivity |]; auto; fail).
    destruct Hzero; discriminate. }
  destruct Hcm as (l & t & w & h & Hcm & Hnone). rewrite Hcm in Hlst, Hdf.
  destruct Hnone as [-> | ->]; [| destruct w]; auto.
Qed.

Lemma add_table_zero_size_witness :
  pptxtk._add_table_from_lst pptx.Cm pptx.Pt pptx.one_line ["a"] ["r"] [["1"]]
    (Py.float_of_Z 1) (Py.float_of_Z 2) (Py.float_of_Z 10) (S754_zero true)
    " " (Py.float_of_Z 12) (Some [Py.float_of_Z 1]) []
  = (Raise TypeError, []).
Proof.
  apply (add_table_zero_size pptx.Cm pptx.Pt pptx.one_line string str_string
           ["a"] ["r"] [["1"]]
           {| pd.index := ["r"]; pd.columns := ["a"]; pd.values := [["1"]] |}
           (Py.float_of_Z 1) (Py.float_of_Z 2) (Py.float_of_Z 10) (S754_zero true)
           " " (Py.float_of_Z 12) (Some [Py.float_of_Z 1]) []).
  - vm_compute. reflexivity.
  - vm_compute. reflexivity.
  - intros _. vm_compute. reflexivity.
  - intros Hzero. vm_compute in Hzero. discriminate.
  - right. vm_compute. reflexivity.
Defined.

(** *** [_add_table_from_lst]: what it leaves alone *)

Lemma pptx_on_table_keeps {A} (before : pptx.Slide) (m : M pptx.Table A) :
  keeps (fun slide => exists added, slide = before ++ added)
        (pptx.on_table (length before) m).
Proof.
  intros slide [added ->]. unfold pptx.on_table, pptx.Slide in *.
  rewrite lookup_app_r, Nat.sub_diag by lia.
  destruct added as [| g added]; cbn [lookup list_lookup snd]; [eauto |].
  destruct (m (pptx.table g)) as [r t']. cbn [snd].
  rewrite insert_app_r_alt, Nat.sub_diag by lia. eauto.
Qed.

Lemma set_column_width_keeps (before : pptx.Slide) (i : nat) (w : pptx.Length) :
  keeps (fun slide => exists added, slide = before ++ added)
        (pptx.set_column_width (length before) i w).
Proof.
  intros slide [added ->]. unfold pptx.set_column_width, pptx.Slide in *.
  rewrite lookup_app_r, Nat.sub_diag by lia.
  destruct added as [| g added]; cbn [lookup list_lookup snd]; [eauto |].
  destruct (pptx.columns (pptx.table g) !! i); cbn [snd]; [| eauto].
  rewrite insert_app_r_alt, Nat.sub_diag by lia. eauto.
Qed.

(** Whether [_add_table_from_lst] returns or raises, the shapes that the
    slide had are still there, unchanged and in front: the call writes only
    in the table it has added. *)
Theorem add_table_from_lst_keeps_slide :
  forall (Cm Pt : Py.float -> result pptx.Length)
         (text_frame : string -> list pptx.Paragraph)
         (V : Type) (StrV : Str V) (cols rows : list V) (values : list (list V))
         (left top width height : Py.float) (first_cell : string) (font_size : Py.float)
         (col_proportions : option (list Py.float)) (slide : pptx.Slide),
    exists added,
      snd (pptxtk._add_table_from_lst Cm Pt text_frame cols rows values
             left top width height first_cell font_size col_proportions slide)
      = slide ++ added.
Proof.
  intros Cm Pt text_frame V StrV cols rows values left top width height first_cell
    font_size col_proportions slide.
  pose proof (add_table_from_lst_start Cm Pt text_frame cols rows values left top width
                height first_cell font_size col_proportions slide) as Hstart.
  destruct (pptxtk._get_cm Cm left top (Some width) (Some height))
    as [[[[l t] [w |]] [h |]] | e];
    try (rewrite Hstart; exists []; rewrite app_nil_r; reflexivity).
  destruct Hstart as (g & _ & ->).
  set (kept := fun s : pptx.Slide => exists added, s = slide ++ added).
  match goal with
  | |- exists added, snd (?m ?s) = _ =>
      assert (Hkeeps : keeps kept m); [| exact (Hkeeps s ltac:(eexists; reflexivity))]
  end.
  apply keeps_bind; [| intros _; apply keeps_bind; [| intros _]].
  - destruct col_proportions as [ps |]; [| apply keeps_throw].
    apply keeps_bind; [apply keeps_assert | intros _].
    destruct ps; [apply keeps_ret |].
    apply keeps_for_each. intros [i proportion].
    apply keeps_bind; [apply keeps_lift | intros wi]. apply set_column_width_keeps.
  - apply pptx_on_table_keeps.
  - destruct (Py.ftruthy font_size); [apply pptx_on_table_keeps | apply keeps_ret].
Qed.
